(** * AZTEC deployment and transaction helpers (aztec-contracts.js)

    A shallow embedding of [src/aztec-contracts.js] and the properties of
    its orchestration logic.

    The script talks to three collaborators it does not implement: the
    execution client ([besu.readContract], [Schema.new], contract method
    calls), the proof library ([note.create], [MintProof], [JoinSplitProof])
    and the console.  Every such call is an _external call_: an environment
    [Env] decides its result (a value or a thrown error) from the history of
    the run, and the call with its result is appended to a trace.  What the
    script itself does (the order of the calls, their arguments, the loops,
    the try/catch blocks, [process.exit]) is translated statement by
    statement into a state-and-exception monad over that trace.

    Numbers.  JavaScript numbers are IEEE-754 doubles.  Every number the
    helpers compute with is an integer: a note value read by
    [k.toNumber()], a sum or difference of such values, a loop index, a
    factory key.  An integer double is modelled by the integer it denotes,
    and an addition or subtraction by the exact result rounded to the
    nearest double, ties to even ([to_double]); the result is exact as long
    as it stays within [2^53] in magnitude, and rounds beyond.  Overflow to
    [Infinity] (magnitude [2^1024] and more) is left out: [toNumber()]
    yields at most 53 bits, and the sums of such values stay far below
    ([sums_stay_finite]). *)

From Stdlib Require Import ZArith List String Bool Lia.
From Stdlib Require SpecFloat.
Import ListNotations.

Set Warnings "-register-all".

Open Scope string_scope.
Open Scope list_scope.
Open Scope Z_scope.

(* ================================================================== *)
(** * Data *)

Definition Address := string.

(** [txOptions]: the script reads only [txOptions.from] and passes the object
    on unchanged. *)
Record TxOptions := { from : Address; gas : Z }.

(** The handle [besu.readContract] returns (interface and bytecode of one
    contract); the script only calls [.new] on it. *)
Record Artifact := { contractName : string; bytecode : string }.

(** A deployed contract; the script reads [.address] and calls methods. *)
Record Instance := { address : Address }.

(** A note of the proof library.  [k] is the number [note.k.toNumber()]
    yields, an integer of at most 53 bits; [noteHash] identifies the
    note. *)
Record Note := { noteHash : string; k : Z }.

(** [aztecAccount]: a key pair. *)
Record Account := { publicKey : string; privateKey : string }.

(** A proof object; the script reads [proof.hash]. *)
Record Proof := { hash : string }.

(** One entry of [receipt.logs]: [{event, args}]; [args] maps argument names
    to values, a name that is absent reads as [undefined]. *)
Record LogEntry := { event : string; args : list (string * string) }.

Record Receipt := { logs : list LogEntry }.

(** Thrown values.  [TypeError] and [ReferenceError] are raised by the
    language itself (a property of [undefined], an unbound global);
    [Failure] is whatever a collaborator throws. *)
Inductive Exn :=
| TypeError (msg : string)
| ReferenceError (msg : string)
| Failure (msg : string).

(** String conversion of a thrown value, as in ["... failed: " + error]. *)
Definition exn_toString (e : Exn) : string :=
  match e with
  | TypeError m => ("TypeError: " ++ m)%string
  | ReferenceError m => ("ReferenceError: " ++ m)%string
  | Failure m => m
  end.

Inductive Result (A : Type) :=
| Ok (a : A)
| Err (e : Exn).
Arguments Ok {A} a.
Arguments Err {A} e.

(** Arguments of constructor and method calls on contracts. *)
Inductive Arg :=
| ANum (n : Z)
| AStr (s : string)
| AAddr (a : Address)
| AList (l : list Arg)
| ATx (t : TxOptions).

(** What [console.log] is given: a string, a caught error, or the text
    [JSON.stringify(toPrint, null, 2)] of an object, kept as the list of the
    object's properties in insertion order ([None]: the property holds
    [undefined]). *)
Inductive LogMsg :=
| LStr (s : string)
| LExn (e : Exn)
| LJson (props : list (string * option string)).

(** External calls with their results, in the order they happen. *)
Inductive Event :=
| EReadContract (file : string) (r : Result Artifact)
| ENew (schema : Artifact) (ctorArgs : list Arg) (r : Result Instance)
| ESend (target : Instance) (method : string) (callArgs : list Arg)
        (r : Result Receipt)
| ECreateZeroValueNote (r : Result Note)
| ENoteCreate (pubKey : string) (value : Z) (r : Result Note)
| EMintProof (oldCounter newCounter : Note) (minted : list Note)
             (sender : Address) (r : Result Proof)
| EJoinSplitProof (inputs outputs : list Note) (sender : Address)
                  (publicValue : Z) (publicOwner : Address) (r : Result Proof)
| EEncodeABI (p : Proof) (validator : option Address) (r : Result string)
| EConstructSignatures (p : Proof) (validator : Address)
                       (owners : list Account) (r : Result string)
| ELog (m : LogMsg).

Definition Trace := list Event.

(** The collaborators.  Each operation sees the history of the run, so an
    environment may answer the same call differently at different times.
    The four constants come from [@aztec/dev-utils] and [@aztec/bn128]. *)
Record Env := {
  besu_readContract : Trace -> string -> Result Artifact;
  schema_new : Trace -> Artifact -> list Arg -> Result Instance;
  contract_send : Trace -> Instance -> string -> list Arg -> Result Receipt;
  note_createZeroValueNote : Trace -> Result Note;
  note_create : Trace -> string -> Z -> Result Note;
  new_MintProof : Trace -> Note -> Note -> list Note -> Address -> Result Proof;
  new_JoinSplitProof :
    Trace -> list Note -> list Note -> Address -> Z -> Address -> Result Proof;
  proof_encodeABI : Trace -> Proof -> option Address -> Result string;
  proof_constructSignatures :
    Trace -> Proof -> Address -> list Account -> Result string;
  ERC20_SCALING_FACTOR : Arg;
  JOIN_SPLIT_PROOF : Arg;
  MINT_PROOF : Arg;
  bn128_CRS : Arg
}.

(* ================================================================== *)
(** * Program state and the monad *)

(** [global_i] is the undeclared loop variable [i]: the module is not in
    strict mode, so the first [i = 0] creates a property of the global object
    that every function of the module then shares ([None]: not yet created).
    [schemas] and [instances] are the locals of the running [instantiate]:
    the [let]-bound artifact variables and the object [instances]
    (properties in insertion order). *)
Record State := {
  trace : Trace;
  global_i : option Z;
  schemas : list (string * Artifact);
  instances : list (string * Instance)
}.

(** How a computation ends: with a value, with a thrown error, with
    [process.exit(code)], or cut off by the loop bound of the model. *)
Inductive Outcome (A : Type) :=
| Ret (a : A)
| Throw (e : Exn)
| Exit (code : Z)
| OutOfFuel.
Arguments Ret {A} a.
Arguments Throw {A} e.
Arguments Exit {A} code.
Arguments OutOfFuel {A}.

Definition M (A : Type) := State -> Outcome A * State.

Definition ret {A} (a : A) : M A := fun st => (Ret a, st).

Definition bind {A B} (m : M A) (f : A -> M B) : M B :=
  fun st =>
    match m st with
    | (Ret a, st') => f a st'
    | (Throw e, st') => (Throw e, st')
    | (Exit c, st') => (Exit c, st')
    | (OutOfFuel, st') => (OutOfFuel, st')
    end.

Definition throw {A} (e : Exn) : M A := fun st => (Throw e, st).

(** [process.exit(code)]: nothing after it runs, and no handler sees it. *)
Definition process_exit {A} (code : Z) : M A := fun st => (Exit code, st).

(** [try { body } catch (e) { handler }]. *)
Definition try_catch {A} (body : M A) (handler : Exn -> M A) : M A :=
  fun st =>
    match body st with
    | (Throw e, st') => handler e st'
    | r => r
    end.

Declare Scope js_scope.
Delimit Scope js_scope with js.
Notation "x <- m ; f" := (bind m (fun x => f))
  (at level 61, m at next level, right associativity) : js_scope.
Notation "m ;; f" := (bind m (fun _ => f))
  (at level 61, right associativity) : js_scope.
Open Scope js_scope.

(** The status the operating system sees for [process.exit(code)]. *)
Definition exit_status (code : Z) : Z := code mod 256.

Definition record (ev : Event) (st : State) : State :=
  {| trace := trace st ++ [ev];
     global_i := global_i st;
     schemas := schemas st;
     instances := instances st |}.

(** An external call: ask the environment, log call and answer, and return
    or throw accordingly. *)
Definition external {A} (oracle : Trace -> Result A) (mk : Result A -> Event)
  : M A :=
  fun st =>
    match oracle (trace st) with
    | Ok a => (Ret a, record (mk (Ok a)) st)
    | Err e => (Throw e, record (mk (Err e)) st)
    end.

Definition console_log (m : LogMsg) : M unit :=
  fun st => (Ret tt, record (ELog m) st).

(** ** JavaScript numbers *)

(** The double nearest to an integer, ties to even: an integer of at most
    53 bits is a double; a larger one is rounded to 53 significant bits. *)
Definition to_double (z : Z) : Z :=
  let a := Z.abs z in
  let e := Z.log2 a - 52 in
  if e <=? 0 then z
  else
    let q := a / 2 ^ e in
    let r := a mod 2 ^ e in
    let half := 2 ^ (e - 1) in
    let q' := if (r <? half) || ((r =? half) && Z.even q) then q else q + 1 in
    Z.sgn z * (q' * 2 ^ e).

(** [x + y] and [x - y] on integer doubles. *)
Definition js_add (x y : Z) : Z := to_double (x + y).

Definition js_sub (x y : Z) : Z := to_double (x - y).

(** The same operations by the binary64 arithmetic of the standard library
    ([SpecFloat], 53 bits of precision, exponents up to 1024), to compare
    [to_double] with: the double of an integer, the integer a double
    denotes, and the sum and difference of the doubles of two integers. *)
Definition binary64_of (z : Z) : SpecFloat.spec_float :=
  SpecFloat.binary_normalize 53 1024 z 0 false.

Definition integer_of (f : SpecFloat.spec_float) : option Z :=
  match f with
  | SpecFloat.S754_zero _ => Some 0
  | SpecFloat.S754_finite s m e =>
      if e <? 0 then
        if Z.pos m mod 2 ^ (- e) =? 0
        then Some ((if s then -1 else 1) * (Z.pos m / 2 ^ (- e)))
        else None
      else Some ((if s then -1 else 1) * (Z.pos m * 2 ^ e))
  | _ => None
  end.

Definition binary64_add (x y : Z) : option Z :=
  integer_of (SpecFloat.SFadd 53 1024 (binary64_of x) (binary64_of y)).

Definition binary64_sub (x y : Z) : option Z :=
  integer_of (SpecFloat.SFsub 53 1024 (binary64_of x) (binary64_of y)).

(** Pairs of integer doubles: small values, values around [2^53] and
    beyond, halfway cases. *)
Definition rounding_samples : list (Z * Z) :=
  [((0), (-9007199254740991)); ((-9007199254740991), (-2));
   ((-9007199254740992), (9007199254740991)); ((-1), (2));
   (9007199254740991, 1); (9007199254740992, 1); (9007199254740992, 2);
   (9007199254740992, 3); (9007199254740994, 1); (9007199254740994, 3);
   (9007199254740992, 4294967295); (3, 9007199254740991); (5, 7); (0, 0);
   ((-20), (20)); (9007199254740991, 9007199254740991);
   (18014398509481984, 1); (18014398509481984, 2); (18014398509481984,
   3); (18014398509481984, 6); (36028797018963968, 4);
   (36028797018963968, 12); ((9007199254740992), (-1));
   ((-9007199254740992), (-1)); ((-9007199254740992), (-3));
   ((18014398509481988), (-1)); (1152921504606846976, 128);
   (1152921504606846976, 129); (1152921504606847232, 128);
   (1267650600228229401496703205376, 9007199254740991);
   (9007199254740991, 1267650600228229401496703205376);
   ((-23449317949650832), (869849637299280)); (249517821625434656,
   675461838829004); (41062409978946776, 1064840180091430);
   (16153162281653738, 3982658647087820); ((-182500219061197152),
   (2598667467665986)); (173818931855929696, 1755152869847555);
   ((-287196863528352736), (-5659172506466072)); ((-274736746616647904),
   (4475254130706349)); ((3431540121757040640), (-5408809401806511));
   ((-34185358047687808), (-2126881004276430)); ((15169135208561150),
   (-8808376342072290)); ((-7329588543724234), (-6308253382140047));
   ((275607404994075552), (-1686078919024894)); ((-40400491844122000),
   (-8027950241393061)); ((3906122081173388288), (-8317165259085877));
   ((-11116608970453616), (-3930878876558080)); ((-13467829781840844),
   (8944273136648880)); ((-16242582329484292), (-2466642166903129));
   (253770016553353376, 1494919850148029); ((-9224509424391124),
   (-4733222247073231)); ((-8277132749507662), (-972650061138049));
   ((-4141614874077906432), (-1865159960497325)); (2592910982645877760,
   7937628740616458); (5425750806468701, 2724948730231574);
   ((18933171277499008), (-3746142950276919)); ((-13551469082006798),
   (-6560187174287375)); ((-8700860617104291), (5617832186123915));
   (17629279656228660, 416055699603394); ((186370431722841760),
   (-4703834633879798))].

(** ** Property lookup in objects kept as association lists *)

Fixpoint lookup {V} (key : string) (o : list (string * V)) : option V :=
  match o with
  | [] => None
  | (k', v) :: rest => if String.eqb key k' then Some v else lookup key rest
  end.

(** [o.key = v]: overwrite in place, or add as the last property. *)
Fixpoint assign {V} (key : string) (v : V) (o : list (string * V))
  : list (string * V) :=
  match o with
  | [] => [(key, v)]
  | (k', v') :: rest =>
      if String.eqb key k' then (k', v) :: rest
      else (k', v') :: assign key v rest
  end.

(** ** The global [i] *)

Definition write_i (v : Z) : M unit :=
  fun st => (Ret tt, {| trace := trace st; global_i := Some v;
                        schemas := schemas st; instances := instances st |}).

Definition read_i : M Z :=
  fun st =>
    match global_i st with
    | Some v => (Ret v, st)
    | None => (Throw (ReferenceError "i is not defined"), st)
    end.

(** [a[i]]: the element at an index, [undefined] outside the array. *)
Definition element {A} (a : list A) (idx : Z) : option A :=
  if 0 <=? idx then nth_error a (Z.to_nat idx) else None.

(** [for (...; i < len; i++) { acc = body(acc) }] once [i] is initialised;
    the body reads the global [i] itself.  [fuel] bounds the iterations. *)
Fixpoint for_i {A} (fuel : nat) (len : Z) (body : A -> M A) (acc : A) : M A :=
  match fuel with
  | O => fun st => (OutOfFuel, st)
  | S fuel' =>
      iv <- read_i ;
      if iv <? len then
        acc' <- body acc ;
        iv' <- read_i ;
        write_i (iv' + 1) ;;
        for_i fuel' len body acc'
      else ret acc
  end.

(** [for (i = 0; i < a.length; i++) ...]. *)
Definition for_i_from_0 {A B} (a : list B) (body : A -> M A) (acc : A) : M A :=
  write_i 0 ;;
  for_i (S (List.length a)) (Z.of_nat (List.length a)) body acc.

(* ================================================================== *)
(** * The script *)

Definition newline : string := String (Ascii.ascii_of_nat 10) EmptyString.

Definition lineBreak : string :=
  ("________________________________________________________________________"
   ++ newline)%string.

Section Script.

Variable env : Env.

(** ** External calls *)

Definition readContract (file : string) : M Artifact :=
  external (fun tr => besu_readContract env tr file) (EReadContract file).

Definition new_contract (schema : Artifact) (ctorArgs : list Arg) : M Instance :=
  external (fun tr => schema_new env tr schema ctorArgs) (ENew schema ctorArgs).

Definition send (target : Instance) (method : string) (callArgs : list Arg)
  : M Receipt :=
  external (fun tr => contract_send env tr target method callArgs)
           (ESend target method callArgs).

Definition createZeroValueNote : M Note :=
  external (note_createZeroValueNote env) ECreateZeroValueNote.

Definition noteCreate (pubKey : string) (value : Z) : M Note :=
  external (fun tr => note_create env tr pubKey value) (ENoteCreate pubKey value).

Definition MintProof (oldCounter newCounter : Note) (minted : list Note)
    (sender : Address) : M Proof :=
  external (fun tr => new_MintProof env tr oldCounter newCounter minted sender)
           (EMintProof oldCounter newCounter minted sender).

Definition JoinSplitProof (inputs outputs : list Note) (sender : Address)
    (publicValue : Z) (publicOwner : Address) : M Proof :=
  external
    (fun tr => new_JoinSplitProof env tr inputs outputs sender publicValue
                                  publicOwner)
    (EJoinSplitProof inputs outputs sender publicValue publicOwner).

Definition encodeABI (p : Proof) (validator : option Address) : M string :=
  external (fun tr => proof_encodeABI env tr p validator) (EEncodeABI p validator).

Definition constructSignatures (p : Proof) (validator : Address)
    (owners : list Account) : M string :=
  external (fun tr => proof_constructSignatures env tr p validator owners)
           (EConstructSignatures p validator owners).

(** ** logNoteEvents (lines 216-226) *)

Definition logNoteEvents (logs : list LogEntry) : M unit :=
  for_i_from_0 logs
    (fun _ =>
       iv <- read_i ;
       match element logs iv with
       | None => throw (TypeError "Cannot read property 'event' of undefined")
       | Some e =>
           let toPrint := [("event", Some (event e))] in
           if (event e =? "CreateNote")%string || (event e =? "DestroyNote")%string
           then
             let toPrint := assign "owner" (lookup "owner" (args e)) toPrint in
             let toPrint := assign "hash" (lookup "noteHash" (args e)) toPrint in
             console_log (LJson toPrint)
           else ret tt
       end)
    tt.

(** [notes[i].k.toNumber()] at the current value of the global [i]. *)
Definition value_at_i (notes : list Note) : M Z :=
  iv <- read_i ;
  match element notes iv with
  | None => throw (TypeError "Cannot read property 'k' of undefined")
  | Some n => ret (k n)
  end.

(** The loop that computes [totalMintedValue] (lines 121-124). *)
Definition compute_totalMintedValue (notes : list Note) : M Z :=
  for_i_from_0 notes
    (fun totalMintedValue =>
       v <- value_at_i notes ; ret (js_add totalMintedValue v))
    0.

(** ** mintConfidentialAsset (lines 119-146) *)

Definition mintConfidentialAsset (notes : list Note) (zkAssetMintable : Instance)
    (aztecAccount : Account) (txOptions : TxOptions) : M unit :=
  totalMintedValue <- compute_totalMintedValue notes ;
  zeroMintCounterNote <- createZeroValueNote ;
  newMintCounterNote <- noteCreate (publicKey aztecAccount) totalMintedValue ;
  let adjustedNotes := map (fun x => x) notes in
  let sender := from txOptions in
  proof <- MintProof zeroMintCounterNote newMintCounterNote adjustedNotes sender ;
  proofData <- encodeABI proof None ;
  try_catch
    (receipt <- send zkAssetMintable "confidentialMint"
                     [MINT_PROOF env; AStr proofData; ATx txOptions] ;
     console_log (LStr "confidentialMint success. events:") ;;
     logNoteEvents (logs receipt) ;;
     console_log (LStr lineBreak))
    (fun error =>
       console_log (LStr ("confidentialMint failed: " ++ exn_toString error)%string) ;;
       process_exit (-1)).

(** The two loops that compute [kPublic] (lines 152-158 and 184-190). *)
Definition compute_kPublic (inputNotes outputNotes : list Note) : M Z :=
  kPublic <-
    for_i_from_0 outputNotes
      (fun kPublic => v <- value_at_i outputNotes ; ret (js_sub kPublic v))
      0 ;
  for_i_from_0 inputNotes
    (fun kPublic => v <- value_at_i inputNotes ; ret (js_add kPublic v))
    kPublic.

(** ** confidentialTransfer (lines 150-178); [display] is [None] when the
    caller leaves the parameter out, and then defaults to [true]. *)

Definition confidentialTransfer (inputNotes : list Note)
    (inputNoteOwners : list Account) (outputNotes : list Note)
    (zkAssetMintable : Instance) (publicOwner : Address)
    (txOptions : TxOptions) (display : option bool) : M unit :=
  let display := match display with Some b => b | None => true end in
  kPublic <- compute_kPublic inputNotes outputNotes ;
  proof <- JoinSplitProof inputNotes outputNotes (from txOptions) kPublic
                          publicOwner ;
  proofData <- encodeABI proof (Some (address zkAssetMintable)) ;
  signatures <- constructSignatures proof (address zkAssetMintable)
                                    inputNoteOwners ;
  try_catch
    (receipt <- send zkAssetMintable "confidentialTransfer"
                     [JOIN_SPLIT_PROOF env; AStr proofData; AStr signatures;
                      ATx txOptions] ;
     if Bool.eqb display true then
       console_log (LStr "confidentialTransfer success. events:") ;;
       logNoteEvents (logs receipt) ;;
       console_log (LStr lineBreak)
     else ret tt)
    (fun error =>
       console_log
         (LStr ("confidentialTransfer failed: " ++ exn_toString error)%string) ;;
       process_exit (-1)).

(** ** shieldsERC20toZkAsset (lines 182-213) *)

Definition shieldsERC20toZkAsset (inputNotes : list Note)
    (inputNoteOwners : list Account) (outputNotes : list Note)
    (zkAsset ace : Instance) (publicOwner : Address) (txOptions : TxOptions)
  : M unit :=
  kPublic <- compute_kPublic inputNotes outputNotes ;
  proof <- JoinSplitProof inputNotes outputNotes (from txOptions) kPublic
                          publicOwner ;
  proofData <- encodeABI proof (Some (address zkAsset)) ;
  signatures <- constructSignatures proof (address zkAsset) inputNoteOwners ;
  send ace "publicApprove"
       [AAddr (address zkAsset); AStr (hash proof); ANum (- kPublic);
        ATx txOptions] ;;
  try_catch
    (receipt <- send zkAsset "confidentialTransfer"
                     [JOIN_SPLIT_PROOF env; AStr proofData; AStr signatures;
                      ATx txOptions] ;
     logNoteEvents (logs receipt))
    (fun error =>
       console_log (LStr ("deposit failed: " ++ exn_toString error)%string) ;;
       process_exit (-1)).

(** ** instantiate (lines 29-115) *)

(** The locals of a fresh call: [var instances = {}] and the eight
    [let] variables, all still [undefined]. *)
Definition enter_instantiate : M unit :=
  fun st => (Ret tt, {| trace := trace st; global_i := global_i st;
                        schemas := []; instances := [] |}).

Definition set_schema (var : string) (a : Artifact) : M unit :=
  fun st => (Ret tt, {| trace := trace st; global_i := global_i st;
                        schemas := assign var a (schemas st);
                        instances := instances st |}).

Definition set_instance (name : string) (c : Instance) : M unit :=
  fun st => (Ret tt, {| trace := trace st; global_i := global_i st;
                        schemas := schemas st;
                        instances := assign name c (instances st) |}).

Definition cannot_read (prop : string) : Exn :=
  TypeError ("Cannot read property '" ++ prop ++ "' of undefined")%string.

(** [VAR.new]: the artifact variable must hold an object. *)
Definition schema (var : string) : M Artifact :=
  fun st =>
    match lookup var (schemas st) with
    | Some a => (Ret a, st)
    | None => (Throw (cannot_read "new"), st)
    end.

(** [instances.name.prop]: the property [name] must hold an object. *)
Definition instance (name prop : string) : M Instance :=
  fun st =>
    match lookup name (instances st) with
    | Some c => (Ret c, st)
    | None => (Throw (cannot_read prop), st)
    end.

Definition address_of (name : string) : M Address :=
  c <- instance name "address" ; ret (address c).

(** [VAR = await besu.readContract(file)]. *)
Definition load (var file : string) : M unit :=
  a <- readContract file ; set_schema var a.

(** Lines 46-53. *)
Definition read_schemas : M unit :=
  load "ACE" "ACE.json" ;;
  load "JOINSPLIT" "JoinSplit.json" ;;
  load "JOINSPLIT_FLUID" "JoinSplitFluid.json" ;;
  load "ERC20_MINTABLE" "ERC20Mintable.json" ;;
  load "BASE_FACTORY" "FactoryBase201907.json" ;;
  load "ADJUSTABLE_FACTORY" "FactoryAdjustable201907.json" ;;
  load "ZKASSET_MINTABLE" "ZkAssetMintable.json" ;;
  load "ZKASSET" "ZkAsset.json".

(** Lines 60-65. *)
Definition deploy_engine (txOptions : TxOptions) : M unit :=
  (ACE <- schema "ACE" ;
   c <- new_contract ACE [ATx txOptions] ;
   set_instance "ace" c) ;;
  (JOINSPLIT <- schema "JOINSPLIT" ;
   c <- new_contract JOINSPLIT [ATx txOptions] ;
   set_instance "joinSplit" c) ;;
  (JOINSPLIT_FLUID <- schema "JOINSPLIT_FLUID" ;
   c <- new_contract JOINSPLIT_FLUID [ATx txOptions] ;
   set_instance "joinSplitFluid" c) ;;
  (ERC20_MINTABLE <- schema "ERC20_MINTABLE" ;
   c <- new_contract ERC20_MINTABLE [ATx txOptions] ;
   set_instance "erc20" c) ;;
  (BASE_FACTORY <- schema "BASE_FACTORY" ;
   aceAddress <- address_of "ace" ;
   c <- new_contract BASE_FACTORY [AAddr aceAddress; ATx txOptions] ;
   set_instance "baseFactory" c) ;;
  (ADJUSTABLE_FACTORY <- schema "ADJUSTABLE_FACTORY" ;
   aceAddress <- address_of "ace" ;
   c <- new_contract ADJUSTABLE_FACTORY [AAddr aceAddress; ATx txOptions] ;
   set_instance "adjustableFactory" c).

(** One [await instances.ace.setFactory(key, instances.name.address,
    txOptions)]. *)
Definition setFactory (key : Z) (name : string) (txOptions : TxOptions)
  : M unit :=
  ace <- instance "ace" "setFactory" ;
  factoryAddress <- address_of name ;
  send ace "setFactory" [ANum key; AAddr factoryAddress; ATx txOptions] ;;
  ret tt.

(** Lines 72-74. *)
Definition set_factories (txOptions : TxOptions) : M unit :=
  setFactory (1 * 256 ^ 2 + 1 * 256 ^ 1 + 1 * 256 ^ 0) "baseFactory" txOptions ;;
  setFactory (1 * 256 ^ 2 + 1 * 256 ^ 1 + 2 * 256 ^ 0) "adjustableFactory"
             txOptions ;;
  setFactory (1 * 256 ^ 2 + 1 * 256 ^ 1 + 3 * 256 ^ 0) "adjustableFactory"
             txOptions.

(** Lines 81-94. *)
Definition deploy_zkAssets (txOptions : TxOptions) : M unit :=
  (ZKASSET_MINTABLE <- schema "ZKASSET_MINTABLE" ;
   aceAddress <- address_of "ace" ;
   erc20Address <- address_of "erc20" ;
   c <- new_contract ZKASSET_MINTABLE
          [AAddr aceAddress; AAddr erc20Address; ERC20_SCALING_FACTOR env;
           ANum 0; AList []; ATx txOptions] ;
   set_instance "zkAssetMintable" c) ;;
  (ZKASSET <- schema "ZKASSET" ;
   aceAddress <- address_of "ace" ;
   erc20Address <- address_of "erc20" ;
   c <- new_contract ZKASSET
          [AAddr aceAddress; AAddr erc20Address; ANum 1; ATx txOptions] ;
   set_instance "zkAsset" c).

(** Lines 100-102. *)
Definition configure_engine (txOptions : TxOptions) : M unit :=
  (ace <- instance "ace" "setCommonReferenceString" ;
   send ace "setCommonReferenceString" [bn128_CRS env; ATx txOptions]) ;;
  (ace <- instance "ace" "setProof" ;
   joinSplitAddress <- address_of "joinSplit" ;
   send ace "setProof"
        [JOIN_SPLIT_PROOF env; AAddr joinSplitAddress; ATx txOptions]) ;;
  (ace <- instance "ace" "setProof" ;
   joinSplitFluidAddress <- address_of "joinSplitFluid" ;
   send ace "setProof"
        [MINT_PROOF env; AAddr joinSplitFluidAddress; ATx txOptions]) ;;
  ret tt.

(** [console.log(label + instances.name.address)]. *)
Definition log_address (label name : string) : M unit :=
  a <- address_of name ; console_log (LStr (label ++ a)%string).

(** Lines 104-112. *)
Definition report_addresses : M unit :=
  log_address "deployed ace at:                " "ace" ;;
  log_address "deployed joinSplit at:          " "joinSplit" ;;
  log_address "deployed joinSplitFluid at:     " "joinSplitFluid" ;;
  log_address "deployed erc20 at:              " "erc20" ;;
  log_address "deployed baseFactory at:        " "baseFactory" ;;
  log_address "deployed adjustableFactory at:  " "adjustableFactory" ;;
  log_address "deployed zkAssetMintable at:    " "zkAssetMintable" ;;
  log_address "deployed zkAsset at:            " "zkAsset" ;;
  console_log (LStr lineBreak).

(** [catch (e) { console.log(e) }]. *)
Definition log_error (e : Exn) : M unit := console_log (LExn e).

Definition instantiate (txOptions : TxOptions)
  : M (list (string * Instance)) :=
  enter_instantiate ;;
  console_log (LStr lineBreak) ;;
  console_log (LStr "deploying AZTEC contracts...") ;;
  try_catch read_schemas log_error ;;
  try_catch (deploy_engine txOptions) log_error ;;
  try_catch (set_factories txOptions) log_error ;;
  try_catch (deploy_zkAssets txOptions) log_error ;;
  configure_engine txOptions ;;
  report_addresses ;;
  fun st => (Ret (instances st), st).

End Script.

(* ================================================================== *)
(** * Vocabulary of the properties *)

(** The sum of the values of a list of notes. *)
Definition sum_values (notes : list Note) : Z :=
  fold_right (fun n s => k n + s) 0 notes.

(** What [acc += k] and [acc -= k] over the notes of a list, in order, make
    of an accumulator. *)
Definition added (acc : Z) (notes : list Note) : Z :=
  fold_left (fun a n => js_add a (k n)) notes acc.

Definition deducted (acc : Z) (notes : list Note) : Z :=
  fold_left (fun a n => js_sub a (k n)) notes acc.

(** The range in which the sums of the helpers are exact: the values are
    not negative and total at most [2^53]. *)
Definition safe_values (notes : list Note) : Prop :=
  Forall (fun n => 0 <= k n) notes /\ sum_values notes <= 2 ^ 53.

(** The events a run added to the trace. *)
Definition new_events (st st' : State) : Trace :=
  skipn (List.length (trace st)) (trace st').

Definition with_i (st : State) (v : option Z) : State :=
  {| trace := trace st; global_i := v;
     schemas := schemas st; instances := instances st |}.

Definition emit (evs : list Event) (st : State) : State :=
  {| trace := trace st ++ evs; global_i := global_i st;
     schemas := schemas st; instances := instances st |}.

(** The event kinds [logNoteEvents] reports. *)
Definition recognized (e : LogEntry) : bool :=
  (event e =? "CreateNote")%string || (event e =? "DestroyNote")%string.

(** The record printed for a reported entry. *)
Definition normalized (e : LogEntry) : LogMsg :=
  LJson [("event", Some (event e));
         ("owner", lookup "owner" (args e));
         ("hash", lookup "noteHash" (args e))].

(** What a loop whose body maps the accumulator through [fv] and emits the
    events [fe] computes on the elements it visits. *)
Fixpoint loop_result {A B} (fv : A -> B -> A) (fe : A -> B -> list Event)
    (l : list B) (acc : A) : A * list Event :=
  match l with
  | [] => (acc, [])
  | x :: rest =>
      let '(a, evs) := loop_result fv fe rest (fv acc x) in
      (a, fe acc x ++ evs)
  end.


(** Contract method calls, and the calls that create notes and mint proofs,
    among the events of a trace. *)
Definition is_method_call (ev : Event) : bool :=
  match ev with ESend _ _ _ _ => true | _ => false end.

Definition method_calls (tr : Trace) : Trace := filter is_method_call tr.

Definition is_creation (ev : Event) : bool :=
  match ev with
  | ECreateZeroValueNote _ | ENoteCreate _ _ _ | EMintProof _ _ _ _ _ => true
  | _ => false
  end.

Definition creations (tr : Trace) : Trace := filter is_creation tr.

Definition is_JoinSplitProof (ev : Event) : bool :=
  match ev with EJoinSplitProof _ _ _ _ _ _ => true | _ => false end.

Definition proof_constructions (tr : Trace) : Trace :=
  filter is_JoinSplitProof tr.

(** The ways a run of [shieldsERC20toZkAsset] can go; [kPublic] is the
    public value it builds the proof with and [amount] the value it asks
    approval for.  Either building the proof, encoding it or signing it
    fails, and then that call is the last event of the run, the run throws
    its error and no contract method is called; or the proof was built and
    the approval is requested for its hash and fails, so that nothing else
    is submitted; or the approval has returned and the transfer is submitted
    next. *)
Definition shield_calls (env : Env) (inputNotes : list Note)
    (inputNoteOwners : list Account) (outputNotes : list Note)
    (zkAsset ace : Instance) (publicOwner : Address) (txOptions : TxOptions)
    (kPublic amount : Z) (st : State) : Prop :=
  let run := shieldsERC20toZkAsset env inputNotes inputNoteOwners outputNotes
                                   zkAsset ace publicOwner txOptions st in
  let evs := new_events st (snd run) in
  let build := EJoinSplitProof inputNotes outputNotes (from txOptions) kPublic
                               publicOwner in
  (exists e,
     fst run = Throw e /\ method_calls evs = []
     /\ (evs = [build (Err e)]
         \/ exists proof,
              evs = [build (Ok proof);
                     EEncodeABI proof (Some (address zkAsset)) (Err e)]
              \/ exists proofData,
                   evs = [build (Ok proof);
                          EEncodeABI proof (Some (address zkAsset))
                                     (Ok proofData);
                          EConstructSignatures proof (address zkAsset)
                                               inputNoteOwners (Err e)]))
  \/ exists proof,
       In (build (Ok proof)) evs /\
       let approve :=
         ESend ace "publicApprove"
               [AAddr (address zkAsset); AStr (hash proof); ANum amount;
                ATx txOptions] in
       ((exists e, method_calls evs = [approve (Err e)] /\ fst run = Throw e)
        \/ (exists receipt proofData signatures r,
              method_calls evs =
              [approve (Ok receipt);
               ESend zkAsset "confidentialTransfer"
                     [JOIN_SPLIT_PROOF env; AStr proofData; AStr signatures;
                      ATx txOptions] r])).

(** ** Events of [instantiate] *)

Definition is_deployment (ev : Event) : bool :=
  match ev with ENew _ _ _ => true | _ => false end.

Definition deployments (tr : Trace) : Trace := filter is_deployment tr.

Definition is_registration (ev : Event) : bool :=
  match ev with
  | ESend _ m _ _ => (m =? "setFactory")%string
  | _ => false
  end.

Definition registrations (tr : Trace) : Trace := filter is_registration tr.

(** The calls of lines 100-102. *)
Definition is_config_call (ev : Event) : bool :=
  match ev with
  | ESend _ m _ _ =>
      (m =? "setCommonReferenceString")%string || (m =? "setProof")%string
  | _ => false
  end.

(** The error of a failed artifact read, deployment or factory
    registration. *)
Definition guarded_failure (ev : Event) : option Exn :=
  match ev with
  | EReadContract _ (Err e) => Some e
  | ENew _ _ (Err e) => Some e
  | ESend _ m _ (Err e) => if (m =? "setFactory")%string then Some e else None
  | _ => None
  end.

(** Every failed artifact read, deployment or factory registration of the
    trace is followed at once by [console.log] of the error it threw. *)
Fixpoint failures_logged (tr : Trace) : Prop :=
  match tr with
  | [] => True
  | ev :: rest =>
      match guarded_failure ev with
      | Some e => exists rest', rest = ELog (LExn e) :: rest'
      | None => True
      end
      /\ failures_logged rest
  end.

(** What the events of a guarded block have in common. *)
Definition quiet (d : Trace) : Prop :=
  failures_logged d /\ Forall (fun ev => is_config_call ev = false) d.

(** The three registrations of lines 72-74, as far as they get: all three
    succeed, or one fails, is logged, and the later ones are not made. *)
Definition registration_attempt (ace baseFactory adjustableFactory : Instance)
    (txOptions : TxOptions) (d : Trace) : Prop :=
  let call n (factory : Instance) :=
    ESend ace "setFactory"
          [ANum (65536 + 256 + n); AAddr (address factory); ATx txOptions] in
  (exists r1 r2 r3,
     d = [call 1 baseFactory (Ok r1); call 2 adjustableFactory (Ok r2);
          call 3 adjustableFactory (Ok r3)])
  \/ (exists e, d = [call 1 baseFactory (Err e); ELog (LExn e)])
  \/ (exists r1 e,
        d = [call 1 baseFactory (Ok r1); call 2 adjustableFactory (Err e);
             ELog (LExn e)])
  \/ (exists r1 r2 e,
        d = [call 1 baseFactory (Ok r1); call 2 adjustableFactory (Ok r2);
             call 3 adjustableFactory (Err e); ELog (LExn e)]).

(** The ways lines 100-102 can go from the registry [insts]: [d] is what
    they add to the trace and [out] how they end.  Each call is made on the
    engine; a missing instance stops the run with a [TypeError], a failing
    call stops it with the error of the call, and nothing follows. *)
Definition config_attempt (env : Env) (txOptions : TxOptions)
    (insts : list (string * Instance)) (d : Trace) (out : Outcome unit)
  : Prop :=
  (lookup "ace" insts = None /\ d = []
   /\ out = Throw (cannot_read "setCommonReferenceString"))
  \/ exists ace, lookup "ace" insts = Some ace /\
     let crs := ESend ace "setCommonReferenceString"
                      [bn128_CRS env; ATx txOptions] in
     ((exists e, d = [crs (Err e)] /\ out = Throw e)
      \/ exists r1,
         (lookup "joinSplit" insts = None /\ d = [crs (Ok r1)]
          /\ out = Throw (cannot_read "address"))
         \/ exists joinSplit, lookup "joinSplit" insts = Some joinSplit /\
            let setJoinSplit :=
              ESend ace "setProof"
                    [JOIN_SPLIT_PROOF env; AAddr (address joinSplit);
                     ATx txOptions] in
            ((exists e, d = [crs (Ok r1); setJoinSplit (Err e)]
                        /\ out = Throw e)
             \/ exists r2,
                (lookup "joinSplitFluid" insts = None
                 /\ d = [crs (Ok r1); setJoinSplit (Ok r2)]
                 /\ out = Throw (cannot_read "address"))
                \/ exists joinSplitFluid,
                   lookup "joinSplitFluid" insts = Some joinSplitFluid /\
                   let setMint :=
                     ESend ace "setProof"
                           [MINT_PROOF env; AAddr (address joinSplitFluid);
                            ATx txOptions] in
                   ((exists e, d = [crs (Ok r1); setJoinSplit (Ok r2);
                                    setMint (Err e)]
                               /\ out = Throw e)
                    \/ (exists r3, d = [crs (Ok r1); setJoinSplit (Ok r2);
                                        setMint (Ok r3)]
                                   /\ out = Ret tt)))).

Definition is_log (ev : Event) : bool :=
  match ev with ELog _ => true | _ => false end.

Definition is_read (ev : Event) : bool :=
  match ev with EReadContract _ _ => true | _ => false end.

Definition artifact_reads (tr : Trace) : Trace := filter is_read tr.

(* ================================================================== *)
(** * Sample collaborators *)

(** A client and library whose calls all succeed: artifacts are named after
    their file, a contract deployed from artifact [f] gets the address
    ["@f"], every transaction returns a receipt with one created and one
    destroyed note and an unrelated event. *)
Definition cooperative_env : Env := {|
  besu_readContract := fun _ f => Ok {| contractName := f; bytecode := "0x" |};
  schema_new := fun _ a _ => Ok {| address := ("@" ++ contractName a)%string |};
  contract_send := fun _ _ _ _ =>
    Ok {| logs := [ {| event := "CreateNote";
                       args := [("owner", "0xa1"); ("noteHash", "0xh1")] |};
                    {| event := "Transfer"; args := [] |};
                    {| event := "DestroyNote";
                       args := [("owner", "0xa2"); ("noteHash", "0xh2")] |} ] |};
  note_createZeroValueNote := fun _ => Ok {| noteHash := "0xzero"; k := 0 |};
  note_create := fun _ pk v => Ok {| noteHash := ("note:" ++ pk)%string; k := v |};
  new_MintProof := fun _ _ _ _ _ => Ok {| hash := "0xmint" |};
  new_JoinSplitProof := fun _ _ _ _ _ _ => Ok {| hash := "0xjoinsplit" |};
  proof_encodeABI := fun _ _ _ => Ok "0xdata";
  proof_constructSignatures := fun _ _ _ _ => Ok "0xsignatures";
  ERC20_SCALING_FACTOR := ANum 1;
  JOIN_SPLIT_PROOF := AStr "65793";
  MINT_PROOF := AStr "66049";
  bn128_CRS := AList []
|}.

(** The same, except that a given operation fails. *)
Definition env_failing_read (file : string) : Env := {|
  besu_readContract := fun tr f =>
    if (f =? file)%string then Err (Failure "ENOENT")
    else besu_readContract cooperative_env tr f;
  schema_new := schema_new cooperative_env;
  contract_send := contract_send cooperative_env;
  note_createZeroValueNote := note_createZeroValueNote cooperative_env;
  note_create := note_create cooperative_env;
  new_MintProof := new_MintProof cooperative_env;
  new_JoinSplitProof := new_JoinSplitProof cooperative_env;
  proof_encodeABI := proof_encodeABI cooperative_env;
  proof_constructSignatures := proof_constructSignatures cooperative_env;
  ERC20_SCALING_FACTOR := ERC20_SCALING_FACTOR cooperative_env;
  JOIN_SPLIT_PROOF := JOIN_SPLIT_PROOF cooperative_env;
  MINT_PROOF := MINT_PROOF cooperative_env;
  bn128_CRS := bn128_CRS cooperative_env
|}.

Definition env_failing_send (failing : string) : Env := {|
  besu_readContract := besu_readContract cooperative_env;
  schema_new := schema_new cooperative_env;
  contract_send := fun tr c m a =>
    if (m =? failing)%string then Err (Failure "revert")
    else contract_send cooperative_env tr c m a;
  note_createZeroValueNote := note_createZeroValueNote cooperative_env;
  note_create := note_create cooperative_env;
  new_MintProof := new_MintProof cooperative_env;
  new_JoinSplitProof := new_JoinSplitProof cooperative_env;
  proof_encodeABI := proof_encodeABI cooperative_env;
  proof_constructSignatures := proof_constructSignatures cooperative_env;
  ERC20_SCALING_FACTOR := ERC20_SCALING_FACTOR cooperative_env;
  JOIN_SPLIT_PROOF := JOIN_SPLIT_PROOF cooperative_env;
  MINT_PROOF := MINT_PROOF cooperative_env;
  bn128_CRS := bn128_CRS cooperative_env
|}.

Definition fresh_state : State :=
  {| trace := []; global_i := None; schemas := []; instances := [] |}.

Definition sample_txOptions : TxOptions := {| from := "0xsender"; gas := 4700000 |}.

Definition sample_account : Account :=
  {| publicKey := "0xpub"; privateKey := "0xpriv" |}.

(** The state after deploying with the cooperative collaborators, and the
    registry that deployment returns. *)
Definition sample_deployment : State :=
  snd (instantiate cooperative_env sample_txOptions fresh_state).

Definition sample_registry : list (string * Instance) :=
  [("ace", {| address := "@ACE.json" |});
   ("joinSplit", {| address := "@JoinSplit.json" |});
   ("joinSplitFluid", {| address := "@JoinSplitFluid.json" |});
   ("erc20", {| address := "@ERC20Mintable.json" |});
   ("baseFactory", {| address := "@FactoryBase201907.json" |});
   ("adjustableFactory", {| address := "@FactoryAdjustable201907.json" |});
   ("zkAssetMintable", {| address := "@ZkAssetMintable.json" |});
   ("zkAsset", {| address := "@ZkAsset.json" |})].

(** The calls of one contract method among the events of a trace. *)
Definition calls_of (method : string) (tr : Trace) : Trace :=
  filter (fun ev => match ev with
                    | ESend _ m _ _ => (m =? method)%string
                    | _ => false
                    end) tr.

(** How a transaction helper ends, seen from the submission of its
    transaction ([method] on [target]): the transaction is never submitted
    because an earlier call threw; or it is submitted once and succeeds, and
    the helper returns; or it is submitted once and fails with [e], and then
    the helper logs [failText] followed by the error and exits the process
    with code -1, that is status 255. *)
Definition fatal_submission (target : Instance) (method failText : string)
    (out : Outcome unit) (evs : Trace) : Prop :=
  (calls_of method evs = [] /\ exists e, out = Throw e)
  \/ (exists callArgs receipt,
        calls_of method evs = [ESend target method callArgs (Ok receipt)]
        /\ out = Ret tt)
  \/ (exists callArgs e before,
        calls_of method evs = [ESend target method callArgs (Err e)]
        /\ evs = before ++ [ESend target method callArgs (Err e);
                            ELog (LStr (failText ++ exn_toString e)%string)]
        /\ out = Exit (-1)
        /\ exit_status (-1) = 255).

(** A call that returned. *)
Definition succeeded (ev : Event) : Prop :=
  match ev with
  | EReadContract _ (Ok _) | ENew _ _ (Ok _) | ESend _ _ _ (Ok _) => True
  | _ => False
  end.

(** The events of one [try] block of [instantiate] with its handler: either
    every call returned; or the calls returned up to one that failed, or up
    to a [TypeError] raised before a call could be made, the error was
    logged, and nothing else of the block was executed. *)
Definition stops_at_first_failure (d : Trace) : Prop :=
  Forall succeeded d
  \/ exists before e,
       Forall succeeded before
       /\ ((exists failed,
              guarded_failure failed = Some e
              /\ d = before ++ [failed; ELog (LExn e)])
           \/ (exists msg,
                 e = TypeError msg /\ d = before ++ [ELog (LExn e)])).

(** The previous total-minted counter of the specification: the value of
    the counter note of the latest mint proof built so far, zero when none
    was built yet. *)
Definition previous_counter (tr : Trace) : Z :=
  fold_left (fun counter ev =>
               match ev with
               | EMintProof _ newCounter _ _ (Ok _) => k newCounter
               | _ => counter
               end)
            tr 0.

(** Minting a note of value 5 into a fresh asset, and then a note of
    value 7. *)
Definition sample_first_mint : Outcome unit * State :=
  mintConfidentialAsset cooperative_env [{| noteHash := "0xn1"; k := 5 |}]
    {| address := "@ZkAssetMintable.json" |} sample_account sample_txOptions
    fresh_state.

Definition sample_second_mint : Outcome unit * State :=
  mintConfidentialAsset cooperative_env [{| noteHash := "0xn2"; k := 7 |}]
    {| address := "@ZkAssetMintable.json" |} sample_account sample_txOptions
    (snd sample_first_mint).

(** Deploying when the first artifact cannot be read, and when a
    [setProof] transaction is rejected. *)
Definition sample_failed_deployment : Outcome (list (string * Instance)) * State :=
  instantiate (env_failing_read "ACE.json") sample_txOptions fresh_state.

Definition sample_failed_configuration
  : Outcome (list (string * Instance)) * State :=
  instantiate (env_failing_send "setProof") sample_txOptions fresh_state.

(** Deploying when every [setFactory] transaction is rejected. *)
Definition sample_failed_registration
  : Outcome (list (string * Instance)) * State :=
  instantiate (env_failing_send "setFactory") sample_txOptions fresh_state.

(** Two notes whose values total more than [2^53]. *)
Definition sample_large_notes : list Note :=
  [{| noteHash := "0xl1"; k := 2 ^ 53 - 1 |}; {| noteHash := "0xl2"; k := 2 |}].

(** Transferring them into two notes of the same values. *)
Definition sample_large_transfer : Outcome unit * State :=
  confidentialTransfer cooperative_env sample_large_notes [sample_account]
    sample_large_notes {| address := "@ZkAssetMintable.json" |} "0xowner"
    sample_txOptions None fresh_state.

(* ================================================================== *)
(** * Vocabulary of the further properties *)

From Stdlib Require Import Permutation.

(** The calls made on the collaborators, and what is printed, among the
    events of a trace. *)
Definition external_calls (tr : Trace) : Trace :=
  filter (fun ev => negb (is_log ev)) tr.

Definition printed (tr : Trace) : Trace := filter is_log tr.

(** The records [logNoteEvents] prints for a receipt. *)
Definition note_records (receipt : Receipt) : Trace :=
  map (fun e => ELog (normalized e)) (filter recognized (logs receipt)).

(** What a transaction helper prints, by what became of its transaction
    ([method] on [target]): nothing when it was never submitted;
    [success receipt] when it returned [receipt]; the failure text and the
    error when it failed. *)
Definition helper_output (target : Instance) (method : string)
    (success : Receipt -> Trace) (failText : string) (evs : Trace) : Prop :=
  (calls_of method evs = [] /\ printed evs = [])
  \/ (exists callArgs receipt,
        calls_of method evs = [ESend target method callArgs (Ok receipt)]
        /\ printed evs = success receipt)
  \/ (exists callArgs e,
        calls_of method evs = [ESend target method callArgs (Err e)]
        /\ printed evs = [ELog (LStr (failText ++ exn_toString e)%string)]).

(** A call whose result is a thrown error. *)
Definition failed (ev : Event) : bool :=
  match ev with
  | EReadContract _ (Err _) | ENew _ _ (Err _) | ESend _ _ _ (Err _)
  | ECreateZeroValueNote (Err _) | ENoteCreate _ _ (Err _)
  | EMintProof _ _ _ _ (Err _) | EJoinSplitProof _ _ _ _ _ (Err _)
  | EEncodeABI _ _ (Err _) | EConstructSignatures _ _ _ (Err _) => true
  | _ => false
  end.

(** A failed call other than a factory registration, in a trace. *)
Definition blocked (d : Trace) : Prop :=
  exists ev, In ev d /\ failed ev = true /\ is_registration ev = false.

(** The names under which [instantiate] stores the instances. *)
Definition instance_names : list string :=
  ["ace"; "joinSplit"; "joinSplitFluid"; "erc20"; "baseFactory";
   "adjustableFactory"; "zkAssetMintable"; "zkAsset"].

(** Lines 104-112 for a complete registry. *)
Definition address_report
    (ace joinSplit joinSplitFluid erc20 baseFactory adjustableFactory
       zkAssetMintable zkAsset : Instance) : Trace :=
  [ELog (LStr ("deployed ace at:                " ++ address ace)%string);
   ELog (LStr ("deployed joinSplit at:          " ++ address joinSplit)%string);
   ELog (LStr ("deployed joinSplitFluid at:     "
                 ++ address joinSplitFluid)%string);
   ELog (LStr ("deployed erc20 at:              " ++ address erc20)%string);
   ELog (LStr ("deployed baseFactory at:        "
                 ++ address baseFactory)%string);
   ELog (LStr ("deployed adjustableFactory at:  "
                 ++ address adjustableFactory)%string);
   ELog (LStr ("deployed zkAssetMintable at:    "
                 ++ address zkAssetMintable)%string);
   ELog (LStr ("deployed zkAsset at:            " ++ address zkAsset)%string);
   ELog (LStr lineBreak)].

(** ** Where the addresses come from *)

(** The addresses among the arguments of a call. *)
Fixpoint address_args (l : list Arg) : list Address :=
  match l with
  | [] => []
  | AAddr a :: rest => a :: address_args rest
  | _ :: rest => address_args rest
  end.

(** The contract addresses an event hands to the client: the contract a
    method is called on, and the addresses passed to a method or to a
    constructor. *)
Definition addresses_used (ev : Event) : list Address :=
  match ev with
  | ESend target _ callArgs _ => address target :: address_args callArgs
  | ENew _ ctorArgs _ => address_args ctorArgs
  | _ => []
  end.

(** The address a successful deployment yields. *)
Definition deployed_address (ev : Event) : list Address :=
  match ev with
  | ENew _ _ (Ok c) => [address c]
  | _ => []
  end.

Definition deployed (d : Trace) : list Address :=
  flat_map deployed_address d.

(** Every address an event of [tr] uses is in [known] or was yielded by a
    successful deployment earlier in [tr]. *)
Fixpoint well_sourced (known : list Address) (tr : Trace) : Prop :=
  match tr with
  | [] => True
  | ev :: rest =>
      (forall a, In a (addresses_used ev) -> In a known)
      /\ well_sourced (known ++ deployed_address ev) rest
  end.

(** The addresses of all instances of a registry are in [known]. *)
Definition registry_known (known : list Address)
    (insts : list (string * Instance)) : Prop :=
  forall name c, lookup name insts = Some c -> In (address c) known.

(** ** What [instantiate] does *)

Definition artifact_files : list string :=
  ["ACE.json"; "JoinSplit.json"; "JoinSplitFluid.json"; "ERC20Mintable.json";
   "FactoryBase201907.json"; "FactoryAdjustable201907.json";
   "ZkAssetMintable.json"; "ZkAsset.json"].

(** The operations of [instantiate]: printing, reading one of the eight
    artifacts, deploying, and the methods [setFactory],
    [setCommonReferenceString] and [setProof]. *)
Definition instantiate_operation (ev : Event) : bool :=
  match ev with
  | ELog _ => true
  | EReadContract file _ => existsb (String.eqb file) artifact_files
  | ENew _ _ _ => true
  | ESend _ method _ _ =>
      existsb (String.eqb method)
              ["setFactory"; "setCommonReferenceString"; "setProof"]
  | _ => false
  end.

Definition configuration_calls (tr : Trace) : Trace :=
  filter is_config_call tr.

(** The constants the script takes from the libraries are numbers, strings
    and arrays, not contract addresses. *)
Definition is_address (x : Arg) : bool :=
  match x with AAddr _ => true | _ => false end.

Definition plain_constants (env : Env) : Prop :=
  is_address (ERC20_SCALING_FACTOR env) = false
  /\ is_address (JOIN_SPLIT_PROOF env) = false
  /\ is_address (MINT_PROOF env) = false
  /\ is_address (bn128_CRS env) = false.

(** What one part of [instantiate] adds to the trace, [d], and the registry
    it leaves, [insts]: the addresses used are known and the registry holds
    known addresses only (the library constants set aside); the operations
    are those of [instantiate], and their numbers are bounded. *)
Definition part_ok (env : Env) (known : list Address) (d : Trace)
    (insts : list (string * Instance)) (reads deploys regs confs : nat)
  : Prop :=
  (plain_constants env ->
   well_sourced known d /\ registry_known (known ++ deployed d) insts)
  /\ forallb instantiate_operation d = true
  /\ (List.length (artifact_reads d) <= reads
      /\ List.length (deployments d) <= deploys
      /\ List.length (registrations d) <= regs
      /\ List.length (configuration_calls d) <= confs)%nat.
(* ================================================================== *)
(** * Loops over the global [i] *)

Lemma new_events_app st st' d :
  trace st' = trace st ++ d -> new_events st st' = d.
Proof.
  intros E. unfold new_events. rewrite E.
  rewrite skipn_app, skipn_all, Nat.sub_diag. reflexivity.
Qed.

Lemma element_nat {A} (l : list A) (j : nat) :
  element l (Z.of_nat j) = nth_error l j.
Proof.
  unfold element.
  destruct (Z.leb_spec 0 (Z.of_nat j)); [|lia].
  now rewrite Nat2Z.id.
Qed.

Section ForLoop.

Context {A B : Type}.
Variable l : list B.
Variable body : A -> M A.
Variable fv : A -> B -> A.
Variable fe : A -> B -> list Event.

(** The body, run with [i] at a valid index, handles the element there and
    leaves [i] alone. *)
Hypothesis body_at :
  forall acc st j x,
    global_i st = Some (Z.of_nat j) ->
    nth_error l j = Some x ->
    body acc st = (Ret (fv acc x), emit (fe acc x) st).

Lemma for_i_runs fuel :
  forall j acc st,
    (j <= List.length l)%nat ->
    (List.length l - j < fuel)%nat ->
    global_i st = Some (Z.of_nat j) ->
    for_i fuel (Z.of_nat (List.length l)) body acc st =
    (Ret (fst (loop_result fv fe (skipn j l) acc)),
     with_i (emit (snd (loop_result fv fe (skipn j l) acc)) st)
            (Some (Z.of_nat (List.length l)))).
Proof.
  induction fuel as [|fuel IH]; intros j acc st Hj Hfuel Hi; [lia|].
  cbn [for_i]. unfold bind at 1. unfold read_i at 1. rewrite Hi.
  destruct (Z.ltb_spec (Z.of_nat j) (Z.of_nat (List.length l))) as [Hlt|Hge].
  - assert (Hlt' : (j < List.length l)%nat) by lia.
    destruct (nth_error l j) as [x|] eqn:Hx;
      [|apply nth_error_None in Hx; lia].
    unfold bind at 1. rewrite (body_at acc st j x Hi Hx).
    unfold bind at 1. unfold read_i at 1. cbn [emit global_i]. rewrite Hi.
    unfold bind at 1. unfold write_i at 1. cbn [trace global_i schemas instances].
    rewrite IH with (j := S j); cbn [global_i]; try lia.
    + assert (Hs : skipn j l = x :: skipn (S j) l).
      { clear - Hx. revert j Hx. induction l as [|y l' IHl]; intros [|j] Hx;
          cbn in *; try discriminate.
        - now inversion Hx.
        - now apply IHl. }
      rewrite Hs. cbn [loop_result].
      destruct (loop_result fv fe (skipn (S j) l) (fv acc x)) as [a evs].
      cbn [fst snd]. unfold with_i, emit; cbn [trace global_i schemas instances].
      now rewrite <- app_assoc.
    + f_equal. lia.
  - assert (j = List.length l) by lia. subst j.
    rewrite skipn_all. cbn [loop_result fst snd].
    unfold ret, with_i, emit; cbn [trace global_i schemas instances].
    rewrite app_nil_r. destruct st; cbn in *. now rewrite Hi.
Qed.

Lemma for_i_from_0_runs acc st :
  for_i_from_0 l body acc st =
  (Ret (fst (loop_result fv fe l acc)),
   with_i (emit (snd (loop_result fv fe l acc)) st)
          (Some (Z.of_nat (List.length l)))).
Proof.
  unfold for_i_from_0. unfold bind at 1. unfold write_i at 1.
  rewrite for_i_runs with (j := O) by (cbn [global_i]; try lia; reflexivity).
  reflexivity.
Qed.

End ForLoop.

Lemma emit_nil st : emit [] st = st.
Proof. destruct st; unfold emit; cbn. now rewrite app_nil_r. Qed.

Lemma with_i_twice st v w : with_i (with_i st v) w = with_i st w.
Proof. reflexivity. Qed.

(** ** The summation loops *)

Lemma value_at_i_at notes st j n :
  global_i st = Some (Z.of_nat j) ->
  nth_error notes j = Some n ->
  value_at_i notes st = (Ret (k n), st).
Proof.
  intros Hi Hn. unfold value_at_i, bind, read_i. rewrite Hi.
  now rewrite element_nat, Hn.
Qed.

Lemma sum_values_cons n notes :
  sum_values (n :: notes) = k n + sum_values notes.
Proof. reflexivity. Qed.

Lemma sum_values_app a b :
  sum_values (a ++ b) = sum_values a + sum_values b.
Proof.
  induction a as [|n a IH]; [reflexivity|].
  cbn [app]. rewrite !sum_values_cons, IH. lia.
Qed.

Lemma sum_values_nonneg notes :
  Forall (fun n => 0 <= k n) notes -> 0 <= sum_values notes.
Proof.
  induction 1 as [|n notes Hn _ IH]; [cbn; lia|].
  rewrite sum_values_cons. lia.
Qed.

Lemma loop_result_add notes : forall acc,
  loop_result (fun a n => js_add a (k n)) (fun _ _ => []) notes acc =
  (added acc notes, []).
Proof.
  unfold added.
  induction notes as [|n notes IH]; intros acc; cbn [loop_result fold_left].
  - reflexivity.
  - now rewrite IH.
Qed.

Lemma loop_result_sub notes : forall acc,
  loop_result (fun a n => js_sub a (k n)) (fun _ _ => []) notes acc =
  (deducted acc notes, []).
Proof.
  unfold deducted.
  induction notes as [|n notes IH]; intros acc; cbn [loop_result fold_left].
  - reflexivity.
  - now rewrite IH.
Qed.

Lemma add_loop_runs notes acc st :
  for_i_from_0 notes (fun a => v <- value_at_i notes ; ret (js_add a v)) acc st
  = (Ret (added acc notes),
     with_i st (Some (Z.of_nat (List.length notes)))).
Proof.
  rewrite for_i_from_0_runs
    with (fv := fun a n => js_add a (k n)) (fe := fun _ _ => []).
  - rewrite loop_result_add. cbn [fst snd]. now rewrite emit_nil.
  - intros a s j n Hi Hn. unfold bind.
    rewrite (value_at_i_at notes s j n Hi Hn). now rewrite emit_nil.
Qed.

Lemma sub_loop_runs notes acc st :
  for_i_from_0 notes (fun a => v <- value_at_i notes ; ret (js_sub a v)) acc st
  = (Ret (deducted acc notes),
     with_i st (Some (Z.of_nat (List.length notes)))).
Proof.
  rewrite for_i_from_0_runs
    with (fv := fun a n => js_sub a (k n)) (fe := fun _ _ => []).
  - rewrite loop_result_sub. cbn [fst snd]. now rewrite emit_nil.
  - intros a s j n Hi Hn. unfold bind.
    rewrite (value_at_i_at notes s j n Hi Hn). now rewrite emit_nil.
Qed.

Lemma compute_totalMintedValue_runs notes st :
  compute_totalMintedValue notes st =
  (Ret (added 0 notes), with_i st (Some (Z.of_nat (List.length notes)))).
Proof. unfold compute_totalMintedValue. now rewrite add_loop_runs. Qed.

Lemma compute_kPublic_runs inputNotes outputNotes st :
  compute_kPublic inputNotes outputNotes st =
  (Ret (added (deducted 0 outputNotes) inputNotes),
   with_i st (Some (Z.of_nat (List.length inputNotes)))).
Proof.
  unfold compute_kPublic. unfold bind at 1.
  now rewrite sub_loop_runs, add_loop_runs, with_i_twice.
Qed.

(** ** Exact sums *)

(** An integer within [2^53] in magnitude is a double. *)
Lemma to_double_exact z : - 2 ^ 53 <= z <= 2 ^ 53 -> to_double z = z.
Proof.
  intros Hz. unfold to_double.
  destruct (Z.eq_dec (Z.abs z) (2 ^ 53)) as [Heq|Hne].
  - assert (Hcase : z = 2 ^ 53 \/ z = - 2 ^ 53) by lia.
    destruct Hcase as [-> | ->]; vm_compute; reflexivity.
  - assert (Hlt : Z.abs z < 2 ^ 53) by lia.
    assert (Hlog : Z.log2 (Z.abs z) < 53).
    { destruct (Z.eq_dec (Z.abs z) 0) as [H0|H0].
      - rewrite H0. cbn. lia.
      - apply Z.log2_lt_pow2; lia. }
    destruct (Z.leb_spec (Z.log2 (Z.abs z) - 52) 0); [reflexivity|lia].
Qed.

(** On the samples, [js_add] and [js_sub] are the addition and subtraction
    of binary64. *)
Example js_add_is_binary64_addition_on_samples :
  forallb (fun p => match binary64_add (fst p) (snd p) with
                    | Some z => z =? js_add (fst p) (snd p)
                    | None => false
                    end) rounding_samples = true
  /\ forallb (fun p => match binary64_sub (fst p) (snd p) with
                       | Some z => z =? js_sub (fst p) (snd p)
                       | None => false
                       end) rounding_samples = true.
Proof. split; vm_compute; reflexivity. Qed.

Lemma added_exact notes : forall acc,
  Forall (fun n => 0 <= k n) notes ->
  - 2 ^ 53 <= acc -> acc + sum_values notes <= 2 ^ 53 ->
  added acc notes = acc + sum_values notes.
Proof.
  unfold added.
  induction notes as [|n notes IH]; intros acc Hpos Hlo Hhi;
    cbn [fold_left].
  - cbn. lia.
  - rewrite sum_values_cons in *.
    apply Forall_cons_iff in Hpos. destruct Hpos as [Hn Hpos].
    pose proof (sum_values_nonneg _ Hpos) as Hrest.
    unfold js_add at 2. rewrite to_double_exact by lia.
    rewrite IH by (try assumption; lia). lia.
Qed.

Lemma deducted_exact notes : forall acc,
  Forall (fun n => 0 <= k n) notes ->
  acc <= 2 ^ 53 -> - 2 ^ 53 <= acc - sum_values notes ->
  deducted acc notes = acc - sum_values notes.
Proof.
  unfold deducted.
  induction notes as [|n notes IH]; intros acc Hpos Hhi Hlo;
    cbn [fold_left].
  - cbn. lia.
  - rewrite sum_values_cons in *.
    apply Forall_cons_iff in Hpos. destruct Hpos as [Hn Hpos].
    pose proof (sum_values_nonneg _ Hpos) as Hrest.
    unfold js_sub at 2. rewrite to_double_exact by lia.
    rewrite IH by (try assumption; lia). lia.
Qed.

(** ** No overflow *)

(** A result of magnitude at most [2^1000 + 2^53] rounds to a double of
    magnitude at most [2^1000]. *)
Lemma to_double_bounded z :
  Z.abs z <= 2 ^ 1000 + 2 ^ 53 -> Z.abs (to_double z) <= 2 ^ 1000.
Proof.
  intros Hz. unfold to_double. cbv zeta.
  remember (Z.abs z) as a eqn:Ea. remember (Z.log2 a) as L eqn:EL.
  destruct (Z.leb_spec (L - 52) 0) as [He|He].
  - rewrite <- Ea. assert (a < 2 ^ 53); [|lia].
    destruct (Z.eq_dec a 0) as [->|Ha]; [lia|].
    apply Z.log2_lt_pow2; lia.
  - assert (Ha : 0 < a).
    { destruct (Z.eq_dec a 0) as [H0|H0]; [|lia].
      rewrite H0 in EL. cbn in EL. lia. }
    destruct (Z.log2_spec a Ha) as [Hlo Hhi]. rewrite <- EL in Hlo, Hhi.
    remember (L - 52) as e eqn:Ee.
    assert (Hpe : 0 < 2 ^ e) by (apply Z.pow_pos_nonneg; lia).
    assert (Hsplit : 2 ^ (Z.succ L) = 2 ^ 53 * 2 ^ e).
    { rewrite <- Z.pow_add_r by lia. f_equal. lia. }
    remember (a / 2 ^ e) as q eqn:Eq. remember (a mod 2 ^ e) as r eqn:Er.
    assert (Hq : 0 <= q < 2 ^ 53).
    { subst q. split; [apply Z.div_pos; lia|].
      apply Z.div_lt_upper_bound; [lia|]. rewrite Z.mul_comm. lia. }
    assert (Hsgn : forall x, 0 <= x -> Z.abs (Z.sgn z * x) = x).
    { intros x Hx. destruct z as [|p|p]; cbn [Z.sgn]; [cbn in Ea; lia|lia|lia]. }
    assert (HL : L <= 1000).
    { assert (L < 1001); [|lia]. rewrite EL. apply Z.log2_lt_pow2; lia. }
    assert (Hdiv : a = 2 ^ e * q + r) by (subst q r; apply Z.div_mod; lia).
    assert (Hr : 0 <= r < 2 ^ e) by (subst r; apply Z.mod_pos_bound; lia).
    destruct (Z.eq_dec L 1000) as [E1000|NE].
    + (* at 2^1000 the addend is below half an ulp *)
      assert (E948 : e = 948) by lia.
      rewrite E948, E1000 in *.
      assert (P1 : 2 ^ 948 * 2 ^ 52 = 2 ^ 1000).
      { rewrite <- Z.pow_add_r by lia. reflexivity. }
      assert (P2 : 2 ^ 53 < 2 ^ 947) by (apply Z.pow_lt_mono_r; lia).
      assert (P3 : 2 ^ 948 = 2 * 2 ^ 947).
      { change 948 with (Z.succ 947). apply Z.pow_succ_r. lia. }
      assert (Hq52 : q = 2 ^ 52) by nia.
      change (948 - 1) with 947.
      destruct (Z.ltb_spec r (2 ^ 947)); [|nia]. cbn [orb].
      rewrite Hsgn by lia. nia.
    + assert (Hup : 2 ^ (Z.succ L) <= 2 ^ 1000).
      { apply Z.pow_le_mono_r; lia. }
      assert (Hq' : forall q', 0 <= q' <= q + 1 ->
                 Z.abs (Z.sgn z * (q' * 2 ^ e)) <= 2 ^ 1000).
      { intros q' H1. rewrite Hsgn by nia. nia. }
      destruct ((r <? 2 ^ (e - 1)) || ((r =? 2 ^ (e - 1)) && Z.even q));
        apply Hq'; lia.
Qed.

(** With note values of at most 53 bits, as [toNumber()] yields them, the
    accumulator of a summation loop never exceeds [2^1000] in magnitude:
    every addition and subtraction the loops make has an exact result far
    below the largest double, so that nothing is lost by leaving overflow
    out of [to_double]. *)
Lemma sums_stay_finite notes : forall acc,
  Forall (fun n => Z.abs (k n) < 2 ^ 53) notes ->
  Z.abs acc <= 2 ^ 1000 ->
  Z.abs (added acc notes) <= 2 ^ 1000
  /\ Z.abs (deducted acc notes) <= 2 ^ 1000.
Proof.
  unfold added, deducted.
  induction notes as [|n notes IH]; intros acc Hk Hacc; cbn [fold_left].
  - split; exact Hacc.
  - apply Forall_cons_iff in Hk. destruct Hk as [Hn Hk].
    split.
    + apply (IH (js_add acc (k n)) Hk).
      unfold js_add. apply to_double_bounded. lia.
    + apply (IH (js_sub acc (k n)) Hk).
      unfold js_sub. apply to_double_bounded. lia.
Qed.

(** Within the safe range the loops compute the exact sums. *)
Lemma totalMintedValue_exact notes st :
  safe_values notes ->
  fst (compute_totalMintedValue notes st) = Ret (sum_values notes).
Proof.
  intros [Hpos Hsum]. rewrite compute_totalMintedValue_runs. cbn [fst].
  rewrite added_exact by (try assumption; lia). f_equal.
Qed.

Lemma kPublic_exact inputNotes outputNotes st :
  safe_values inputNotes -> safe_values outputNotes ->
  fst (compute_kPublic inputNotes outputNotes st) =
  Ret (sum_values inputNotes - sum_values outputNotes).
Proof.
  intros [Hin Sin] [Hout Sout]. rewrite compute_kPublic_runs. cbn [fst].
  pose proof (sum_values_nonneg _ Hin). pose proof (sum_values_nonneg _ Hout).
  rewrite deducted_exact by (try assumption; lia).
  rewrite added_exact by (try assumption; lia). f_equal. lia.
Qed.

(** ** The reporting loop *)

Lemma loop_result_report logs : forall acc : unit,
  loop_result (fun _ _ => tt)
              (fun _ e => if recognized e then [ELog (normalized e)] else [])
              logs acc =
  (tt, map (fun e => ELog (normalized e)) (filter recognized logs)).
Proof.
  induction logs as [|e logs IH]; intros []; cbn [loop_result filter map].
  - reflexivity.
  - rewrite IH. destruct (recognized e); reflexivity.
Qed.

Lemma logNoteEvents_runs logs st :
  logNoteEvents logs st =
  (Ret tt,
   with_i (emit (map (fun e => ELog (normalized e)) (filter recognized logs)) st)
          (Some (Z.of_nat (List.length logs)))).
Proof.
  unfold logNoteEvents.
  rewrite for_i_from_0_runs
    with (fv := fun _ _ => tt)
         (fe := fun _ e => if recognized e then [ELog (normalized e)] else []).
  - now rewrite loop_result_report.
  - intros [] s j e Hi He. unfold bind, read_i. rewrite Hi.
    rewrite element_nat, He. unfold recognized.
    destruct ((event e =? "CreateNote")%string || (event e =? "DestroyNote")%string).
    + reflexivity.
    + unfold ret. now rewrite emit_nil.
Qed.

(* ================================================================== *)
(** * Running the helpers *)

#[local] Arguments logNoteEvents : simpl never.
#[local] Arguments compute_kPublic : simpl never.
#[local] Arguments compute_totalMintedValue : simpl never.

(** Split on the answer of the next external call. *)
Ltac next_call :=
  match goal with
  | |- context [match ?o with Ok _ => _ | Err _ => _ end] =>
      let E := fresh "Call" in destruct o eqn:E
  end.

(** Simplify one run of a helper up to the next external call. *)
Ltac simp_run :=
  cbn beta iota delta [fst snd Bool.eqb];
  rewrite ?logNoteEvents_runs;
  cbn beta iota delta [fst snd Bool.eqb].

(** Put the trace of the final state in the form [trace st ++ d]. *)
Ltac normalize_trace :=
  cbn [trace record emit with_i global_i schemas instances];
  rewrite <- ?app_assoc; cbn [app].

Ltac run_helper :=
  unfold bind, ret, throw, process_exit, try_catch, external, console_log;
  simp_run; repeat (next_call; simp_run).

Lemma filter_log_records (p : Event -> bool) (f : LogEntry -> LogMsg) l :
  (forall m, p (ELog m) = false) ->
  filter p (map (fun e => ELog (f e)) l) = [].
Proof.
  intros Hp. induction l as [|e l IH]; [reflexivity|].
  cbn [map filter]. now rewrite Hp.
Qed.

(** Compute a filter over the events of a run. *)
Ltac filter_trace :=
  unfold proof_constructions, method_calls, creations;
  repeat first
    [ rewrite filter_app
    | rewrite filter_log_records by reflexivity
    | progress cbn [filter app is_JoinSplitProof is_method_call is_creation] ].

(** In a goal about the new events of a run whose final trace is known. *)
Ltac known_events :=
  match goal with
  | |- context [new_events ?st ?st'] =>
      let d := fresh "d" in
      let E := fresh "E" in
      evar (d : Trace);
      assert (E : new_events st st' = d)
        by (apply new_events_app; normalize_trace; subst d; reflexivity);
      subst d; rewrite !E; clear E
  end.

(** ** C6 *)

(** C6. For every list of log entries, [logNoteEvents] returns normally and
    prints exactly the normalized records (event name, owner, note hash) of
    the entries whose event name is "CreateNote" or "DestroyNote", one per
    such entry and none for any other entry, in the order of the list. *)
Theorem logNoteEvents_reports_note_events (logs : list LogEntry) (st : State) :
  (forall e, recognized e = true <->
             event e = "CreateNote" \/ event e = "DestroyNote") /\
  (forall e, normalized e =
             LJson [("event", Some (event e));
                    ("owner", lookup "owner" (args e));
                    ("hash", lookup "noteHash" (args e))]) /\
  exists st',
    logNoteEvents logs st = (Ret tt, st') /\
    new_events st st' =
    map (fun e => ELog (normalized e)) (filter recognized logs).
Proof.
  split; [|split].
  - intros e. unfold recognized. rewrite orb_true_iff, !String.eqb_eq.
    reflexivity.
  - reflexivity.
  - rewrite logNoteEvents_runs. eexists. split; [reflexivity|].
    apply new_events_app. reflexivity.
Qed.

(** ** C10 *)

(** C10. The value the global [i] holds when a helper is entered does not
    matter: from any two initial values of [i] the loop of the mint helper
    returns the same total and the loops of the transfer and shield helpers
    return the same public value, and the whole run of each helper (outcome,
    calls made, final state) is the same. *)
Theorem helpers_ignore_previous_i (env : Env) (notes inputNotes outputNotes :
    list Note) (inputNoteOwners : list Account) (zkAsset ace : Instance)
    (aztecAccount : Account) (publicOwner : Address) (txOptions : TxOptions)
    (display : option bool) (st : State) (i1 i2 : option Z) :
  (exists totalMintedValue,
     fst (compute_totalMintedValue notes (with_i st i1)) = Ret totalMintedValue
     /\ fst (compute_totalMintedValue notes (with_i st i2))
        = Ret totalMintedValue)
  /\ (exists kPublic,
        fst (compute_kPublic inputNotes outputNotes (with_i st i1))
        = Ret kPublic
        /\ fst (compute_kPublic inputNotes outputNotes (with_i st i2))
           = Ret kPublic)
  /\ mintConfidentialAsset env notes zkAsset aztecAccount txOptions (with_i st i1)
     = mintConfidentialAsset env notes zkAsset aztecAccount txOptions (with_i st i2)
  /\ confidentialTransfer env inputNotes inputNoteOwners outputNotes zkAsset
                          publicOwner txOptions display (with_i st i1)
     = confidentialTransfer env inputNotes inputNoteOwners outputNotes zkAsset
                            publicOwner txOptions display (with_i st i2)
  /\ shieldsERC20toZkAsset env inputNotes inputNoteOwners outputNotes zkAsset
                           ace publicOwner txOptions (with_i st i1)
     = shieldsERC20toZkAsset env inputNotes inputNoteOwners outputNotes zkAsset
                             ace publicOwner txOptions (with_i st i2).
Proof.
  split; [|split; [|split; [|split]]].
  - eexists. rewrite !compute_totalMintedValue_runs. split; reflexivity.
  - eexists. rewrite !compute_kPublic_runs. split; reflexivity.
  - unfold mintConfidentialAsset, bind.
    now rewrite !compute_totalMintedValue_runs, !with_i_twice.
  - unfold confidentialTransfer, bind.
    now rewrite !compute_kPublic_runs, !with_i_twice.
  - unfold shieldsERC20toZkAsset, bind.
    now rewrite !compute_kPublic_runs, !with_i_twice.
Qed.

(** ** C1 *)

(** C1 (amended). For every list of input notes and every list of output
    notes whose values are not negative and total at most [2^53] on each
    side, the loops of the transfer helper and of the shield helper return
    the sum of the input values minus the sum of the output values (the
    input total when there is no output note, minus the output total when
    there is no input note), and each helper constructs exactly one
    join-split proof, with that number as its public value. *)
Theorem kPublic_is_inputs_minus_outputs (env : Env)
    (inputNotes outputNotes : list Note) (inputNoteOwners : list Account)
    (zkAsset ace : Instance) (publicOwner : Address) (txOptions : TxOptions)
    (display : option bool) (st : State) :
  safe_values inputNotes -> safe_values outputNotes ->
  let kPublic := sum_values inputNotes - sum_values outputNotes in
  fst (compute_kPublic inputNotes outputNotes st) = Ret kPublic
  /\ fst (compute_kPublic inputNotes [] st) = Ret (sum_values inputNotes)
  /\ fst (compute_kPublic [] outputNotes st) = Ret (- sum_values outputNotes)
  /\ (exists r,
        proof_constructions
          (new_events st
             (snd (confidentialTransfer env inputNotes inputNoteOwners
                     outputNotes zkAsset publicOwner txOptions display st))) =
        [EJoinSplitProof inputNotes outputNotes (from txOptions) kPublic
                         publicOwner r])
  /\ (exists r,
        proof_constructions
          (new_events st
             (snd (shieldsERC20toZkAsset env inputNotes inputNoteOwners
                     outputNotes zkAsset ace publicOwner txOptions st))) =
        [EJoinSplitProof inputNotes outputNotes (from txOptions) kPublic
                         publicOwner r]).
Proof.
  intros Hin Hout kPublic. subst kPublic.
  assert (Hnil : safe_values []).
  { split; [constructor|]. cbn. lia. }
  pose proof (kPublic_exact inputNotes outputNotes st Hin Hout) as E.
  rewrite compute_kPublic_runs in E. cbn [fst] in E. injection E as E.
  split; [|split; [|split; [|split]]].
  - now apply kPublic_exact.
  - rewrite (kPublic_exact inputNotes [] st Hin Hnil).
    cbn [sum_values fold_right]. now rewrite Z.sub_0_r.
  - rewrite (kPublic_exact [] outputNotes st Hnil Hout).
    cbn [sum_values fold_right]. reflexivity.
  - unfold confidentialTransfer. unfold bind at 1. rewrite compute_kPublic_runs.
    rewrite E.
    unfold JoinSplitProof, encodeABI, constructSignatures, send.
    destruct display as [[|]|]; run_helper;
      known_events; filter_trace; eexists; reflexivity.
  - unfold shieldsERC20toZkAsset. unfold bind at 1.
    rewrite compute_kPublic_runs. rewrite E.
    unfold JoinSplitProof, encodeABI, constructSignatures, send.
    run_helper; known_events; filter_trace; eexists; reflexivity.
Qed.

Lemma kPublic_is_inputs_minus_outputs_witness :
  safe_values [{| noteHash := "0xi1"; k := 30 |}]
  /\ safe_values [{| noteHash := "0xo1"; k := 10 |};
                  {| noteHash := "0xo2"; k := 15 |}]
  /\ fst (compute_kPublic [{| noteHash := "0xi1"; k := 30 |}]
                          [{| noteHash := "0xo1"; k := 10 |};
                           {| noteHash := "0xo2"; k := 15 |}] fresh_state)
     = Ret (sum_values [{| noteHash := "0xi1"; k := 30 |}]
            - sum_values [{| noteHash := "0xo1"; k := 10 |};
                          {| noteHash := "0xo2"; k := 15 |}]).
Proof.
  assert (Hin : safe_values [{| noteHash := "0xi1"; k := 30 |}]).
  { split; [repeat constructor; cbn; lia|cbn; lia]. }
  assert (Hout : safe_values [{| noteHash := "0xo1"; k := 10 |};
                              {| noteHash := "0xo2"; k := 15 |}]).
  { split; [repeat constructor; cbn; lia|cbn; lia]. }
  split; [exact Hin|]. split; [exact Hout|].
  exact (proj1 (kPublic_is_inputs_minus_outputs cooperative_env
                  [{| noteHash := "0xi1"; k := 30 |}]
                  [{| noteHash := "0xo1"; k := 10 |};
                   {| noteHash := "0xo2"; k := 15 |}]
                  [sample_account] {| address := "@ZkAsset.json" |}
                  {| address := "@ACE.json" |} "0xowner" sample_txOptions
                  None fresh_state Hin Hout)).
Defined.

(** C1 as worded does not hold for every list: the additions are those of
    doubles, and round beyond [2^53].  With input notes of values [2^53 - 1]
    and [2] and output notes of the same values, the totals are equal, yet
    the loops return 1, and 1 is the public value given to the join-split
    proof: the accumulator goes from [-(2^53 - 1)] to [-2^53] (the double
    nearest to [-(2^53 + 1)]), then up to [-1] and to [1]. *)
Lemma kPublic_rounds_beyond_the_safe_range :
  sum_values sample_large_notes - sum_values sample_large_notes = 0
  /\ fst (compute_kPublic sample_large_notes sample_large_notes fresh_state)
     = Ret 1
  /\ proof_constructions (trace (snd sample_large_transfer)) =
     [EJoinSplitProof sample_large_notes sample_large_notes "0xsender" 1
                      "0xowner" (Ok {| hash := "0xjoinsplit" |})].
Proof.
  split; [vm_compute; reflexivity|].
  split; vm_compute; reflexivity.
Qed.

(** ** C2 *)

(** C2 (amended). For every list of notes whose values are not negative and
    total at most [2^53], and after any history, the mint helper first
    obtains the zero-value note, then creates the new counter note for the
    account with value the sum of the minted notes' values plus zero (the
    total it starts from on every call), and builds the mint proof with the
    zero-value note as old counter, the note just created as new counter,
    the notes and the sender; a failing library call ends the run with its
    error. *)
Theorem mint_counter_is_total_of_minted_notes (env : Env) (notes : list Note)
    (zkAssetMintable : Instance) (aztecAccount : Account)
    (txOptions : TxOptions) (st : State) :
  safe_values notes ->
  let run := mintConfidentialAsset env notes zkAssetMintable aztecAccount
                                   txOptions st in
  let made := creations (new_events st (snd run)) in
  let total := sum_values notes + 0 in
  (exists e, made = [ECreateZeroValueNote (Err e)] /\ fst run = Throw e)
  \/ (exists zeroMintCounterNote,
        (exists e,
           made = [ECreateZeroValueNote (Ok zeroMintCounterNote);
                   ENoteCreate (publicKey aztecAccount) total (Err e)]
           /\ fst run = Throw e)
        \/ (exists newMintCounterNote r,
              made = [ECreateZeroValueNote (Ok zeroMintCounterNote);
                      ENoteCreate (publicKey aztecAccount) total
                                  (Ok newMintCounterNote);
                      EMintProof zeroMintCounterNote newMintCounterNote notes
                                 (from txOptions) r])).
Proof.
  intros Hsafe run made total. subst run made total.
  pose proof (totalMintedValue_exact notes st Hsafe) as E.
  rewrite compute_totalMintedValue_runs in E. cbn [fst] in E.
  injection E as E.
  unfold mintConfidentialAsset, bind.
  rewrite !compute_totalMintedValue_runs, E, Z.add_0_r, map_id.
  unfold createZeroValueNote, noteCreate, MintProof, encodeABI, send.
  run_helper; known_events; filter_trace.
  all: first
    [ left; eexists; split; reflexivity
    | right; eexists; left; eexists; split; reflexivity
    | right; eexists; right; eexists; eexists; reflexivity ].
Qed.

Lemma mint_counter_is_total_of_minted_notes_witness :
  safe_values [{| noteHash := "0xn1"; k := 5 |}]
  /\
  let run := sample_first_mint in
  let made := creations (new_events fresh_state (snd run)) in
  let total := sum_values [{| noteHash := "0xn1"; k := 5 |}] + 0 in
  (exists e, made = [ECreateZeroValueNote (Err e)] /\ fst run = Throw e)
  \/ (exists zeroMintCounterNote,
        (exists e,
           made = [ECreateZeroValueNote (Ok zeroMintCounterNote);
                   ENoteCreate (publicKey sample_account) total (Err e)]
           /\ fst run = Throw e)
        \/ (exists newMintCounterNote r,
              made = [ECreateZeroValueNote (Ok zeroMintCounterNote);
                      ENoteCreate (publicKey sample_account) total
                                  (Ok newMintCounterNote);
                      EMintProof zeroMintCounterNote newMintCounterNote
                                 [{| noteHash := "0xn1"; k := 5 |}]
                                 (from sample_txOptions) r])).
Proof.
  assert (Hsafe : safe_values [{| noteHash := "0xn1"; k := 5 |}]).
  { split; [repeat constructor; cbn; lia|cbn; lia]. }
  split; [exact Hsafe|].
  exact (mint_counter_is_total_of_minted_notes cooperative_env
           [{| noteHash := "0xn1"; k := 5 |}]
           {| address := "@ZkAssetMintable.json" |} sample_account
           sample_txOptions fresh_state Hsafe).
Defined.

(** C2 as worded does not hold on a second call: after a mint of value 5
    the previous total-minted counter is 5, and a mint of value 7 then
    creates the counter note with value 7, not 7 + 5, and again passes the
    zero-value note as old counter. *)
Lemma second_mint_ignores_previous_counter :
  fst sample_first_mint = Ret tt
  /\ previous_counter (trace (snd sample_first_mint)) = 5
  /\ creations (new_events (snd sample_first_mint) (snd sample_second_mint)) =
     [ECreateZeroValueNote (Ok {| noteHash := "0xzero"; k := 0 |});
      ENoteCreate "0xpub" 7 (Ok {| noteHash := "note:0xpub"; k := 7 |});
      EMintProof {| noteHash := "0xzero"; k := 0 |}
                 {| noteHash := "note:0xpub"; k := 7 |}
                 [{| noteHash := "0xn2"; k := 7 |}] "0xsender"
                 (Ok {| hash := "0xmint" |})]
  /\ 7 <> sum_values [{| noteHash := "0xn2"; k := 7 |}]
          + previous_counter (trace (snd sample_first_mint)).
Proof.
  split; [vm_compute; reflexivity|].
  split; [vm_compute; reflexivity|].
  split; [vm_compute; reflexivity|].
  vm_compute. discriminate.
Qed.

(** ** C5 *)

(** C5. In every run of the shield helper, with [kPublic] the public
    value its loops computed and its proof is built with: when the proof was
    built, encoded and signed, the contract calls are, in this order, the
    engine's [publicApprove] with the asset's address, the hash of that
    proof and [-kPublic], and, only once that call has returned, the
    asset's [confidentialTransfer]; a failed approval ends the run before
    any transfer is submitted; and no contract call is made only when
    building, encoding or signing the proof failed, which ends the run with
    that error.  With no input note and one output note of value 20 the
    public value is -20 and the approval is requested for 20. *)
Theorem shield_approves_before_transfer (env : Env)
    (inputNotes outputNotes : list Note) (inputNoteOwners : list Account)
    (zkAsset ace : Instance) (publicOwner : Address) (txOptions : TxOptions)
    (st : State) (h : string) :
  (exists kPublic,
     fst (compute_kPublic inputNotes outputNotes st) = Ret kPublic
     /\ shield_calls env inputNotes inputNoteOwners outputNotes zkAsset ace
                     publicOwner txOptions kPublic (- kPublic) st)
  /\ fst (compute_kPublic [] [{| noteHash := h; k := 20 |}] st) = Ret (-20)
  /\ shield_calls env [] inputNoteOwners [{| noteHash := h; k := 20 |}]
                  zkAsset ace publicOwner txOptions (-20) 20 st.
Proof.
  assert (General : forall ins outs kPublic,
            fst (compute_kPublic ins outs st) = Ret kPublic ->
            shield_calls env ins inputNoteOwners outs zkAsset ace publicOwner
                         txOptions kPublic (- kPublic) st).
  { intros ins outs kPublic E.
    rewrite compute_kPublic_runs in E. cbn [fst] in E. injection E as E.
    unfold shield_calls, shieldsERC20toZkAsset, bind.
    rewrite !compute_kPublic_runs, E.
    unfold JoinSplitProof, encodeABI, constructSignatures, send.
    run_helper; known_events; filter_trace.
    all: first
      [ left; eexists; split; [reflexivity|]; split; [reflexivity|];
        first [ left; reflexivity
              | right; eexists; left; reflexivity
              | right; eexists; right; eexists; reflexivity ]
      | right; eexists; split; [cbn [In]; left; reflexivity|];
        first [ left; eexists; split; reflexivity
              | right; do 4 eexists; reflexivity ] ]. }
  assert (E20 : fst (compute_kPublic [] [{| noteHash := h; k := 20 |}] st)
                = Ret (-20)).
  { rewrite compute_kPublic_runs. reflexivity. }
  split; [|split; [exact E20|exact (General _ _ _ E20)]].
  eexists. split; [|apply General]; rewrite compute_kPublic_runs; reflexivity.
Qed.

(* ================================================================== *)
(** * Running [instantiate] *)

Lemma lookup_assign_other {V} (key key' : string) (v : V) o :
  (key =? key')%string = false ->
  lookup key (assign key' v o) = lookup key o.
Proof.
  intros Hne. induction o as [|[k0 v0] o IH]; cbn [assign lookup].
  - now rewrite Hne.
  - destruct (String.eqb_spec key' k0) as [->|Hk0]; cbn [lookup].
    + now rewrite Hne.
    + now rewrite IH.
Qed.

Lemma lookup_assign_same {V} (key : string) (v : V) o :
  lookup key (assign key v o) = Some v.
Proof.
  induction o as [|[k0 v0] o IH]; cbn [assign lookup].
  - now rewrite String.eqb_refl.
  - destruct (String.eqb_spec key k0) as [->|Hk0]; cbn [lookup].
    + now rewrite String.eqb_refl.
    + destruct (String.eqb_spec key k0); [contradiction|exact IH].
Qed.

Lemma failures_logged_app d1 d2 :
  failures_logged d1 -> failures_logged d2 -> failures_logged (d1 ++ d2).
Proof.
  induction d1 as [|ev d1 IH]; intros H1 H2; [exact H2|].
  cbn [app failures_logged] in *. destruct H1 as [Hev H1]. split.
  - destruct (guarded_failure ev); [|exact I].
    destruct Hev as [rest' ->]. now exists (rest' ++ d2).
  - now apply IH.
Qed.

Lemma quiet_app d1 d2 : quiet d1 -> quiet d2 -> quiet (d1 ++ d2).
Proof.
  intros [L1 C1] [L2 C2]. split.
  - now apply failures_logged_app.
  - apply Forall_app. now split.
Qed.

Lemma bind_Ret {A B} (m : M A) (f : A -> M B) st a st' :
  m st = (Ret a, st') -> bind m f st = f a st'.
Proof. intros E. unfold bind. now rewrite E. Qed.

(** Split on the next property lookup in a local object. *)
Ltac next_lookup :=
  match goal with
  | H : lookup ?key ?o = _ |- context [lookup ?key ?o] => rewrite H
  | |- context [match lookup ?key ?o with Some _ => _ | None => _ end] =>
      let E := fresh "Look" in destruct (lookup key o) eqn:E
  end.

Ltac simp_block :=
  cbn beta iota delta [fst snd trace global_i schemas instances
                       lookup assign String.eqb Ascii.eqb Bool.eqb];
  rewrite ?lookup_assign_other by reflexivity;
  rewrite ?lookup_assign_same.

Ltac run_block :=
  unfold load, setFactory, log_address;
  unfold address_of;
  unfold readContract, new_contract, send, schema, instance, set_schema,
         set_instance, log_error;
  unfold bind, ret, throw, try_catch, external, console_log, record;
  simp_block; repeat (first [next_call | next_lookup]; simp_block).

Ltac solve_quiet :=
  split;
  [ cbn [failures_logged guarded_failure String.eqb Ascii.eqb Bool.eqb];
    repeat split; eauto
  | repeat constructor ].

(** The final state of a block, in the form the lemmas state it. *)
Ltac final_state :=
  rewrite <- ?app_assoc; cbn [app];
  first
    [ reflexivity
    | match goal with
      | |- _ = (_, {| trace := _ ++ ?d; global_i := _; schemas := _;
                      instances := _ |}) =>
          unify d (@nil Event); rewrite app_nil_r; reflexivity
      end ].

Lemma read_schemas_guarded env st :
  schemas st = [] ->
  exists d sch,
    try_catch (read_schemas env) log_error st =
    (Ret tt, {| trace := trace st ++ d; global_i := global_i st;
                schemas := sch; instances := instances st |})
    /\ quiet d
    /\ (forall a8, lookup "ZKASSET" sch = Some a8 ->
        exists a1 a2 a3 a4 a5 a6 a7,
          sch = [("ACE", a1); ("JOINSPLIT", a2); ("JOINSPLIT_FLUID", a3);
                 ("ERC20_MINTABLE", a4); ("BASE_FACTORY", a5);
                 ("ADJUSTABLE_FACTORY", a6); ("ZKASSET_MINTABLE", a7);
                 ("ZKASSET", a8)]
          /\ d = [EReadContract "ACE.json" (Ok a1);
                  EReadContract "JoinSplit.json" (Ok a2);
                  EReadContract "JoinSplitFluid.json" (Ok a3);
                  EReadContract "ERC20Mintable.json" (Ok a4);
                  EReadContract "FactoryBase201907.json" (Ok a5);
                  EReadContract "FactoryAdjustable201907.json" (Ok a6);
                  EReadContract "ZkAssetMintable.json" (Ok a7);
                  EReadContract "ZkAsset.json" (Ok a8)]).
Proof.
  destruct st as [tr gi sch0 insts]. cbn [schemas]. intros ->.
  unfold read_schemas. run_block.
  all: eexists; eexists; split; [final_state|split; [solve_quiet|]].
  all: cbn [lookup String.eqb Ascii.eqb Bool.eqb]; intros a8 Ha8;
    try discriminate Ha8.
  inversion Ha8; subst. do 7 eexists. split; reflexivity.
Qed.

Lemma deploy_engine_guarded env txOptions st :
  instances st = [] ->
  exists d insts,
    try_catch (deploy_engine env txOptions) log_error st =
    (Ret tt, {| trace := trace st ++ d; global_i := global_i st;
                schemas := schemas st; instances := insts |})
    /\ quiet d
    /\ lookup "zkAssetMintable" insts = None
    /\ lookup "zkAsset" insts = None
    /\ (forall c6, lookup "adjustableFactory" insts = Some c6 ->
        exists a1 a2 a3 a4 a5 a6 c1 c2 c3 c4 c5,
          (lookup "ACE" (schemas st) = Some a1
           /\ lookup "JOINSPLIT" (schemas st) = Some a2
           /\ lookup "JOINSPLIT_FLUID" (schemas st) = Some a3
           /\ lookup "ERC20_MINTABLE" (schemas st) = Some a4
           /\ lookup "BASE_FACTORY" (schemas st) = Some a5
           /\ lookup "ADJUSTABLE_FACTORY" (schemas st) = Some a6)
          /\ insts = [("ace", c1); ("joinSplit", c2); ("joinSplitFluid", c3);
                      ("erc20", c4); ("baseFactory", c5);
                      ("adjustableFactory", c6)]
          /\ d = [ENew a1 [ATx txOptions] (Ok c1);
                  ENew a2 [ATx txOptions] (Ok c2);
                  ENew a3 [ATx txOptions] (Ok c3);
                  ENew a4 [ATx txOptions] (Ok c4);
                  ENew a5 [AAddr (address c1); ATx txOptions] (Ok c5);
                  ENew a6 [AAddr (address c1); ATx txOptions] (Ok c6)]).
Proof.
  destruct st as [tr gi sch insts0]. cbn [instances schemas]. intros ->.
  unfold deploy_engine. run_block.
  all: eexists; eexists; split; [final_state|split; [solve_quiet|]].
  all: cbn [lookup String.eqb Ascii.eqb Bool.eqb];
    split; [reflexivity|split; [reflexivity|]]; intros c6 Hc6;
    try discriminate Hc6.
  inversion Hc6; subst. do 11 eexists.
  split; [|split; reflexivity]. repeat split; reflexivity.
Qed.

(** Find the case of a nested disjunction that the facts at hand prove. *)
Ltac solve_cases :=
  first [ reflexivity
        | eassumption
        | split; [solve_cases | solve_cases]
        | eexists; solve_cases
        | left; solve_cases
        | right; solve_cases ].

Lemma set_factories_guarded env txOptions st :
  exists d,
    try_catch (set_factories env txOptions) log_error st = (Ret tt, emit d st)
    /\ quiet d
    /\ deployments d = []
    /\ (forall ace baseFactory adjustableFactory,
          lookup "ace" (instances st) = Some ace ->
          lookup "baseFactory" (instances st) = Some baseFactory ->
          lookup "adjustableFactory" (instances st) = Some adjustableFactory ->
          registration_attempt ace baseFactory adjustableFactory txOptions d).
Proof.
  destruct st as [tr gi sch insts]. unfold set_factories, emit.
  cbn [trace global_i schemas instances]. run_block.
  all: eexists; split; [final_state|split; [solve_quiet|]].
  all: split; [reflexivity|]; intros ace bf af Hace Hbf Haf;
    try discriminate; inversion Hace; inversion Hbf; inversion Haf; subst;
    unfold registration_attempt.
  - left. do 3 eexists. reflexivity.
  - right; right; right. do 3 eexists. reflexivity.
  - right; right; left. do 2 eexists. reflexivity.
  - right; left. eexists. reflexivity.
Qed.

Lemma deploy_zkAssets_guarded env txOptions st :
  exists d insts,
    try_catch (deploy_zkAssets env txOptions) log_error st =
    (Ret tt, {| trace := trace st ++ d; global_i := global_i st;
                schemas := schemas st; instances := insts |})
    /\ quiet d
    /\ registrations d = []
    /\ (forall name, (name =? "zkAssetMintable")%string = false ->
                     (name =? "zkAsset")%string = false ->
                     lookup name insts = lookup name (instances st))
    /\ (lookup "zkAsset" (instances st) = None ->
        forall c8, lookup "zkAsset" insts = Some c8 ->
        exists a7 a8 ace erc20 c7,
          (lookup "ZKASSET_MINTABLE" (schemas st) = Some a7
           /\ lookup "ZKASSET" (schemas st) = Some a8
           /\ lookup "ace" (instances st) = Some ace
           /\ lookup "erc20" (instances st) = Some erc20)
          /\ insts = assign "zkAsset" c8
                       (assign "zkAssetMintable" c7 (instances st))
          /\ d = [ENew a7 [AAddr (address ace); AAddr (address erc20);
                           ERC20_SCALING_FACTOR env; ANum 0; AList [];
                           ATx txOptions] (Ok c7);
                  ENew a8 [AAddr (address ace); AAddr (address erc20);
                           ANum 1; ATx txOptions] (Ok c8)]).
Proof.
  destruct st as [tr gi sch insts0]. unfold deploy_zkAssets.
  cbn [trace global_i schemas instances]. run_block.
  all: eexists; eexists; split; [final_state|split; [solve_quiet|]].
  all: split; [reflexivity|split].
  all: try (intros name N1 N2; rewrite ?lookup_assign_other by assumption;
            reflexivity).
  all: intros Hnone c8 Hc8;
    rewrite ?lookup_assign_same, ?lookup_assign_other in Hc8 by reflexivity;
    try congruence.
  inversion Hc8; subst. do 5 eexists.
  split; [|split; reflexivity]. repeat split; reflexivity.
Qed.

Lemma configure_engine_runs env txOptions st :
  exists d out,
    configure_engine env txOptions st = (out, emit d st)
    /\ config_attempt env txOptions (instances st) d out.
Proof.
  destruct st as [tr gi sch insts]. unfold configure_engine, emit.
  cbn [trace global_i schemas instances]. run_block.
  all: eexists; eexists; split; [final_state|]; unfold config_attempt.
  all: solve_cases.
Qed.

Lemma report_addresses_runs st :
  exists d out,
    report_addresses st = (out, emit d st)
    /\ Forall (fun ev => is_log ev = true) d
    /\ ((exists e, out = Throw e)
        \/ (out = Ret tt /\
            exists c1 c2 c3 c4 c5 c6 c7 c8,
              (lookup "ace" (instances st) = Some c1
               /\ lookup "joinSplit" (instances st) = Some c2
               /\ lookup "joinSplitFluid" (instances st) = Some c3
               /\ lookup "erc20" (instances st) = Some c4
               /\ lookup "baseFactory" (instances st) = Some c5
               /\ lookup "adjustableFactory" (instances st) = Some c6
               /\ lookup "zkAssetMintable" (instances st) = Some c7
               /\ lookup "zkAsset" (instances st) = Some c8))).
Proof.
  destruct st as [tr gi sch insts]. unfold report_addresses, emit.
  cbn [trace global_i schemas instances]. run_block.
  all: eexists; eexists; split; [final_state|split; [repeat constructor|]].
  all: solve_cases.
Qed.

(** ** The guarded part of [instantiate] *)

Lemma instantiate_guarded env txOptions st :
  exists d sch insts,
    instantiate env txOptions st =
    (configure_engine env txOptions ;; report_addresses ;;
     fun s => (Ret (instances s), s))
      {| trace := trace st ++ d; global_i := global_i st;
         schemas := sch; instances := insts |}
    /\ quiet d
    /\ (forall c6 c8,
          lookup "adjustableFactory" insts = Some c6 ->
          lookup "zkAsset" insts = Some c8 ->
          exists a1 a2 a3 a4 a5 a6 a7 a8 c1 c2 c3 c4 c5 c7 d3,
            insts = [("ace", c1); ("joinSplit", c2); ("joinSplitFluid", c3);
                     ("erc20", c4); ("baseFactory", c5);
                     ("adjustableFactory", c6); ("zkAssetMintable", c7);
                     ("zkAsset", c8)]
            /\ registration_attempt c1 c5 c6 txOptions d3
            /\ d = [ELog (LStr lineBreak);
                    ELog (LStr "deploying AZTEC contracts...");
                    EReadContract "ACE.json" (Ok a1);
                    EReadContract "JoinSplit.json" (Ok a2);
                    EReadContract "JoinSplitFluid.json" (Ok a3);
                    EReadContract "ERC20Mintable.json" (Ok a4);
                    EReadContract "FactoryBase201907.json" (Ok a5);
                    EReadContract "FactoryAdjustable201907.json" (Ok a6);
                    EReadContract "ZkAssetMintable.json" (Ok a7);
                    EReadContract "ZkAsset.json" (Ok a8);
                    ENew a1 [ATx txOptions] (Ok c1);
                    ENew a2 [ATx txOptions] (Ok c2);
                    ENew a3 [ATx txOptions] (Ok c3);
                    ENew a4 [ATx txOptions] (Ok c4);
                    ENew a5 [AAddr (address c1); ATx txOptions] (Ok c5);
                    ENew a6 [AAddr (address c1); ATx txOptions] (Ok c6)]
                   ++ d3
                   ++ [ENew a7 [AAddr (address c1); AAddr (address c4);
                                ERC20_SCALING_FACTOR env; ANum 0; AList [];
                                ATx txOptions] (Ok c7);
                       ENew a8 [AAddr (address c1); AAddr (address c4);
                                ANum 1; ATx txOptions] (Ok c8)]).
Proof.
  unfold instantiate.
  erewrite bind_Ret by reflexivity.
  erewrite bind_Ret by reflexivity.
  erewrite bind_Ret by reflexivity.
  cbn [trace global_i schemas instances record].
  cbn beta.
  match goal with |- context [bind (try_catch (read_schemas env) log_error) _ ?s] =>
    destruct (read_schemas_guarded env s eq_refl) as (d1 & sch & E1 & Q1 & S1)
  end.
  erewrite bind_Ret by exact E1. clear E1.
  cbn [trace global_i schemas instances] in *.
  cbn beta.
  match goal with |- context [bind (try_catch (deploy_engine env txOptions) log_error) _ ?s] =>
    destruct (deploy_engine_guarded env txOptions s eq_refl)
      as (d2 & insts2 & E2 & Q2 & Nm2 & Nz2 & S2)
  end.
  erewrite bind_Ret by exact E2. clear E2.
  cbn [trace global_i schemas instances] in *.
  cbn beta.
  match goal with |- context [bind (try_catch (set_factories env txOptions) log_error) _ ?s] =>
    destruct (set_factories_guarded env txOptions s) as (d3 & E3 & Q3 & _ & S3)
  end.
  erewrite bind_Ret by exact E3. clear E3.
  unfold emit in *. cbn [trace global_i schemas instances] in *.
  cbn beta.
  match goal with |- context [bind (try_catch (deploy_zkAssets env txOptions) log_error) _ ?s] =>
    destruct (deploy_zkAssets_guarded env txOptions s)
      as (d4 & insts4 & E4 & Q4 & _ & F4 & S4)
  end.
  erewrite bind_Ret by exact E4. clear E4.
  cbn [trace global_i schemas instances] in *.
  unfold record. cbn [trace global_i schemas instances].
  exists ([ELog (LStr lineBreak); ELog (LStr "deploying AZTEC contracts...")]
          ++ d1 ++ d2 ++ d3 ++ d4), sch, insts4.
  split; [|split].
  - rewrite <- !app_assoc. reflexivity.
  - repeat apply quiet_app; try assumption. solve_quiet.
  - intros c6 c8 H6 H8.
    rewrite F4 in H6 by reflexivity.
    destruct (S2 c6 H6)
      as (a1 & a2 & a3 & a4 & a5 & a6 & c1 & c2 & c3 & c4 & c5 & L2 & -> & ->).
    destruct (S4 Nz2 c8 H8) as (a7 & a8 & ace & erc20 & c7 & L4 & -> & ->).
    destruct L4 as (La7 & La8 & Lace & Lerc).
    cbn [lookup String.eqb Ascii.eqb Bool.eqb] in Lace, Lerc.
    inversion Lace; inversion Lerc; subst ace erc20.
    destruct (S1 a8 La8) as (b1 & b2 & b3 & b4 & b5 & b6 & b7 & -> & ->).
    destruct L2 as (L21 & L22 & L23 & L24 & L25 & L26).
    cbn [lookup String.eqb Ascii.eqb Bool.eqb] in *.
    inversion L21; inversion L22; inversion L23; inversion L24;
      inversion L25; inversion L26; inversion La7; subst.
    exists a1, a2, a3, a4, a5, a6, a7, a8, c1, c2, c3, c4, c5, c7, d3.
    split; [reflexivity|split; [|reflexivity]].
    apply S3; reflexivity.
Qed.

(** ** Every run of [instantiate] *)

(** A run is the guarded part [d], then lines 100-102 ([d5], ending as
    [out5]), then, if those returned, the report of the addresses ([d6]). *)
Lemma instantiate_runs env txOptions st :
  exists d sch insts d5 out5 d6,
    snd (instantiate env txOptions st) =
    {| trace := trace st ++ d ++ d5 ++ d6; global_i := global_i st;
       schemas := sch; instances := insts |}
    /\ quiet d
    /\ config_attempt env txOptions insts d5 out5
    /\ Forall (fun ev => is_log ev = true) d6
    /\ match out5 with
       | Ret _ =>
           (exists e, fst (instantiate env txOptions st) = Throw e)
           \/ (fst (instantiate env txOptions st) = Ret insts
               /\ exists c6 c8,
                    lookup "adjustableFactory" insts = Some c6
                    /\ lookup "zkAsset" insts = Some c8)
       | Throw e => fst (instantiate env txOptions st) = Throw e /\ d6 = []
       | _ => False
       end
    /\ (forall c6 c8,
          lookup "adjustableFactory" insts = Some c6 ->
          lookup "zkAsset" insts = Some c8 ->
          exists a1 a2 a3 a4 a5 a6 a7 a8 c1 c2 c3 c4 c5 c7 d3,
            insts = [("ace", c1); ("joinSplit", c2); ("joinSplitFluid", c3);
                     ("erc20", c4); ("baseFactory", c5);
                     ("adjustableFactory", c6); ("zkAssetMintable", c7);
                     ("zkAsset", c8)]
            /\ registration_attempt c1 c5 c6 txOptions d3
            /\ d = [ELog (LStr lineBreak);
                    ELog (LStr "deploying AZTEC contracts...");
                    EReadContract "ACE.json" (Ok a1);
                    EReadContract "JoinSplit.json" (Ok a2);
                    EReadContract "JoinSplitFluid.json" (Ok a3);
                    EReadContract "ERC20Mintable.json" (Ok a4);
                    EReadContract "FactoryBase201907.json" (Ok a5);
                    EReadContract "FactoryAdjustable201907.json" (Ok a6);
                    EReadContract "ZkAssetMintable.json" (Ok a7);
                    EReadContract "ZkAsset.json" (Ok a8);
                    ENew a1 [ATx txOptions] (Ok c1);
                    ENew a2 [ATx txOptions] (Ok c2);
                    ENew a3 [ATx txOptions] (Ok c3);
                    ENew a4 [ATx txOptions] (Ok c4);
                    ENew a5 [AAddr (address c1); ATx txOptions] (Ok c5);
                    ENew a6 [AAddr (address c1); ATx txOptions] (Ok c6)]
                   ++ d3
                   ++ [ENew a7 [AAddr (address c1); AAddr (address c4);
                                ERC20_SCALING_FACTOR env; ANum 0; AList [];
                                ATx txOptions] (Ok c7);
                       ENew a8 [AAddr (address c1); AAddr (address c4);
                                ANum 1; ATx txOptions] (Ok c8)]).
Proof.
  destruct (instantiate_guarded env txOptions st)
    as (d & sch & insts & E & Q & S).
  rewrite E. clear E.
  set (s4 := {| trace := trace st ++ d; global_i := global_i st;
                schemas := sch; instances := insts |}).
  destruct (configure_engine_runs env txOptions s4) as (d5 & out5 & E5 & C5).
  cbn [instances s4] in C5.
  exists d, sch, insts, d5, out5.
  assert (Hout : (exists e, out5 = Throw e) \/ out5 = Ret tt).
  { unfold config_attempt in C5.
    repeat match goal with
           | H : _ \/ _ |- _ => destruct H
           | H : exists _, _ |- _ => destruct H
           | H : _ /\ _ |- _ => destruct H
           end; subst; eauto. }
  destruct Hout as [[e ->]| ->].
  - assert (Run : (configure_engine env txOptions ;; report_addresses ;;
                   fun s => (Ret (instances s), s)) s4 =
                  (Throw e, emit d5 s4)).
    { unfold bind at 1. now rewrite E5. }
    rewrite Run. clear Run.
    exists []. cbn [fst snd]. unfold emit, s4.
    cbn [trace global_i schemas instances].
    rewrite app_nil_r, <- app_assoc.
    split; [reflexivity|split; [exact Q|split; [exact C5|split; [constructor|]]]].
    split; [split; reflexivity|exact S].
  - destruct (report_addresses_runs (emit d5 s4)) as (d6 & out6 & E6 & L6 & R6).
    exists d6.
    destruct R6 as [[e ->]|[-> (c1 & c2 & c3 & c4 & c5 & c6 & c7 & c8 & R6)]].
    + assert (Run : (configure_engine env txOptions ;; report_addresses ;;
                     fun s => (Ret (instances s), s)) s4 =
                    (Throw e, emit d6 (emit d5 s4))).
      { unfold bind at 1. rewrite E5. unfold bind at 1. now rewrite E6. }
      rewrite Run. clear Run. cbn [fst snd]. unfold emit, s4.
      cbn [trace global_i schemas instances]. rewrite <- !app_assoc.
      split; [reflexivity|split; [exact Q|split; [exact C5|split; [exact L6|]]]].
      split; [|exact S]. left. now exists e.
    + assert (Run : (configure_engine env txOptions ;; report_addresses ;;
                     fun s => (Ret (instances s), s)) s4 =
                    (Ret insts, emit d6 (emit d5 s4))).
      { unfold bind at 1. rewrite E5. unfold bind at 1. now rewrite E6. }
      rewrite Run. clear Run. cbn [fst snd]. unfold emit, s4 in *.
      cbn [trace global_i schemas instances] in *. rewrite <- !app_assoc.
      split; [reflexivity|split; [exact Q|split; [exact C5|split; [exact L6|]]]].
      split; [|exact S]. right. split; [reflexivity|].
      exists c6, c8. tauto.
Qed.

Lemma filter_logs (p : Event -> bool) d :
  (forall m, p (ELog m) = false) ->
  Forall (fun ev => is_log ev = true) d ->
  filter p d = [].
Proof.
  intros Hp. induction 1 as [|ev d Hev _ IH]; [reflexivity|].
  destruct ev; try discriminate Hev. cbn [filter]. now rewrite Hp.
Qed.

Lemma registration_attempt_shape ace bf af txOptions d3 :
  registration_attempt ace bf af txOptions d3 ->
  artifact_reads d3 = [] /\ deployments d3 = []
  /\ Forall (fun ev => is_config_call ev = false) d3.
Proof.
  unfold registration_attempt.
  intros [(r1 & r2 & r3 & ->)|[(e & ->)|[(r1 & e & ->)|(r1 & r2 & e & ->)]]];
    (split; [reflexivity|split; [reflexivity|repeat constructor]]).
Qed.

(** ** Runs of [instantiate] that return the registry *)

Lemma instantiate_success env txOptions st reg st' :
  instantiate env txOptions st = (Ret reg, st') ->
  exists a1 a2 a3 a4 a5 a6 a7 a8 c1 c2 c3 c4 c5 c6 c7 c8 d3 r1 r2 r3 d6,
    reg = [("ace", c1); ("joinSplit", c2); ("joinSplitFluid", c3);
           ("erc20", c4); ("baseFactory", c5); ("adjustableFactory", c6);
           ("zkAssetMintable", c7); ("zkAsset", c8)]
    /\ registration_attempt c1 c5 c6 txOptions d3
    /\ Forall (fun ev => is_log ev = true) d6
    /\ new_events st st' =
       [ELog (LStr lineBreak);
        ELog (LStr "deploying AZTEC contracts...");
        EReadContract "ACE.json" (Ok a1);
        EReadContract "JoinSplit.json" (Ok a2);
        EReadContract "JoinSplitFluid.json" (Ok a3);
        EReadContract "ERC20Mintable.json" (Ok a4);
        EReadContract "FactoryBase201907.json" (Ok a5);
        EReadContract "FactoryAdjustable201907.json" (Ok a6);
        EReadContract "ZkAssetMintable.json" (Ok a7);
        EReadContract "ZkAsset.json" (Ok a8);
        ENew a1 [ATx txOptions] (Ok c1);
        ENew a2 [ATx txOptions] (Ok c2);
        ENew a3 [ATx txOptions] (Ok c3);
        ENew a4 [ATx txOptions] (Ok c4);
        ENew a5 [AAddr (address c1); ATx txOptions] (Ok c5);
        ENew a6 [AAddr (address c1); ATx txOptions] (Ok c6)]
       ++ d3
       ++ [ENew a7 [AAddr (address c1); AAddr (address c4);
                    ERC20_SCALING_FACTOR env; ANum 0; AList [];
                    ATx txOptions] (Ok c7);
           ENew a8 [AAddr (address c1); AAddr (address c4);
                    ANum 1; ATx txOptions] (Ok c8);
           ESend c1 "setCommonReferenceString"
                 [bn128_CRS env; ATx txOptions] (Ok r1);
           ESend c1 "setProof"
                 [JOIN_SPLIT_PROOF env; AAddr (address c2); ATx txOptions]
                 (Ok r2);
           ESend c1 "setProof"
                 [MINT_PROOF env; AAddr (address c3); ATx txOptions]
                 (Ok r3)]
       ++ d6.
Proof.
  intros Hrun.
  destruct (instantiate_runs env txOptions st)
    as (d & sch & insts & d5 & out5 & d6 & Est & Q & C5 & L6 & Hout & S).
  rewrite Hrun in Est, Hout. cbn [fst snd] in Est, Hout.
  destruct out5 as [[]|e| |]; try contradiction;
    [|destruct Hout as [Hout _]; discriminate Hout].
  destruct Hout as [[e He]|[Hreg (c6 & c8 & H6 & H8)]]; [discriminate He|].
  inversion Hreg; subst reg. clear Hreg.
  destruct (S c6 c8 H6 H8)
    as (a1 & a2 & a3 & a4 & a5 & a6 & a7 & a8 & c1 & c2 & c3 & c4 & c5 & c7
        & d3 & -> & R3 & ->).
  unfold config_attempt in C5.
  cbn [lookup String.eqb Ascii.eqb Bool.eqb] in C5.
  repeat match goal with
         | H : _ \/ _ |- _ => destruct H
         | H : exists _, _ |- _ => destruct H
         | H : _ /\ _ |- _ => destruct H
         | H : Some _ = Some ?b |- _ => injection H as H; subst b
         | H : None = Some _ |- _ => discriminate H
         | H : Some _ = None |- _ => discriminate H
         | H : Throw _ = Ret _ |- _ => discriminate H
         | H : Ret _ = Throw _ |- _ => discriminate H
         end; subst.
  exists a1, a2, a3, a4, a5, a6, a7, a8, c1, c2, c3, c4, c5, c6, c7, c8, d3.
  match goal with
  | |- context [ESend _ "setCommonReferenceString" _ (Ok ?r1)
             :: ESend _ "setProof" _ (Ok ?r2)
             :: ESend _ "setProof" _ (Ok ?r3) :: nil] =>
      exists r1, r2, r3, d6
  end.
  split; [reflexivity|split; [exact R3|split; [exact L6|]]].
  apply new_events_app. cbn [trace].
  rewrite <- !app_assoc. reflexivity.
Qed.

(* ================================================================== *)
(** * Deployment: C9, C3, C4 *)

(** Compute a filter over the events of a successful deployment. *)
Ltac filter_deployment R3 L6 :=
  let Hr := fresh in
  let Hd := fresh in
  let Hc := fresh in
  destruct (registration_attempt_shape _ _ _ _ _ R3) as (Hr & Hd & Hc);
  unfold artifact_reads, deployments, registrations in *;
  repeat first
    [ rewrite filter_app
    | rewrite Hr
    | rewrite Hd
    | rewrite (filter_logs _ _ (fun _ => eq_refl) L6)
    | progress cbn [filter app is_read is_deployment is_registration
                    String.eqb Ascii.eqb Bool.eqb] ].

(** C9. When [instantiate] returns, the registry it returns holds exactly
    the eight instances ace, joinSplit, joinSplitFluid, erc20, baseFactory,
    adjustableFactory, zkAssetMintable and zkAsset; all eight artifacts were
    read; the eight deployments happened in that order, so the engine before
    either factory, and both factories were constructed with the engine's
    address. *)
Theorem instantiate_registry_complete (env : Env) (txOptions : TxOptions)
    (st st' : State) (reg : list (string * Instance)) :
  instantiate env txOptions st = (Ret reg, st') ->
  exists ACE JOINSPLIT JOINSPLIT_FLUID ERC20_MINTABLE BASE_FACTORY
         ADJUSTABLE_FACTORY ZKASSET_MINTABLE ZKASSET
         ace joinSplit joinSplitFluid erc20 baseFactory adjustableFactory
         zkAssetMintable zkAsset args7 args8,
    reg = [("ace", ace); ("joinSplit", joinSplit);
           ("joinSplitFluid", joinSplitFluid); ("erc20", erc20);
           ("baseFactory", baseFactory);
           ("adjustableFactory", adjustableFactory);
           ("zkAssetMintable", zkAssetMintable); ("zkAsset", zkAsset)]
    /\ artifact_reads (new_events st st') =
       [EReadContract "ACE.json" (Ok ACE);
        EReadContract "JoinSplit.json" (Ok JOINSPLIT);
        EReadContract "JoinSplitFluid.json" (Ok JOINSPLIT_FLUID);
        EReadContract "ERC20Mintable.json" (Ok ERC20_MINTABLE);
        EReadContract "FactoryBase201907.json" (Ok BASE_FACTORY);
        EReadContract "FactoryAdjustable201907.json" (Ok ADJUSTABLE_FACTORY);
        EReadContract "ZkAssetMintable.json" (Ok ZKASSET_MINTABLE);
        EReadContract "ZkAsset.json" (Ok ZKASSET)]
    /\ deployments (new_events st st') =
       [ENew ACE [ATx txOptions] (Ok ace);
        ENew JOINSPLIT [ATx txOptions] (Ok joinSplit);
        ENew JOINSPLIT_FLUID [ATx txOptions] (Ok joinSplitFluid);
        ENew ERC20_MINTABLE [ATx txOptions] (Ok erc20);
        ENew BASE_FACTORY [AAddr (address ace); ATx txOptions]
             (Ok baseFactory);
        ENew ADJUSTABLE_FACTORY [AAddr (address ace); ATx txOptions]
             (Ok adjustableFactory);
        ENew ZKASSET_MINTABLE args7 (Ok zkAssetMintable);
        ENew ZKASSET args8 (Ok zkAsset)].
Proof.
  intros Hrun.
  destruct (instantiate_success _ _ _ _ _ Hrun)
    as (a1 & a2 & a3 & a4 & a5 & a6 & a7 & a8 & c1 & c2 & c3 & c4 & c5 & c6
        & c7 & c8 & d3 & r1 & r2 & r3 & d6 & -> & R3 & L6 & ->).
  exists a1, a2, a3, a4, a5, a6, a7, a8, c1, c2, c3, c4, c5, c6, c7, c8.
  do 2 eexists. split; [reflexivity|].
  filter_deployment R3 L6. split; reflexivity.
Qed.

Lemma instantiate_registry_complete_witness :
  instantiate cooperative_env sample_txOptions fresh_state =
  (Ret sample_registry, sample_deployment)
  /\
  exists ACE JOINSPLIT JOINSPLIT_FLUID ERC20_MINTABLE BASE_FACTORY
         ADJUSTABLE_FACTORY ZKASSET_MINTABLE ZKASSET
         ace joinSplit joinSplitFluid erc20 baseFactory adjustableFactory
         zkAssetMintable zkAsset args7 args8,
    sample_registry = [("ace", ace); ("joinSplit", joinSplit);
           ("joinSplitFluid", joinSplitFluid); ("erc20", erc20);
           ("baseFactory", baseFactory);
           ("adjustableFactory", adjustableFactory);
           ("zkAssetMintable", zkAssetMintable); ("zkAsset", zkAsset)]
    /\ artifact_reads (new_events fresh_state sample_deployment) =
       [EReadContract "ACE.json" (Ok ACE);
        EReadContract "JoinSplit.json" (Ok JOINSPLIT);
        EReadContract "JoinSplitFluid.json" (Ok JOINSPLIT_FLUID);
        EReadContract "ERC20Mintable.json" (Ok ERC20_MINTABLE);
        EReadContract "FactoryBase201907.json" (Ok BASE_FACTORY);
        EReadContract "FactoryAdjustable201907.json" (Ok ADJUSTABLE_FACTORY);
        EReadContract "ZkAssetMintable.json" (Ok ZKASSET_MINTABLE);
        EReadContract "ZkAsset.json" (Ok ZKASSET)]
    /\ deployments (new_events fresh_state sample_deployment) =
       [ENew ACE [ATx sample_txOptions] (Ok ace);
        ENew JOINSPLIT [ATx sample_txOptions] (Ok joinSplit);
        ENew JOINSPLIT_FLUID [ATx sample_txOptions] (Ok joinSplitFluid);
        ENew ERC20_MINTABLE [ATx sample_txOptions] (Ok erc20);
        ENew BASE_FACTORY [AAddr (address ace); ATx sample_txOptions]
             (Ok baseFactory);
        ENew ADJUSTABLE_FACTORY [AAddr (address ace); ATx sample_txOptions]
             (Ok adjustableFactory);
        ENew ZKASSET_MINTABLE args7 (Ok zkAssetMintable);
        ENew ZKASSET args8 (Ok zkAsset)].
Proof.
  split; [vm_compute; reflexivity|].
  apply (instantiate_registry_complete cooperative_env sample_txOptions
           fresh_state sample_deployment sample_registry).
  vm_compute. reflexivity.
Defined.

(** C3. When [instantiate] returns, the deployments it made end with exactly
    two that are given the engine's address and the token's address: first
    the artifact read from ZkAssetMintable.json, with the ERC20 scaling
    factor constant, the number 0 and the empty list, then the artifact read
    from ZkAsset.json, with scaling factor 1 and no further argument.  The
    deployments before them get at most the engine's address. *)
Theorem instantiate_deploys_two_zkAssets (env : Env) (txOptions : TxOptions)
    (st st' : State) (reg : list (string * Instance)) :
  instantiate env txOptions st = (Ret reg, st') ->
  exists core ZKASSET_MINTABLE ZKASSET ace erc20 zkAssetMintable zkAsset,
    (lookup "ace" reg = Some ace /\ lookup "erc20" reg = Some erc20
     /\ lookup "zkAssetMintable" reg = Some zkAssetMintable
     /\ lookup "zkAsset" reg = Some zkAsset)
    /\ (In (EReadContract "ZkAssetMintable.json" (Ok ZKASSET_MINTABLE))
           (new_events st st')
        /\ In (EReadContract "ZkAsset.json" (Ok ZKASSET))
              (new_events st st'))
    /\ Forall (fun ev => exists schema r,
                  ev = ENew schema [ATx txOptions] r
                  \/ ev = ENew schema [AAddr (address ace); ATx txOptions] r)
              core
    /\ deployments (new_events st st') =
       core
       ++ [ENew ZKASSET_MINTABLE
                [AAddr (address ace); AAddr (address erc20);
                 ERC20_SCALING_FACTOR env; ANum 0; AList []; ATx txOptions]
                (Ok zkAssetMintable);
           ENew ZKASSET
                [AAddr (address ace); AAddr (address erc20); ANum 1;
                 ATx txOptions]
                (Ok zkAsset)].
Proof.
  intros Hrun.
  destruct (instantiate_success _ _ _ _ _ Hrun)
    as (a1 & a2 & a3 & a4 & a5 & a6 & a7 & a8 & c1 & c2 & c3 & c4 & c5 & c6
        & c7 & c8 & d3 & r1 & r2 & r3 & d6 & -> & R3 & L6 & ->).
  exists [ENew a1 [ATx txOptions] (Ok c1); ENew a2 [ATx txOptions] (Ok c2);
          ENew a3 [ATx txOptions] (Ok c3); ENew a4 [ATx txOptions] (Ok c4);
          ENew a5 [AAddr (address c1); ATx txOptions] (Ok c5);
          ENew a6 [AAddr (address c1); ATx txOptions] (Ok c6)].
  exists a7, a8, c1, c4, c7, c8.
  split; [repeat split; reflexivity|].
  split; [split; cbn [app In]; tauto|].
  split.
  - repeat constructor; do 2 eexists; (left; reflexivity) || (right; reflexivity).
  - filter_deployment R3 L6. reflexivity.
Qed.

Lemma instantiate_deploys_two_zkAssets_witness :
  instantiate cooperative_env sample_txOptions fresh_state =
  (Ret sample_registry, sample_deployment)
  /\
  exists core ZKASSET_MINTABLE ZKASSET ace erc20 zkAssetMintable zkAsset,
    (lookup "ace" sample_registry = Some ace /\ lookup "erc20" sample_registry = Some erc20
     /\ lookup "zkAssetMintable" sample_registry = Some zkAssetMintable
     /\ lookup "zkAsset" sample_registry = Some zkAsset)
    /\ (In (EReadContract "ZkAssetMintable.json" (Ok ZKASSET_MINTABLE))
           (new_events fresh_state sample_deployment)
        /\ In (EReadContract "ZkAsset.json" (Ok ZKASSET))
              (new_events fresh_state sample_deployment))
    /\ Forall (fun ev => exists schema r,
                  ev = ENew schema [ATx sample_txOptions] r
                  \/ ev = ENew schema [AAddr (address ace); ATx sample_txOptions] r)
              core
    /\ deployments (new_events fresh_state sample_deployment) =
       core
       ++ [ENew ZKASSET_MINTABLE
                [AAddr (address ace); AAddr (address erc20);
                 ERC20_SCALING_FACTOR cooperative_env; ANum 0; AList []; ATx sample_txOptions]
                (Ok zkAssetMintable);
           ENew ZKASSET
                [AAddr (address ace); AAddr (address erc20); ANum 1;
                 ATx sample_txOptions]
                (Ok zkAsset)].
Proof.
  split; [vm_compute; reflexivity|].
  apply (instantiate_deploys_two_zkAssets cooperative_env sample_txOptions
           fresh_state sample_deployment sample_registry).
  vm_compute. reflexivity.
Defined.

(** C4 (amended). When [instantiate] returns, the [setFactory] calls it made
    are on the engine and are, in this order: key 65536 + 256 + 1 with the
    base factory's address, key 65536 + 256 + 2 and then key 65536 + 256 + 3,
    both with the adjustable factory's address; 65536 + 256 + N is the value
    of 1*256^2 + 1*256^1 + N*256^0.  The calls stop at the first that fails:
    either all three were made and succeeded, or one, two or three were made
    and the last of them failed.  When none failed, exactly the three were
    made. *)
Theorem instantiate_registers_three_factories (env : Env)
    (txOptions : TxOptions) (st st' : State) (reg : list (string * Instance)) :
  instantiate env txOptions st = (Ret reg, st') ->
  exists ace baseFactory adjustableFactory,
    (lookup "ace" reg = Some ace
     /\ lookup "baseFactory" reg = Some baseFactory
     /\ lookup "adjustableFactory" reg = Some adjustableFactory)
    /\ (let call N (factory : Instance) :=
          ESend ace "setFactory"
                [ANum (65536 + 256 + N); AAddr (address factory);
                 ATx txOptions] in
        let made := registrations (new_events st st') in
        ((exists r1 r2 r3,
            made = [call 1 baseFactory (Ok r1);
                    call 2 adjustableFactory (Ok r2);
                    call 3 adjustableFactory (Ok r3)])
         \/ (exists e, made = [call 1 baseFactory (Err e)])
         \/ (exists r1 e,
               made = [call 1 baseFactory (Ok r1);
                       call 2 adjustableFactory (Err e)])
         \/ (exists r1 r2 e,
               made = [call 1 baseFactory (Ok r1);
                       call 2 adjustableFactory (Ok r2);
                       call 3 adjustableFactory (Err e)]))
        /\ ((forall target callArgs e,
               ~ In (ESend target "setFactory" callArgs (Err e))
                    (new_events st st')) ->
            exists r1 r2 r3,
              made = [call 1 baseFactory (Ok r1);
                      call 2 adjustableFactory (Ok r2);
                      call 3 adjustableFactory (Ok r3)]))
    /\ (forall N, 1 * 256 ^ 2 + 1 * 256 ^ 1 + N * 256 ^ 0 = 65536 + 256 + N).
Proof.
  intros Hrun.
  destruct (instantiate_success _ _ _ _ _ Hrun)
    as (a1 & a2 & a3 & a4 & a5 & a6 & a7 & a8 & c1 & c2 & c3 & c4 & c5 & c6
        & c7 & c8 & d3 & r1 & r2 & r3 & d6 & -> & R3 & L6 & E).
  exists c1, c5, c6.
  split; [repeat split; reflexivity|]. split; [|intros N; lia].
  cbv zeta. rewrite E. clear E.
  unfold registrations.
  rewrite !filter_app, (filter_logs _ _ (fun _ => eq_refl) L6).
  unfold registration_attempt in R3.
  destruct R3 as [(q1 & q2 & q3 & ->)|[(e & ->)|[(q1 & e & ->)
                                                |(q1 & q2 & e & ->)]]];
    cbn [filter app is_registration String.eqb Ascii.eqb Bool.eqb].
  - split; [left; do 3 eexists; reflexivity|].
    intros _. do 3 eexists. reflexivity.
  - split; [right; left; eexists; reflexivity|].
    intros Hok. exfalso. eapply Hok. cbn [In].
    repeat first [ left; reflexivity | right ].
  - split; [right; right; left; do 2 eexists; reflexivity|].
    intros Hok. exfalso. eapply Hok. cbn [In].
    repeat first [ left; reflexivity | right ].
  - split; [right; right; right; do 3 eexists; reflexivity|].
    intros Hok. exfalso. eapply Hok. cbn [In].
    repeat first [ left; reflexivity | right ].
Qed.

Lemma instantiate_registers_three_factories_witness :
  instantiate cooperative_env sample_txOptions fresh_state =
  (Ret sample_registry, sample_deployment)
  /\
  exists ace baseFactory adjustableFactory,
    (lookup "ace" sample_registry = Some ace
     /\ lookup "baseFactory" sample_registry = Some baseFactory
     /\ lookup "adjustableFactory" sample_registry = Some adjustableFactory)
    /\ (let call N (factory : Instance) :=
          ESend ace "setFactory"
                [ANum (65536 + 256 + N); AAddr (address factory);
                 ATx sample_txOptions] in
        let made := registrations (new_events fresh_state sample_deployment) in
        ((exists r1 r2 r3,
            made = [call 1 baseFactory (Ok r1);
                    call 2 adjustableFactory (Ok r2);
                    call 3 adjustableFactory (Ok r3)])
         \/ (exists e, made = [call 1 baseFactory (Err e)])
         \/ (exists r1 e,
               made = [call 1 baseFactory (Ok r1);
                       call 2 adjustableFactory (Err e)])
         \/ (exists r1 r2 e,
               made = [call 1 baseFactory (Ok r1);
                       call 2 adjustableFactory (Ok r2);
                       call 3 adjustableFactory (Err e)]))
        /\ ((forall target callArgs e,
               ~ In (ESend target "setFactory" callArgs (Err e))
                    (new_events fresh_state sample_deployment)) ->
            exists r1 r2 r3,
              made = [call 1 baseFactory (Ok r1);
                      call 2 adjustableFactory (Ok r2);
                      call 3 adjustableFactory (Ok r3)]))
    /\ (forall N, 1 * 256 ^ 2 + 1 * 256 ^ 1 + N * 256 ^ 0 = 65536 + 256 + N).
Proof.
  split; [vm_compute; reflexivity|].
  apply (instantiate_registers_three_factories cooperative_env
           sample_txOptions fresh_state sample_deployment sample_registry).
  vm_compute. reflexivity.
Defined.

(** C4 as worded does not hold on every deployment that [instantiate]
    completes: when the first [setFactory] transaction is rejected, the
    error is logged, the two other registrations of the same [try] block are
    not made, and [instantiate] still returns the registry of eight
    instances; one [setFactory] call was made, not three, and no factory is
    registered. *)
Lemma failed_registration_skips_the_others :
  fst sample_failed_registration = Ret sample_registry
  /\ registrations (trace (snd sample_failed_registration)) =
     [ESend {| address := "@ACE.json" |} "setFactory"
            [ANum (65536 + 256 + 1); AAddr "@FactoryBase201907.json";
             ATx sample_txOptions] (Err (Failure "revert"))]
  /\ List.length (registrations (trace (snd sample_failed_registration)))
     <> 3%nat
  /\ In (ELog (LExn (Failure "revert")))
        (trace (snd sample_failed_registration)).
Proof.
  split; [vm_compute; reflexivity|].
  split; [vm_compute; reflexivity|].
  split; [vm_compute; discriminate|].
  vm_compute. tauto.
Qed.

(* ================================================================== *)
(** * Error handling: C8, C7 *)

Lemma logs_failures_logged d :
  Forall (fun ev => is_log ev = true) d -> failures_logged d.
Proof.
  induction 1 as [|ev d Hev _ IH]; [exact I|].
  destruct ev; try discriminate Hev. cbn. auto.
Qed.

Lemma config_attempt_failures_logged env txOptions insts d out :
  config_attempt env txOptions insts d out -> failures_logged d.
Proof.
  unfold config_attempt. intros H.
  repeat match goal with
         | H : _ \/ _ |- _ => destruct H
         | H : exists _, _ |- _ => destruct H
         | H : _ /\ _ |- _ => destruct H
         end; subst;
    cbn [failures_logged guarded_failure String.eqb Ascii.eqb Bool.eqb];
    repeat split.
Qed.

(** Take apart a hypothesis that an event is one of an explicit list. *)
Ltac which_event H :=
  repeat match type of H with
         | In _ (_ :: _) =>
             let H' := fresh in
             destruct H as [H'|H];
             [injection H'; clear H'; intros; subst|]
         | In _ [] => destruct H
         end.

(** C8. The calls of lines 100-102 are made on the engine:
    [setCommonReferenceString] with the CRS, [setProof] with the join-split
    proof id and the address of the joinSplit instance, and [setProof] with
    the mint proof id and the address of the joinSplitFluid instance.  When
    one of them fails, [instantiate] ends by throwing that error, and the
    failed call is the last event of the run: no handler logs it and nothing
    is executed after it. *)
Theorem configuration_failure_propagates (env : Env) (txOptions : TxOptions)
    (st : State) (target : Instance) (method : string) (callArgs : list Arg)
    (r : Result Receipt) :
  In (ESend target method callArgs r)
     (new_events st (snd (instantiate env txOptions st))) ->
  method = "setCommonReferenceString" \/ method = "setProof" ->
  lookup "ace" (instances (snd (instantiate env txOptions st))) = Some target
  /\ ((method = "setCommonReferenceString"
       /\ callArgs = [bn128_CRS env; ATx txOptions])
      \/ (method = "setProof"
          /\ exists joinSplit,
               lookup "joinSplit"
                      (instances (snd (instantiate env txOptions st)))
               = Some joinSplit
               /\ callArgs = [JOIN_SPLIT_PROOF env; AAddr (address joinSplit);
                              ATx txOptions])
      \/ (method = "setProof"
          /\ exists joinSplitFluid,
               lookup "joinSplitFluid"
                      (instances (snd (instantiate env txOptions st)))
               = Some joinSplitFluid
               /\ callArgs = [MINT_PROOF env; AAddr (address joinSplitFluid);
                              ATx txOptions]))
  /\ (forall e, r = Err e ->
      fst (instantiate env txOptions st) = Throw e
      /\ exists before,
           new_events st (snd (instantiate env txOptions st)) =
           before ++ [ESend target method callArgs (Err e)]).
Proof.
  intros Hin Hmethod.
  destruct (instantiate_runs env txOptions st)
    as (d & sch & insts & d5 & out5 & d6 & Est & [_ Q] & C5 & L6 & Hout & _).
  assert (Eevs : new_events st (snd (instantiate env txOptions st)) =
                 d ++ d5 ++ d6).
  { apply new_events_app. now rewrite Est. }
  rewrite Eevs in *. rewrite Est. cbn [instances]. clear Est Eevs.
  apply in_app_or in Hin. destruct Hin as [Hin|Hin].
  { exfalso. rewrite Forall_forall in Q. specialize (Q _ Hin). cbn in Q.
    destruct Hmethod as [-> | ->]; discriminate Q. }
  apply in_app_or in Hin. destruct Hin as [Hin|Hin].
  2:{ exfalso. rewrite Forall_forall in L6. specialize (L6 _ Hin).
      discriminate L6. }
  clear Q L6 Hmethod. unfold config_attempt in C5.
  repeat match goal with
         | H : _ \/ _ |- _ => destruct H
         | H : exists _, _ |- _ => destruct H
         | H : _ /\ _ |- _ => destruct H
         end; subst; which_event Hin.
  all: (split; [assumption|]); split; [solve_cases|].
  all: intros e' He'; try discriminate He'; injection He' as <-.
  all: destruct Hout as [Hout ->]; split; [exact Hout|].
  all: rewrite app_nil_r.
  - exists d. reflexivity.
  - eexists (d ++ [_]). rewrite <- app_assoc. reflexivity.
  - eexists (d ++ [_; _]). rewrite <- app_assoc. reflexivity.
Qed.

Lemma configuration_failure_propagates_witness :
  In (ESend {| address := "@ACE.json" |} "setProof" [AStr "65793"; AAddr "@JoinSplit.json"; ATx sample_txOptions] (@Err Receipt (Failure "revert")))
     (new_events fresh_state (snd (instantiate (env_failing_send "setProof") sample_txOptions fresh_state)))
  /\
  ("setProof" = "setCommonReferenceString" \/ "setProof" = "setProof")
  /\
  lookup "ace" (instances (snd (instantiate (env_failing_send "setProof") sample_txOptions fresh_state))) = Some {| address := "@ACE.json" |}
  /\ (("setProof" = "setCommonReferenceString"
       /\ [AStr "65793"; AAddr "@JoinSplit.json"; ATx sample_txOptions] = [bn128_CRS (env_failing_send "setProof"); ATx sample_txOptions])
      \/ ("setProof" = "setProof"
          /\ exists joinSplit,
               lookup "joinSplit"
                      (instances (snd (instantiate (env_failing_send "setProof") sample_txOptions fresh_state)))
               = Some joinSplit
               /\ [AStr "65793"; AAddr "@JoinSplit.json"; ATx sample_txOptions] = [JOIN_SPLIT_PROOF (env_failing_send "setProof"); AAddr (address joinSplit);
                              ATx sample_txOptions])
      \/ ("setProof" = "setProof"
          /\ exists joinSplitFluid,
               lookup "joinSplitFluid"
                      (instances (snd (instantiate (env_failing_send "setProof") sample_txOptions fresh_state)))
               = Some joinSplitFluid
               /\ [AStr "65793"; AAddr "@JoinSplit.json"; ATx sample_txOptions] = [MINT_PROOF (env_failing_send "setProof"); AAddr (address joinSplitFluid);
                              ATx sample_txOptions]))
  /\ (forall e, (@Err Receipt (Failure "revert")) = Err e ->
      fst (instantiate (env_failing_send "setProof") sample_txOptions fresh_state) = Throw e
      /\ exists before,
           new_events fresh_state (snd (instantiate (env_failing_send "setProof") sample_txOptions fresh_state)) =
           before ++ [ESend {| address := "@ACE.json" |} "setProof" [AStr "65793"; AAddr "@JoinSplit.json"; ATx sample_txOptions] (Err e)]).
Proof.
  assert (Hin :
  In (ESend {| address := "@ACE.json" |} "setProof" [AStr "65793"; AAddr "@JoinSplit.json"; ATx sample_txOptions] (@Err Receipt (Failure "revert")))
     (new_events fresh_state (snd (instantiate (env_failing_send "setProof") sample_txOptions fresh_state)))).
  { vm_compute. tauto. }
  assert (Hmethod :
  ("setProof" = "setCommonReferenceString" \/ "setProof" = "setProof")).
  { right. reflexivity. }
  split; [exact Hin|]. split; [exact Hmethod|].
  exact (configuration_failure_propagates
           (env_failing_send "setProof") sample_txOptions fresh_state
           {| address := "@ACE.json" |} "setProof"
           [AStr "65793"; AAddr "@JoinSplit.json"; ATx sample_txOptions]
           (Err (Failure "revert")) Hin Hmethod).
Defined.

(** The list that precedes the last two elements of an explicit list. *)
Ltac split_last2 :=
  match goal with
  | |- ?L = ?B ++ _ =>
      let n := eval cbn in (List.length L - 2)%nat in
      let b := eval cbn [firstn] in (firstn n L) in
      unify B b; reflexivity
  end.

Ltac filter_calls :=
  unfold calls_of;
  repeat first
    [ rewrite filter_app
    | rewrite filter_log_records by reflexivity
    | progress cbn [filter app String.eqb Ascii.eqb Bool.eqb] ].

(** The list that precedes the last element of an explicit list. *)
Ltac split_last1 :=
  match goal with
  | |- ?L = ?B ++ _ =>
      let n := eval cbn in (List.length L - 1)%nat in
      let b := eval cbn [firstn] in (firstn n L) in
      unify B b; reflexivity
  end.

Ltac solve_stops :=
  split; [reflexivity|];
  known_events; unfold stops_at_first_failure;
  first
    [ left; solve [repeat constructor]
    | right; do 2 eexists; split; cycle 1;
      [ first [ left; eexists; split; cycle 1; [split_last2|reflexivity]
              | right; eexists; split; cycle 1; [split_last1|reflexivity] ]
      | solve [repeat constructor] ] ].

Ltac solve_fatal :=
  unfold fatal_submission; known_events; filter_calls;
  first
    [ left; split; [reflexivity | eexists; reflexivity]
    | right; left; do 2 eexists; split; reflexivity
    | right; right; do 3 eexists;
      split; [reflexivity | split; [split_last2 | split; reflexivity]] ].

(** C7 (amended). In every run of [instantiate], each failed artifact read,
    deployment or factory registration is followed at once by the log of its
    error, and the run goes on to line 100: it calls
    [setCommonReferenceString], or throws the [TypeError] of reading that
    method from a missing engine.  Each of the four [try] blocks returns
    normally from any state, and stops at its first failure: the calls
    before it returned, the error is logged, and the remaining calls of the
    block are not made.  In the three transaction helpers the submission
    either never happens because an earlier call threw, or succeeds and the
    helper returns, or fails, and then the helper logs the error and exits
    the process with code -1 (status 255). *)
Theorem guarded_failures_logged_and_submission_failures_fatal :
  (forall (env : Env) (txOptions : TxOptions) (st : State),
     failures_logged (new_events st (snd (instantiate env txOptions st)))
     /\ ((exists target callArgs r,
            In (ESend target "setCommonReferenceString" callArgs r)
               (new_events st (snd (instantiate env txOptions st))))
         \/ fst (instantiate env txOptions st) =
            Throw (cannot_read "setCommonReferenceString")))
  /\ (forall (env : Env) (txOptions : TxOptions) (st : State),
        (fst (try_catch (read_schemas env) log_error st) = Ret tt
         /\ stops_at_first_failure
              (new_events st (snd (try_catch (read_schemas env) log_error st))))
        /\ (fst (try_catch (deploy_engine env txOptions) log_error st) = Ret tt
            /\ stops_at_first_failure
                 (new_events st (snd (try_catch (deploy_engine env txOptions)
                                                log_error st))))
        /\ (fst (try_catch (set_factories env txOptions) log_error st) = Ret tt
            /\ stops_at_first_failure
                 (new_events st (snd (try_catch (set_factories env txOptions)
                                                log_error st))))
        /\ (fst (try_catch (deploy_zkAssets env txOptions) log_error st) = Ret tt
            /\ stops_at_first_failure
                 (new_events st (snd (try_catch (deploy_zkAssets env txOptions)
                                                log_error st)))))
  /\ (forall (env : Env) (notes : list Note) (zkAssetMintable : Instance)
             (aztecAccount : Account) (txOptions : TxOptions) (st : State),
        fatal_submission zkAssetMintable "confidentialMint"
          "confidentialMint failed: "
          (fst (mintConfidentialAsset env notes zkAssetMintable aztecAccount
                                      txOptions st))
          (new_events st
             (snd (mintConfidentialAsset env notes zkAssetMintable
                                         aztecAccount txOptions st))))
  /\ (forall (env : Env) (inputNotes : list Note)
             (inputNoteOwners : list Account) (outputNotes : list Note)
             (zkAssetMintable : Instance) (publicOwner : Address)
             (txOptions : TxOptions) (display : option bool) (st : State),
        fatal_submission zkAssetMintable "confidentialTransfer"
          "confidentialTransfer failed: "
          (fst (confidentialTransfer env inputNotes inputNoteOwners
                  outputNotes zkAssetMintable publicOwner txOptions display
                  st))
          (new_events st
             (snd (confidentialTransfer env inputNotes inputNoteOwners
                     outputNotes zkAssetMintable publicOwner txOptions
                     display st))))
  /\ (forall (env : Env) (inputNotes : list Note)
             (inputNoteOwners : list Account) (outputNotes : list Note)
             (zkAsset ace : Instance) (publicOwner : Address)
             (txOptions : TxOptions) (st : State),
        fatal_submission zkAsset "confidentialTransfer" "deposit failed: "
          (fst (shieldsERC20toZkAsset env inputNotes inputNoteOwners
                  outputNotes zkAsset ace publicOwner txOptions st))
          (new_events st
             (snd (shieldsERC20toZkAsset env inputNotes inputNoteOwners
                     outputNotes zkAsset ace publicOwner txOptions st)))).
Proof.
  split; [|split; [|split; [|split]]].
  - intros env txOptions st.
    destruct (instantiate_runs env txOptions st)
      as (d & sch & insts & d5 & out5 & d6 & Est & [Q _] & C5 & L6 & Hout & _).
    assert (Eevs : new_events st (snd (instantiate env txOptions st)) =
                   d ++ d5 ++ d6).
    { apply new_events_app. now rewrite Est. }
    rewrite Eevs. clear Est Eevs. split.
    + repeat apply failures_logged_app; try assumption.
      * eapply config_attempt_failures_logged; eassumption.
      * now apply logs_failures_logged.
    + unfold config_attempt in C5.
      destruct C5 as [(_ & -> & ->)|(ace & _ & C5)].
      * right. now destruct Hout.
      * left. exists ace, [bn128_CRS env; ATx txOptions].
        repeat match goal with
               | H : _ \/ _ |- _ => destruct H
               | H : exists _, _ |- _ => destruct H
               | H : _ /\ _ |- _ => destruct H
               end; subst; eexists; apply in_or_app; right; cbn [app In];
          left; reflexivity.
  - intros env txOptions st. destruct st as [tr gi sch insts].
    split; [|split; [|split]].
    + unfold read_schemas. run_block; solve_stops.
    + unfold deploy_engine. run_block; solve_stops.
    + unfold set_factories. run_block; solve_stops.
    + unfold deploy_zkAssets. run_block; solve_stops.
  - intros env notes zkAssetMintable aztecAccount txOptions st.
    unfold mintConfidentialAsset, bind.
    rewrite !compute_totalMintedValue_runs.
    unfold createZeroValueNote, noteCreate, MintProof, encodeABI, send.
    run_helper; solve_fatal.
  - intros env inputNotes inputNoteOwners outputNotes zkAssetMintable
           publicOwner txOptions display st.
    unfold confidentialTransfer, bind. rewrite !compute_kPublic_runs.
    unfold JoinSplitProof, encodeABI, constructSignatures, send.
    destruct display as [[|]|]; run_helper; solve_fatal.
  - intros env inputNotes inputNoteOwners outputNotes zkAsset ace publicOwner
           txOptions st.
    unfold shieldsERC20toZkAsset, bind. rewrite !compute_kPublic_runs.
    unfold JoinSplitProof, encodeABI, constructSignatures, send.
    run_helper; solve_fatal.
Qed.

(** C7 as worded does not hold: when the first artifact cannot be read, the
    failure is caught and logged, but the reads that follow it in the same
    [try] block are not executed, no contract is deployed, and the run ends
    with the [TypeError] of line 100. *)
Lemma read_failure_skips_later_steps :
  In (EReadContract "ACE.json" (Err (Failure "ENOENT")))
     (trace (snd sample_failed_deployment))
  /\ In (ELog (LExn (Failure "ENOENT"))) (trace (snd sample_failed_deployment))
  /\ (forall r, ~ In (EReadContract "JoinSplit.json" r)
                     (trace (snd sample_failed_deployment)))
  /\ deployments (trace (snd sample_failed_deployment)) = []
  /\ fst sample_failed_deployment =
     Throw (cannot_read "setCommonReferenceString").
Proof.
  split; [vm_compute; tauto|].
  split; [vm_compute; tauto|].
  split; [|split; vm_compute; reflexivity].
  intros r H. vm_compute in H. intuition discriminate.
Qed.

(* ================================================================== *)
(** * Sample runs *)

(** A rejected mint transaction: the helper logs and exits with code -1. *)
Example rejected_mint_exits :
  let run := mintConfidentialAsset (env_failing_send "confidentialMint")
               [{| noteHash := "0xn1"; k := 5 |}; {| noteHash := "0xn2"; k := 7 |}]
               {| address := "@ZkAssetMintable.json" |} sample_account
               sample_txOptions fresh_state in
  fst run = Exit (-1)
  /\ creations (trace (snd run)) =
     [ECreateZeroValueNote (Ok {| noteHash := "0xzero"; k := 0 |});
      ENoteCreate "0xpub" 12 (Ok {| noteHash := "note:0xpub"; k := 12 |});
      EMintProof {| noteHash := "0xzero"; k := 0 |}
                 {| noteHash := "note:0xpub"; k := 12 |}
                 [{| noteHash := "0xn1"; k := 5 |};
                  {| noteHash := "0xn2"; k := 7 |}]
                 "0xsender" (Ok {| hash := "0xmint" |})]
  /\ last (trace (snd run)) (ELog (LStr "")) =
     ELog (LStr "confidentialMint failed: revert").
Proof. vm_compute. repeat split. Qed.

(** A transfer of one note of value 10 into notes of value 4 and 6 has
    public value 0, and the records of the receipt's note events are printed
    in order. *)
Example balanced_transfer :
  let run := confidentialTransfer cooperative_env
               [{| noteHash := "0xin"; k := 10 |}] [sample_account]
               [{| noteHash := "0xo1"; k := 4 |}; {| noteHash := "0xo2"; k := 6 |}]
               {| address := "@ZkAsset.json" |} "0xowner" sample_txOptions None
               fresh_state in
  fst run = Ret tt
  /\ proof_constructions (trace (snd run)) =
     [EJoinSplitProof [{| noteHash := "0xin"; k := 10 |}]
        [{| noteHash := "0xo1"; k := 4 |}; {| noteHash := "0xo2"; k := 6 |}]
        "0xsender" 0 "0xowner" (Ok {| hash := "0xjoinsplit" |})]
  /\ filter is_log (trace (snd run)) =
     [ELog (LStr "confidentialTransfer success. events:");
      ELog (LJson [("event", Some "CreateNote"); ("owner", Some "0xa1");
                   ("hash", Some "0xh1")]);
      ELog (LJson [("event", Some "DestroyNote"); ("owner", Some "0xa2");
                   ("hash", Some "0xh2")]);
      ELog (LStr lineBreak)]
  /\ global_i (snd run) = Some 3.
Proof. vm_compute. repeat split. Qed.

(* ================================================================== *)
(** * Further properties of the transaction helpers *)

Lemma filter_log_records_kept (f : LogEntry -> LogMsg) l :
  filter is_log (map (fun e => ELog (f e)) l) = map (fun e => ELog (f e)) l.
Proof.
  induction l as [|e l IH]; [reflexivity|].
  cbn [map filter is_log]. now rewrite IH.
Qed.

(** Compute the calls, the printed lines and the calls of one method among
    the events of a run. *)
Ltac filter_events :=
  unfold external_calls, printed, calls_of, note_records;
  repeat first
    [ rewrite filter_app
    | rewrite filter_log_records_kept
    | rewrite filter_log_records by reflexivity
    | progress cbn [filter app is_log negb String.eqb Ascii.eqb Bool.eqb] ].

(** Find the case of a nested disjunction with local definitions. *)
Ltac solve_shape :=
  first [ reflexivity
        | eassumption
        | progress cbv zeta; solve_shape
        | split; [solve_shape | solve_shape]
        | eexists; solve_shape
        | left; solve_shape
        | right; solve_shape ].

(** X1. [confidentialTransfer] builds the join-split proof with the public
    value its loops computed, encodes it for the asset's address, constructs
    the signatures for the same address and the given owners, and then
    submits [confidentialTransfer] on the asset with the join-split proof
    id, that proof data and those signatures.  It makes no other call, in
    particular no approval, whatever the public value.  When one of the
    three library calls fails, the run ends there by throwing the error of
    that call, and nothing is printed. *)
Theorem confidentialTransfer_protocol (env : Env)
    (inputNotes : list Note) (inputNoteOwners : list Account)
    (outputNotes : list Note) (zkAssetMintable : Instance)
    (publicOwner : Address) (txOptions : TxOptions) (display : option bool)
    (st : State) :
  let run := confidentialTransfer env inputNotes inputNoteOwners outputNotes
               zkAssetMintable publicOwner txOptions display st in
  let evs := new_events st (snd run) in
  exists kPublic,
    fst (compute_kPublic inputNotes outputNotes st) = Ret kPublic /\
    let build := EJoinSplitProof inputNotes outputNotes (from txOptions)
                   kPublic publicOwner in
    (exists e, external_calls evs = [build (Err e)]
               /\ fst run = Throw e /\ printed evs = [])
    \/ exists proof,
         let encode := EEncodeABI proof (Some (address zkAssetMintable)) in
         (exists e, external_calls evs = [build (Ok proof); encode (Err e)]
                    /\ fst run = Throw e /\ printed evs = [])
         \/ exists proofData,
              let sign := EConstructSignatures proof
                            (address zkAssetMintable) inputNoteOwners in
              (exists e,
                 external_calls evs =
                 [build (Ok proof); encode (Ok proofData); sign (Err e)]
                 /\ fst run = Throw e /\ printed evs = [])
              \/ exists signatures r,
                   external_calls evs =
                   [build (Ok proof); encode (Ok proofData);
                    sign (Ok signatures);
                    ESend zkAssetMintable "confidentialTransfer"
                          [JOIN_SPLIT_PROOF env; AStr proofData;
                           AStr signatures; ATx txOptions] r].
Proof.
  cbv zeta. eexists. split; [rewrite compute_kPublic_runs; reflexivity|].
  unfold confidentialTransfer, bind. rewrite !compute_kPublic_runs.
  unfold JoinSplitProof, encodeABI, constructSignatures, send.
  destruct display as [[|]|]; run_helper; known_events; filter_events;
    solve_shape.
Qed.

(** X2. [shieldsERC20toZkAsset] builds the proof with the public value
    [kPublic] its loops computed, encodes it and constructs the signatures
    before it asks the engine to approve [-kPublic] for the hash of the
    proof, and the transfer it submits after the approval carries exactly
    that proof data and those signatures.  A failure of a library call or of
    the approval ends the run by throwing that error: it is not logged and
    the process is not exited. *)
Theorem shieldsERC20toZkAsset_protocol (env : Env)
    (inputNotes : list Note) (inputNoteOwners : list Account)
    (outputNotes : list Note) (zkAsset ace : Instance)
    (publicOwner : Address) (txOptions : TxOptions) (st : State) :
  let run := shieldsERC20toZkAsset env inputNotes inputNoteOwners outputNotes
               zkAsset ace publicOwner txOptions st in
  let evs := new_events st (snd run) in
  exists kPublic,
    fst (compute_kPublic inputNotes outputNotes st) = Ret kPublic /\
    let build := EJoinSplitProof inputNotes outputNotes (from txOptions)
                   kPublic publicOwner in
    (exists e, external_calls evs = [build (Err e)]
               /\ fst run = Throw e /\ printed evs = [])
    \/ exists proof,
         let encode := EEncodeABI proof (Some (address zkAsset)) in
         (exists e, external_calls evs = [build (Ok proof); encode (Err e)]
                    /\ fst run = Throw e /\ printed evs = [])
         \/ exists proofData,
              let sign := EConstructSignatures proof (address zkAsset)
                            inputNoteOwners in
              (exists e,
                 external_calls evs =
                 [build (Ok proof); encode (Ok proofData); sign (Err e)]
                 /\ fst run = Throw e /\ printed evs = [])
              \/ exists signatures,
                   let approve :=
                     ESend ace "publicApprove"
                           [AAddr (address zkAsset); AStr (hash proof);
                            ANum (- kPublic); ATx txOptions] in
                   (exists e,
                      external_calls evs =
                      [build (Ok proof); encode (Ok proofData);
                       sign (Ok signatures); approve (Err e)]
                      /\ fst run = Throw e /\ printed evs = [])
                   \/ exists receipt r,
                        external_calls evs =
                        [build (Ok proof); encode (Ok proofData);
                         sign (Ok signatures); approve (Ok receipt);
                         ESend zkAsset "confidentialTransfer"
                               [JOIN_SPLIT_PROOF env; AStr proofData;
                                AStr signatures; ATx txOptions] r].
Proof.
  cbv zeta. eexists. split; [rewrite compute_kPublic_runs; reflexivity|].
  unfold shieldsERC20toZkAsset, bind. rewrite !compute_kPublic_runs.
  unfold JoinSplitProof, encodeABI, constructSignatures, send.
  run_helper; known_events; filter_events; solve_shape.
Qed.

(** X3. [mintConfidentialAsset] creates the new counter note with the
    total its loop computed, encodes the mint proof it built, with no
    address argument, and submits [confidentialMint] on the asset with the
    mint proof id and that proof data; it makes no other contract call.
    When [encodeABI] or an earlier library call fails, the run ends there by
    throwing the error of that call, and nothing is printed. *)
Theorem mintConfidentialAsset_protocol (env : Env) (notes : list Note)
    (zkAssetMintable : Instance) (aztecAccount : Account)
    (txOptions : TxOptions) (st : State) :
  let run := mintConfidentialAsset env notes zkAssetMintable aztecAccount
                                   txOptions st in
  let evs := new_events st (snd run) in
  exists totalMintedValue,
    fst (compute_totalMintedValue notes st) = Ret totalMintedValue /\
    ((exists e before failed,
        external_calls evs = before ++ [failed]
        /\ method_calls evs = []
        /\ (failed = ECreateZeroValueNote (Err e)
            \/ failed = ENoteCreate (publicKey aztecAccount)
                                    totalMintedValue (Err e)
            \/ (exists o n,
                  failed = EMintProof o n notes (from txOptions) (Err e))
            \/ (exists p, failed = EEncodeABI p None (Err e)))
        /\ fst run = Throw e /\ printed evs = [])
     \/ (exists zeroNote counterNote proof proofData r,
           external_calls evs =
           [ECreateZeroValueNote (Ok zeroNote);
            ENoteCreate (publicKey aztecAccount) totalMintedValue
                        (Ok counterNote);
            EMintProof zeroNote counterNote notes (from txOptions) (Ok proof);
            EEncodeABI proof None (Ok proofData);
            ESend zkAssetMintable "confidentialMint"
                  [MINT_PROOF env; AStr proofData; ATx txOptions] r])).
Proof.
  cbv zeta. eexists.
  split; [rewrite compute_totalMintedValue_runs; reflexivity|].
  unfold mintConfidentialAsset, bind.
  rewrite !compute_totalMintedValue_runs, map_id.
  unfold createZeroValueNote, noteCreate, MintProof, encodeABI, send.
  run_helper; known_events; filter_events;
    unfold method_calls; cbn [filter is_method_call].
  all: first
    [ right; do 5 eexists; reflexivity
    | left; do 3 eexists; split; [split_last1|];
      split; [reflexivity|]; split; [solve_shape|]; split; reflexivity ].
Qed.

(** X4. What the three helpers print.  Nothing when the transaction was
    never submitted.  After a successful transaction: the mint helper prints
    its success line, the note records of the receipt and a line break; the
    transfer helper prints the same under its own success line, and nothing
    at all when [display] is [false]; the shield helper prints the note
    records alone.  After a failed transaction each prints one line, the
    error after its failure text, which for the shield helper is
    [deposit failed: ]. *)
Theorem helpers_print_the_receipt_records (env : Env)
    (notes inputNotes outputNotes : list Note) (aztecAccount : Account)
    (inputNoteOwners : list Account) (zkAsset ace : Instance)
    (publicOwner : Address) (txOptions : TxOptions) (display : option bool)
    (st : State) :
  helper_output zkAsset "confidentialMint"
    (fun receipt =>
       [ELog (LStr "confidentialMint success. events:")]
       ++ note_records receipt ++ [ELog (LStr lineBreak)])
    "confidentialMint failed: "
    (new_events st
       (snd (mintConfidentialAsset env notes zkAsset aztecAccount txOptions
                                   st)))
  /\ helper_output zkAsset "confidentialTransfer"
       (fun receipt =>
          match display with
          | Some false => []
          | _ => [ELog (LStr "confidentialTransfer success. events:")]
                 ++ note_records receipt ++ [ELog (LStr lineBreak)]
          end)
       "confidentialTransfer failed: "
       (new_events st
          (snd (confidentialTransfer env inputNotes inputNoteOwners
                  outputNotes zkAsset publicOwner txOptions display st)))
  /\ helper_output zkAsset "confidentialTransfer" note_records
       "deposit failed: "
       (new_events st
          (snd (shieldsERC20toZkAsset env inputNotes inputNoteOwners
                  outputNotes zkAsset ace publicOwner txOptions st))).
Proof.
  unfold helper_output. split; [|split].
  - unfold mintConfidentialAsset, bind.
    rewrite !compute_totalMintedValue_runs, map_id.
    unfold createZeroValueNote, noteCreate, MintProof, encodeABI, send.
    run_helper; known_events; filter_events; solve_shape.
  - unfold confidentialTransfer, bind. rewrite !compute_kPublic_runs.
    unfold JoinSplitProof, encodeABI, constructSignatures, send.
    destruct display as [[|]|]; run_helper; known_events; filter_events;
      solve_shape.
  - unfold shieldsERC20toZkAsset, bind. rewrite !compute_kPublic_runs.
    unfold JoinSplitProof, encodeABI, constructSignatures, send.
    run_helper; known_events; filter_events; solve_shape.
Qed.

(** X5. The [display] argument of [confidentialTransfer] changes only what
    is printed: for any two values of it the helper ends the same way and
    makes the same calls, with the same arguments and results; and leaving
    it out is the same as passing [true]. *)
Theorem display_changes_only_the_output (env : Env)
    (inputNotes : list Note) (inputNoteOwners : list Account)
    (outputNotes : list Note) (zkAssetMintable : Instance)
    (publicOwner : Address) (txOptions : TxOptions)
    (display1 display2 : option bool) (st : State) :
  let run display := confidentialTransfer env inputNotes inputNoteOwners
                       outputNotes zkAssetMintable publicOwner txOptions
                       display st in
  fst (run display1) = fst (run display2)
  /\ external_calls (new_events st (snd (run display1)))
     = external_calls (new_events st (snd (run display2)))
  /\ run None = run (Some true).
Proof.
  cbv zeta. unfold confidentialTransfer, bind. rewrite !compute_kPublic_runs.
  unfold JoinSplitProof, encodeABI, constructSignatures, send.
  destruct display1 as [[|]|], display2 as [[|]|]; run_helper;
    repeat known_events; filter_events; solve_shape.
Qed.

(** X6. From the same state and with the same notes, owners, asset, public
    owner and options, the shield helper obtains the same proof, the same
    proof data and the same signatures as the transfer helper: the two runs
    agree on their first three calls, whatever [display] is. *)
Theorem shield_and_transfer_build_the_same_proof (env : Env)
    (inputNotes : list Note) (inputNoteOwners : list Account)
    (outputNotes : list Note) (zkAsset ace : Instance)
    (publicOwner : Address) (txOptions : TxOptions) (display : option bool)
    (st : State) :
  firstn 3
    (external_calls
       (new_events st
          (snd (shieldsERC20toZkAsset env inputNotes inputNoteOwners
                  outputNotes zkAsset ace publicOwner txOptions st))))
  = firstn 3
      (external_calls
         (new_events st
            (snd (confidentialTransfer env inputNotes inputNoteOwners
                    outputNotes zkAsset publicOwner txOptions display st)))).
Proof.
  unfold shieldsERC20toZkAsset, confidentialTransfer, bind.
  rewrite !compute_kPublic_runs.
  unfold JoinSplitProof, encodeABI, constructSignatures, send.
  destruct display as [[|]|]; run_helper; repeat known_events;
    filter_events; reflexivity.
Qed.

(* ================================================================== *)
(** * Further properties of the loops *)

Lemma sum_values_perm (l l' : list Note) :
  Permutation l l' -> sum_values l = sum_values l'.
Proof.
  induction 1 as [|x l l' _ IH|x y l|l l' l'' _ IH1 _ IH2];
    rewrite ?sum_values_cons; lia.
Qed.

Lemma safe_values_app a b :
  safe_values (a ++ b) -> safe_values a /\ safe_values b.
Proof.
  intros [Hpos Hsum]. apply Forall_app in Hpos. destruct Hpos as [Ha Hb].
  rewrite sum_values_app in Hsum.
  pose proof (sum_values_nonneg _ Ha). pose proof (sum_values_nonneg _ Hb).
  split; (split; [assumption|lia]).
Qed.

Lemma safe_values_perm l l' :
  Permutation l l' -> safe_values l -> safe_values l'.
Proof.
  intros P [Hpos Hsum]. split.
  - exact (Permutation_Forall P Hpos).
  - now rewrite <- (sum_values_perm _ _ P).
Qed.

(** X7. Within the safe range (values not negative, totals at most [2^53])
    the public value computed by the loops of the transfer and shield
    helpers is antisymmetric and additive: exchanging the input and the
    output notes gives the opposite value, a transfer of two batches of
    notes together has the sum of the public values of the batches, and the
    value is zero exactly when inputs and outputs have the same total. *)
Theorem kPublic_of_swapped_and_joined_notes
    (inputNotes outputNotes inputNotes' outputNotes' : list Note)
    (st : State) :
  safe_values (inputNotes ++ inputNotes') ->
  safe_values (outputNotes ++ outputNotes') ->
  exists kPublic kPublic',
    fst (compute_kPublic inputNotes outputNotes st) = Ret kPublic
    /\ fst (compute_kPublic inputNotes' outputNotes' st) = Ret kPublic'
    /\ fst (compute_kPublic outputNotes inputNotes st) = Ret (- kPublic)
    /\ fst (compute_kPublic (inputNotes ++ inputNotes')
                            (outputNotes ++ outputNotes') st)
       = Ret (kPublic + kPublic')
    /\ (kPublic = 0 <-> sum_values inputNotes = sum_values outputNotes).
Proof.
  intros Hin Hout.
  destruct (safe_values_app _ _ Hin) as [Hi Hi'].
  destruct (safe_values_app _ _ Hout) as [Ho Ho'].
  exists (sum_values inputNotes - sum_values outputNotes),
         (sum_values inputNotes' - sum_values outputNotes').
  rewrite !kPublic_exact by assumption. rewrite !sum_values_app.
  repeat split; try (f_equal; lia); lia.
Qed.

Lemma kPublic_of_swapped_and_joined_notes_witness :
  let n1 := {| noteHash := "0xa"; k := 5 |} in
  let n2 := {| noteHash := "0xb"; k := 7 |} in
  let n3 := {| noteHash := "0xc"; k := 2 |} in
  let n4 := {| noteHash := "0xd"; k := 4 |} in
  safe_values ([n1] ++ [n2]) /\ safe_values ([n3] ++ [n4])
  /\ exists kPublic kPublic',
       fst (compute_kPublic [n1] [n3] fresh_state) = Ret kPublic
       /\ fst (compute_kPublic [n2] [n4] fresh_state) = Ret kPublic'
       /\ fst (compute_kPublic [n3] [n1] fresh_state) = Ret (- kPublic)
       /\ fst (compute_kPublic ([n1] ++ [n2]) ([n3] ++ [n4]) fresh_state)
          = Ret (kPublic + kPublic')
       /\ (kPublic = 0 <-> sum_values [n1] = sum_values [n3]).
Proof.
  cbv zeta.
  assert (Hin : safe_values ([{| noteHash := "0xa"; k := 5 |}]
                             ++ [{| noteHash := "0xb"; k := 7 |}])).
  { split; [repeat constructor; cbn; lia|cbn; lia]. }
  assert (Hout : safe_values ([{| noteHash := "0xc"; k := 2 |}]
                              ++ [{| noteHash := "0xd"; k := 4 |}])).
  { split; [repeat constructor; cbn; lia|cbn; lia]. }
  split; [exact Hin|]. split; [exact Hout|].
  exact (kPublic_of_swapped_and_joined_notes _ _ _ _ fresh_state Hin Hout).
Defined.

(** X8. Within the safe range the order of the notes does not matter to the
    loops: on rearranged lists of input and output notes the transfer and
    shield helpers compute the same public value, and on a rearranged list
    of notes the mint helper computes the same total. *)
Theorem sums_do_not_depend_on_note_order
    (inputNotes inputNotes' outputNotes outputNotes' : list Note)
    (st st' : State) :
  safe_values inputNotes -> safe_values outputNotes ->
  Permutation inputNotes inputNotes' ->
  Permutation outputNotes outputNotes' ->
  fst (compute_kPublic inputNotes outputNotes st)
  = fst (compute_kPublic inputNotes' outputNotes' st')
  /\ fst (compute_totalMintedValue inputNotes st)
     = fst (compute_totalMintedValue inputNotes' st').
Proof.
  intros Sin Sout Hin Hout.
  pose proof (safe_values_perm _ _ Hin Sin) as Sin'.
  pose proof (safe_values_perm _ _ Hout Sout) as Sout'.
  rewrite !kPublic_exact, !totalMintedValue_exact by assumption.
  now rewrite (sum_values_perm _ _ Hin), (sum_values_perm _ _ Hout).
Qed.

Lemma sums_do_not_depend_on_note_order_witness :
  let n1 := {| noteHash := "0xa"; k := 5 |} in
  let n2 := {| noteHash := "0xb"; k := 7 |} in
  let n3 := {| noteHash := "0xc"; k := 2 |} in
  safe_values [n1; n2] /\ safe_values [n3]
  /\ fst (compute_kPublic [n1; n2] [n3] fresh_state)
     = fst (compute_kPublic [n2; n1] [n3] fresh_state)
  /\ fst (compute_totalMintedValue [n1; n2] fresh_state)
     = fst (compute_totalMintedValue [n2; n1] fresh_state).
Proof.
  cbv zeta.
  assert (Sin : safe_values [{| noteHash := "0xa"; k := 5 |};
                             {| noteHash := "0xb"; k := 7 |}]).
  { split; [repeat constructor; cbn; lia|cbn; lia]. }
  assert (Sout : safe_values [{| noteHash := "0xc"; k := 2 |}]).
  { split; [repeat constructor; cbn; lia|cbn; lia]. }
  split; [exact Sin|]. split; [exact Sout|].
  apply sums_do_not_depend_on_note_order.
  - exact Sin.
  - exact Sout.
  - apply perm_swap.
  - apply Permutation_refl.
Defined.

(** Beyond the safe range the order does matter: the values [2^53 - 1], 1,
    1, 1 total [2^53] in this order (each addition of 1 to [2^53] rounds
    back), and [2^53 + 2] when the large value comes last. *)
Example note_order_matters_beyond_the_safe_range :
  let large := {| noteHash := "0xl"; k := 2 ^ 53 - 1 |} in
  let one := {| noteHash := "0x1"; k := 1 |} in
  fst (compute_totalMintedValue [large; one; one; one] fresh_state)
  = Ret (2 ^ 53)
  /\ fst (compute_totalMintedValue [one; one; one; large] fresh_state)
     = Ret (2 ^ 53 + 2).
Proof. split; vm_compute; reflexivity. Qed.

(** X9. [logNoteEvents] works entry by entry: on the concatenation of two
    lists of log entries it prints what it prints on the first followed by
    what it prints on the second, so that the trace is the one of two
    successive calls; it never prints more lines than there are entries, and
    it leaves the global [i] at the length of the list. *)
Theorem logNoteEvents_of_concatenated_logs (logs1 logs2 : list LogEntry)
    (st : State) :
  let st1 := snd (logNoteEvents logs1 st) in
  let st2 := snd (logNoteEvents logs2 st1) in
  let st12 := snd (logNoteEvents (logs1 ++ logs2) st) in
  new_events st st12 = new_events st st1 ++ new_events st1 st2
  /\ trace st12 = trace st2
  /\ (List.length (new_events st st12) <= List.length (logs1 ++ logs2))%nat
  /\ global_i st12 = Some (Z.of_nat (List.length (logs1 ++ logs2))).
Proof.
  cbv zeta. rewrite !logNoteEvents_runs. cbn [snd].
  rewrite filter_app, map_app.
  split; [|split; [|split]].
  - repeat known_events. reflexivity.
  - normalize_trace. reflexivity.
  - known_events. rewrite <- map_app, <- filter_app, length_map.
    apply filter_length_le.
  - reflexivity.
Qed.

(** A call and the final [i] it explains, among the events of a run. *)
Ltac found_call :=
  split;
  [ cbn [In]; repeat first [ left; reflexivity | right ] | reflexivity ].

(** X10. Every helper overwrites the global [i]: after a run of the mint
    helper it holds the number of minted notes, after a run of the transfer
    or shield helper the number of input notes, unless the transaction
    succeeded and its note events were printed, when it holds the number of
    log entries of the receipt.  [instantiate] has no loop: it leaves [i] as
    it was, and it ends by returning or by throwing, never by exiting the
    process. *)
Theorem helpers_overwrite_the_global_i (env : Env)
    (notes inputNotes outputNotes : list Note) (aztecAccount : Account)
    (inputNoteOwners : list Account) (zkAsset ace : Instance)
    (publicOwner : Address) (txOptions : TxOptions) (display : option bool)
    (st : State) :
  let after (A : Type) (run : Outcome A * State) (method : string)
            (looped : list Note) :=
    global_i (snd run) = Some (Z.of_nat (List.length looped))
    \/ exists callArgs receipt,
         In (ESend zkAsset method callArgs (Ok receipt))
            (new_events st (snd run))
         /\ global_i (snd run) = Some (Z.of_nat (List.length (logs receipt)))
  in
  after unit
    (mintConfidentialAsset env notes zkAsset aztecAccount txOptions st)
    "confidentialMint" notes
  /\ after unit
       (confidentialTransfer env inputNotes inputNoteOwners outputNotes
          zkAsset publicOwner txOptions display st)
       "confidentialTransfer" inputNotes
  /\ after unit
       (shieldsERC20toZkAsset env inputNotes inputNoteOwners outputNotes
          zkAsset ace publicOwner txOptions st)
       "confidentialTransfer" inputNotes
  /\ global_i (snd (instantiate env txOptions st)) = global_i st
  /\ ((exists registry, fst (instantiate env txOptions st) = Ret registry)
      \/ (exists e, fst (instantiate env txOptions st) = Throw e)).
Proof.
  cbv zeta. split; [|split; [|split; [|split]]].
  - unfold mintConfidentialAsset, bind.
    rewrite !compute_totalMintedValue_runs, map_id.
    unfold createZeroValueNote, noteCreate, MintProof, encodeABI, send.
    run_helper; known_events;
      solve [ left; reflexivity | right; do 2 eexists; found_call ].
  - unfold confidentialTransfer, bind. rewrite !compute_kPublic_runs.
    unfold JoinSplitProof, encodeABI, constructSignatures, send.
    destruct display as [[|]|]; run_helper; known_events;
      solve [ left; reflexivity | right; do 2 eexists; found_call ].
  - unfold shieldsERC20toZkAsset, bind. rewrite !compute_kPublic_runs.
    unfold JoinSplitProof, encodeABI, constructSignatures, send.
    run_helper; known_events;
      solve [ left; reflexivity | right; do 2 eexists; found_call ].
  - destruct (instantiate_runs env txOptions st)
      as (d & sch & insts & d5 & out5 & d6 & Est & _).
    now rewrite Est.
  - destruct (instantiate_runs env txOptions st)
      as (d & sch & insts & d5 & out5 & d6 & _ & _ & _ & _ & Hout & _).
    destruct out5 as [r|e|c|]; try contradiction.
    + destruct Hout as [[e He]|[Hr _]]; [right|left]; eauto.
    + destruct Hout as [He _]. right; eauto.
Qed.

(* ================================================================== *)
(** * Further properties of [instantiate] *)

(** ** The report of the addresses *)

Lemma report_addresses_full st :
  exists d out,
    report_addresses st = (out, emit d st)
    /\ Forall (fun ev => is_log ev = true) d
    /\ ((out = Throw (cannot_read "address")
         /\ exists name, In name instance_names
                         /\ lookup name (instances st) = None)
        \/ (out = Ret tt /\
            exists c1 c2 c3 c4 c5 c6 c7 c8,
              (lookup "ace" (instances st) = Some c1
               /\ lookup "joinSplit" (instances st) = Some c2
               /\ lookup "joinSplitFluid" (instances st) = Some c3
               /\ lookup "erc20" (instances st) = Some c4
               /\ lookup "baseFactory" (instances st) = Some c5
               /\ lookup "adjustableFactory" (instances st) = Some c6
               /\ lookup "zkAssetMintable" (instances st) = Some c7
               /\ lookup "zkAsset" (instances st) = Some c8)
              /\ d = address_report c1 c2 c3 c4 c5 c6 c7 c8)).
Proof.
  destruct st as [tr gi sch insts]. unfold report_addresses, emit.
  cbn [trace global_i schemas instances]. run_block.
  all: eexists; eexists; split; [final_state|split; [repeat constructor|]].
  all: first
    [ right; split; [reflexivity|]; do 8 eexists;
      split; [repeat split; eassumption|reflexivity]
    | left; split; [reflexivity|]; eexists; split; [|eassumption];
      unfold instance_names; cbn [In]; tauto ].
Qed.

(** ** What stands in the way of a complete registry *)

Lemma blocked_app_l d1 d2 : blocked d1 -> blocked (d1 ++ d2).
Proof.
  intros (ev & Hin & H). exists ev. split; [|exact H].
  apply in_or_app. now left.
Qed.

Lemma blocked_app_r d1 d2 : blocked d2 -> blocked (d1 ++ d2).
Proof.
  intros (ev & Hin & H). exists ev. split; [|exact H].
  apply in_or_app. now right.
Qed.

Lemma blocked_here ev d :
  failed ev = true -> is_registration ev = false -> blocked (ev :: d).
Proof. intros F R. exists ev. split; [now left|now split]. Qed.

Lemma blocked_later ev d : blocked d -> blocked (ev :: d).
Proof. apply (blocked_app_r [ev]). Qed.

(** The failed call of a block, among its events. *)
Ltac solve_blocked :=
  first [ apply blocked_here; reflexivity
        | apply blocked_later; solve_blocked ].

(** Replace the lookups of a block by their results in a known object. *)
Ltac known_lookups :=
  cbn [lookup String.eqb Ascii.eqb Bool.eqb] in *;
  repeat match goal with
         | H : Some _ = Some _ |- _ => injection H as H; subst
         | H : Some _ = None |- _ => discriminate H
         | H : None = Some _ |- _ => discriminate H
         end.

Lemma read_schemas_progress env st :
  schemas st = [] ->
  exists d sch,
    try_catch (read_schemas env) log_error st =
    (Ret tt, {| trace := trace st ++ d; global_i := global_i st;
                schemas := sch; instances := instances st |})
    /\ (blocked d
        \/ exists a1 a2 a3 a4 a5 a6 a7 a8,
             sch = [("ACE", a1); ("JOINSPLIT", a2); ("JOINSPLIT_FLUID", a3);
                    ("ERC20_MINTABLE", a4); ("BASE_FACTORY", a5);
                    ("ADJUSTABLE_FACTORY", a6); ("ZKASSET_MINTABLE", a7);
                    ("ZKASSET", a8)]).
Proof.
  destruct st as [tr gi sch0 insts]. cbn [schemas]. intros ->.
  unfold read_schemas. run_block.
  all: eexists; eexists; split; [final_state|].
  all: first [ right; do 8 eexists; reflexivity | left; solve_blocked ].
Qed.

Lemma deploy_engine_progress env txOptions st :
  instances st = [] ->
  exists d insts,
    try_catch (deploy_engine env txOptions) log_error st =
    (Ret tt, {| trace := trace st ++ d; global_i := global_i st;
                schemas := schemas st; instances := insts |})
    /\ ((exists a1 a2 a3 a4 a5 a6 a7 a8,
           schemas st =
           [("ACE", a1); ("JOINSPLIT", a2); ("JOINSPLIT_FLUID", a3);
            ("ERC20_MINTABLE", a4); ("BASE_FACTORY", a5);
            ("ADJUSTABLE_FACTORY", a6); ("ZKASSET_MINTABLE", a7);
            ("ZKASSET", a8)]) ->
        blocked d
        \/ exists c1 c2 c3 c4 c5 c6,
             insts = [("ace", c1); ("joinSplit", c2); ("joinSplitFluid", c3);
                      ("erc20", c4); ("baseFactory", c5);
                      ("adjustableFactory", c6)]).
Proof.
  destruct st as [tr gi sch insts0]. cbn [instances schemas]. intros ->.
  unfold deploy_engine. run_block.
  all: eexists; eexists; split; [final_state|].
  all: intros (? & ? & ? & ? & ? & ? & ? & ? & ->); known_lookups.
  all: first [ right; do 6 eexists; reflexivity | left; solve_blocked ].
Qed.

Lemma deploy_zkAssets_progress env txOptions st :
  exists d insts,
    try_catch (deploy_zkAssets env txOptions) log_error st =
    (Ret tt, {| trace := trace st ++ d; global_i := global_i st;
                schemas := schemas st; instances := insts |})
    /\ (forall a1 a2 a3 a4 a5 a6 a7 a8 c1 c2 c3 c4 c5 c6,
          schemas st =
          [("ACE", a1); ("JOINSPLIT", a2); ("JOINSPLIT_FLUID", a3);
           ("ERC20_MINTABLE", a4); ("BASE_FACTORY", a5);
           ("ADJUSTABLE_FACTORY", a6); ("ZKASSET_MINTABLE", a7);
           ("ZKASSET", a8)] ->
          instances st =
          [("ace", c1); ("joinSplit", c2); ("joinSplitFluid", c3);
           ("erc20", c4); ("baseFactory", c5); ("adjustableFactory", c6)] ->
          blocked d
          \/ exists c7 c8,
               insts = [("ace", c1); ("joinSplit", c2);
                        ("joinSplitFluid", c3); ("erc20", c4);
                        ("baseFactory", c5); ("adjustableFactory", c6);
                        ("zkAssetMintable", c7); ("zkAsset", c8)]).
Proof.
  destruct st as [tr gi sch insts0]. unfold deploy_zkAssets.
  cbn [trace global_i schemas instances]. run_block.
  all: eexists; eexists; split; [final_state|].
  all: intros ? ? ? ? ? ? ? ? ? ? ? ? ? ? -> ->; known_lookups.
  all: first [ right; do 2 eexists; reflexivity | left; solve_blocked ].
Qed.

(** The guarded part of [instantiate] leaves a complete registry unless a
    read or a deployment failed. *)
Lemma instantiate_guarded_progress env txOptions st :
  exists d sch insts,
    instantiate env txOptions st =
    (configure_engine env txOptions ;; report_addresses ;;
     fun s => (Ret (instances s), s))
      {| trace := trace st ++ d; global_i := global_i st;
         schemas := sch; instances := insts |}
    /\ (blocked d
        \/ exists c1 c2 c3 c4 c5 c6 c7 c8,
             insts = [("ace", c1); ("joinSplit", c2); ("joinSplitFluid", c3);
                      ("erc20", c4); ("baseFactory", c5);
                      ("adjustableFactory", c6); ("zkAssetMintable", c7);
                      ("zkAsset", c8)]).
Proof.
  unfold instantiate.
  erewrite bind_Ret by reflexivity.
  erewrite bind_Ret by reflexivity.
  erewrite bind_Ret by reflexivity.
  cbn [trace global_i schemas instances record].
  cbn beta.
  match goal with |- context [bind (try_catch (read_schemas env) log_error) _ ?s] =>
    destruct (read_schemas_progress env s eq_refl) as (d1 & sch & E1 & P1)
  end.
  erewrite bind_Ret by exact E1. clear E1.
  cbn [trace global_i schemas instances] in *.
  cbn beta.
  match goal with |- context [bind (try_catch (deploy_engine env txOptions) log_error) _ ?s] =>
    destruct (deploy_engine_progress env txOptions s eq_refl)
      as (d2 & insts2 & E2 & P2)
  end.
  erewrite bind_Ret by exact E2. clear E2.
  cbn [trace global_i schemas instances] in *.
  cbn beta.
  match goal with |- context [bind (try_catch (set_factories env txOptions) log_error) _ ?s] =>
    destruct (set_factories_guarded env txOptions s) as (d3 & E3 & _)
  end.
  erewrite bind_Ret by exact E3. clear E3.
  unfold emit in *. cbn [trace global_i schemas instances] in *.
  cbn beta.
  match goal with |- context [bind (try_catch (deploy_zkAssets env txOptions) log_error) _ ?s] =>
    destruct (deploy_zkAssets_progress env txOptions s)
      as (d4 & insts4 & E4 & P4)
  end.
  erewrite bind_Ret by exact E4. clear E4.
  cbn [trace global_i schemas instances] in *.
  unfold record. cbn [trace global_i schemas instances].
  exists ([ELog (LStr lineBreak); ELog (LStr "deploying AZTEC contracts...")]
          ++ d1 ++ d2 ++ d3 ++ d4), sch, insts4.
  split; [rewrite <- !app_assoc; reflexivity|].
  destruct P1 as [B|(a1 & a2 & a3 & a4 & a5 & a6 & a7 & a8 & ->)].
  { left. apply blocked_app_r, blocked_app_l, B. }
  destruct P2 as [B|(c1 & c2 & c3 & c4 & c5 & c6 & ->)].
  { do 8 eexists. reflexivity. }
  { left. apply blocked_app_r, blocked_app_r, blocked_app_l, B. }
  destruct (P4 _ _ _ _ _ _ _ _ _ _ _ _ _ _ eq_refl eq_refl)
    as [B|(c7 & c8 & ->)].
  { left. do 4 apply blocked_app_r. exact B. }
  right. do 8 eexists. reflexivity.
Qed.

(** Lines 100-114 from any registry: the configuration calls, then the
    report and the return. *)
Lemma instantiate_tail env txOptions s4 :
  let run := (configure_engine env txOptions ;; report_addresses ;;
              fun s => (Ret (instances s), s)) s4 in
  exists d5 d6,
    snd run = emit d6 (emit d5 s4)
    /\ Forall (fun ev => is_log ev = true) d6
    /\ ((exists e,
           fst run = Throw e
           /\ config_attempt env txOptions (instances s4) d5 (Throw e)
           /\ d6 = [])
        \/ (config_attempt env txOptions (instances s4) d5 (Ret tt)
            /\ fst run = Throw (cannot_read "address")
            /\ exists name, In name instance_names
                            /\ lookup name (instances s4) = None)
        \/ (config_attempt env txOptions (instances s4) d5 (Ret tt)
            /\ fst run = Ret (instances s4)
            /\ exists c1 c2 c3 c4 c5 c6 c7 c8,
                 (lookup "ace" (instances s4) = Some c1
                  /\ lookup "joinSplit" (instances s4) = Some c2
                  /\ lookup "joinSplitFluid" (instances s4) = Some c3
                  /\ lookup "erc20" (instances s4) = Some c4
                  /\ lookup "baseFactory" (instances s4) = Some c5
                  /\ lookup "adjustableFactory" (instances s4) = Some c6
                  /\ lookup "zkAssetMintable" (instances s4) = Some c7
                  /\ lookup "zkAsset" (instances s4) = Some c8)
                 /\ d6 = address_report c1 c2 c3 c4 c5 c6 c7 c8)).
Proof.
  cbv zeta.
  destruct (configure_engine_runs env txOptions s4) as (d5 & out5 & E5 & C5).
  assert (Hout : (exists e, out5 = Throw e) \/ out5 = Ret tt).
  { unfold config_attempt in C5.
    repeat match goal with
           | H : _ \/ _ |- _ => destruct H
           | H : exists _, _ |- _ => destruct H
           | H : _ /\ _ |- _ => destruct H
           end; subst; eauto. }
  exists d5.
  destruct Hout as [[e ->]| ->].
  - assert (Run : (configure_engine env txOptions ;; report_addresses ;;
                   fun s => (Ret (instances s), s)) s4 =
                  (Throw e, emit d5 s4)).
    { unfold bind at 1. now rewrite E5. }
    rewrite Run. clear Run. exists []. cbn [fst snd].
    split; [|split; [constructor|]].
    + unfold emit. cbn [trace global_i schemas instances].
      now rewrite app_nil_r.
    + left. exists e. split; [reflexivity|split; [exact C5|reflexivity]].
  - destruct (report_addresses_full (emit d5 s4))
      as (d6 & out6 & E6 & L6 & R6).
    exists d6. cbn [instances emit] in R6.
    destruct R6 as [[-> N]|[-> F]].
    + assert (Run : (configure_engine env txOptions ;; report_addresses ;;
                     fun s => (Ret (instances s), s)) s4 =
                    (Throw (cannot_read "address"), emit d6 (emit d5 s4))).
      { unfold bind at 1. rewrite E5. unfold bind at 1. now rewrite E6. }
      rewrite Run. clear Run. cbn [fst snd].
      split; [reflexivity|split; [exact L6|]].
      right; left. split; [exact C5|split; [reflexivity|exact N]].
    + assert (Run : (configure_engine env txOptions ;; report_addresses ;;
                     fun s => (Ret (instances s), s)) s4 =
                    (Ret (instances s4), emit d6 (emit d5 s4))).
      { unfold bind at 1. rewrite E5. unfold bind at 1. now rewrite E6. }
      rewrite Run. clear Run. cbn [fst snd].
      split; [reflexivity|split; [exact L6|]].
      right; right. split; [exact C5|split; [reflexivity|exact F]].
Qed.

Lemma not_blocked d :
  (forall ev, In ev d -> failed ev = true -> is_registration ev = true) ->
  blocked d -> False.
Proof.
  intros H (ev & Hin & F & R). rewrite (H ev Hin F) in R. discriminate R.
Qed.

(** Split a fact about the ways lines 100-102 can go into its cases. *)
Ltac config_cases C5 :=
  unfold config_attempt in C5;
  cbn [lookup String.eqb Ascii.eqb Bool.eqb] in C5;
  repeat match goal with
         | H : _ \/ _ |- _ => destruct H
         | H : exists _, _ |- _ => destruct H
         | H : _ /\ _ |- _ => destruct H
         | H : Some _ = Some ?b |- _ => injection H as H; subst b
         | H : None = Some _ |- _ => discriminate H
         | H : Some _ = None |- _ => discriminate H
         | H : Throw _ = Ret _ |- _ => discriminate H
         | H : Ret _ = Throw _ |- _ => discriminate H
         | H : Throw ?a = Throw ?b |- _ =>
             injection H as H; first [subst a | subst b]
         end; subst.

(** X11. [instantiate] returns the registry exactly when no call of the run
    failed except [setFactory] registrations: one failed artifact read,
    deployment or configuration call is enough for it not to return, although
    the first two are caught and logged, while failed registrations never
    keep it from returning. *)
Theorem instantiate_returns_iff_only_registrations_failed (env : Env)
    (txOptions : TxOptions) (st : State) :
  (exists registry, fst (instantiate env txOptions st) = Ret registry)
  <->
  (forall ev,
     In ev (new_events st (snd (instantiate env txOptions st))) ->
     failed ev = true -> is_registration ev = true).
Proof.
  split.
  - intros [reg Hret].
    assert (Hrun : instantiate env txOptions st =
                   (Ret reg, snd (instantiate env txOptions st))).
    { rewrite <- Hret. apply surjective_pairing. }
    destruct (instantiate_success _ _ _ _ _ Hrun)
      as (a1 & a2 & a3 & a4 & a5 & a6 & a7 & a8 & c1 & c2 & c3 & c4 & c5 & c6
          & c7 & c8 & d3 & r1 & r2 & r3 & d6 & _ & R3 & L6 & E).
    rewrite E. clear E Hrun Hret.
    intros ev Hin F.
    apply in_app_or in Hin. destruct Hin as [Hin|Hin].
    { cbn [In] in Hin.
      repeat destruct Hin as [<-|Hin]; try discriminate F; contradiction. }
    apply in_app_or in Hin. destruct Hin as [Hin|Hin].
    { unfold registration_attempt in R3.
      destruct R3 as [(q1 & q2 & q3 & ->)|[(e & ->)|[(q1 & e & ->)
                                                    |(q1 & q2 & e & ->)]]];
        cbn [In] in Hin;
        repeat destruct Hin as [<-|Hin];
        try discriminate F; try contradiction; reflexivity. }
    apply in_app_or in Hin. destruct Hin as [Hin|Hin].
    { cbn [In] in Hin.
      repeat destruct Hin as [<-|Hin]; try discriminate F; contradiction. }
    rewrite Forall_forall in L6. specialize (L6 _ Hin).
    destruct ev; discriminate.
  - intros H.
    destruct (instantiate_guarded_progress env txOptions st)
      as (d & sch & insts & E & P).
    pose proof (instantiate_tail env txOptions
                  {| trace := trace st ++ d; global_i := global_i st;
                     schemas := sch; instances := insts |}) as T.
    cbv zeta in T. rewrite <- E in T. cbn [instances] in T.
    destruct T as (d5 & d6 & Est & Hlog & T).
    assert (Eevs : new_events st (snd (instantiate env txOptions st)) =
                   d ++ d5 ++ d6).
    { apply new_events_app. rewrite Est. unfold emit. cbn [trace].
      now rewrite <- !app_assoc. }
    rewrite Eevs in H. clear Eevs Est E.
    destruct P as [B|(c1 & c2 & c3 & c4 & c5 & c6 & c7 & c8 & ->)].
    { exfalso. apply (not_blocked _ H). now apply blocked_app_l. }
    destruct T as [(e & He & C5 & ->)|[(C5 & He & name & Hn & Hl)
                                      |(C5 & Hr & _)]].
    + exfalso.
      assert (B : blocked d5 -> False).
      { intros B. apply (not_blocked _ H).
        now apply blocked_app_r, blocked_app_l. }
      clear H. config_cases C5; apply B; solve_blocked.
    + exfalso. unfold instance_names in Hn. cbn [In] in Hn.
      repeat destruct Hn as [<-|Hn]; try contradiction;
        cbn [lookup String.eqb Ascii.eqb Bool.eqb] in Hl; discriminate Hl.
    + eexists. exact Hr.
Qed.

(** X12. Whatever fails, [instantiate] ends in one of four ways: it returns
    the registry; it throws the [TypeError] of reading
    [setCommonReferenceString] from a missing engine; it throws the
    [TypeError] of reading [address] from a missing instance; or it throws
    the error of a failed [setCommonReferenceString] or [setProof] call,
    which is then the last event of the run.  The error of a failed read,
    deployment or registration is only ever logged. *)
Theorem instantiate_ends_in_one_of_four_ways (env : Env)
    (txOptions : TxOptions) (st : State) :
  let run := instantiate env txOptions st in
  (exists registry, fst run = Ret registry)
  \/ fst run = Throw (cannot_read "setCommonReferenceString")
  \/ fst run = Throw (cannot_read "address")
  \/ exists e before target method callArgs,
       (method = "setCommonReferenceString" \/ method = "setProof")
       /\ new_events st (snd run)
          = before ++ [ESend target method callArgs (Err e)]
       /\ fst run = Throw e.
Proof.
  cbv zeta.
  destruct (instantiate_guarded_progress env txOptions st)
    as (d & sch & insts & E & _).
  pose proof (instantiate_tail env txOptions
                {| trace := trace st ++ d; global_i := global_i st;
                   schemas := sch; instances := insts |}) as T.
  cbv zeta in T. rewrite <- E in T. cbn [instances] in T.
  destruct T as (d5 & d6 & Est & Hlog & T).
  assert (Eevs : new_events st (snd (instantiate env txOptions st)) =
                 d ++ d5 ++ d6).
  { apply new_events_app. rewrite Est. unfold emit. cbn [trace].
    now rewrite <- !app_assoc. }
  rewrite Eevs. clear Eevs Est E.
  destruct T as [(e & He & C5 & ->)|[(_ & He & _)|(_ & Hr & _)]].
  - rewrite He. rewrite app_nil_r. config_cases C5.
    + right; left. reflexivity.
    + do 3 right. eexists. exists d. do 3 eexists.
      split; [|split; reflexivity]. now left.
    + right; right; left. reflexivity.
    + do 3 right. eexists. eexists (d ++ [_]). do 3 eexists.
      split; [|split; [rewrite <- app_assoc; reflexivity|reflexivity]].
      now right.
    + right; right; left. reflexivity.
    + do 3 right. eexists. eexists (d ++ [_; _]). do 3 eexists.
      split; [|split; [rewrite <- app_assoc; reflexivity|reflexivity]].
      now right.
  - right; right; left. exact He.
  - left. eexists. exact Hr.
Qed.

(** X13. When [instantiate] returns, what it printed is: the line break and
    the announcement, the error of the failed registration if one failed,
    then the eight address lines, each giving the address of the instance
    the returned registry holds under that name, in the order of the
    registry, and a final line break. *)
Theorem instantiate_reports_the_returned_addresses (env : Env)
    (txOptions : TxOptions) (st st' : State)
    (reg : list (string * Instance)) :
  instantiate env txOptions st = (Ret reg, st') ->
  exists ace joinSplit joinSplitFluid erc20 baseFactory adjustableFactory
         zkAssetMintable zkAsset errors,
    reg = [("ace", ace); ("joinSplit", joinSplit);
           ("joinSplitFluid", joinSplitFluid); ("erc20", erc20);
           ("baseFactory", baseFactory);
           ("adjustableFactory", adjustableFactory);
           ("zkAssetMintable", zkAssetMintable); ("zkAsset", zkAsset)]
    /\ (errors = [] \/ exists e, errors = [ELog (LExn e)])
    /\ printed (new_events st st') =
       [ELog (LStr lineBreak); ELog (LStr "deploying AZTEC contracts...")]
       ++ errors
       ++ address_report ace joinSplit joinSplitFluid erc20 baseFactory
            adjustableFactory zkAssetMintable zkAsset.
Proof.
  intros Hrun.
  destruct (instantiate_guarded env txOptions st)
    as (d & sch & insts & E & _ & S).
  pose proof (instantiate_tail env txOptions
                {| trace := trace st ++ d; global_i := global_i st;
                   schemas := sch; instances := insts |}) as T.
  cbv zeta in T. rewrite <- E, Hrun in T. cbn [fst snd instances] in T.
  destruct T as (d5 & d6 & Est & Hlog & T).
  assert (Eevs : new_events st st' = d ++ d5 ++ d6).
  { apply new_events_app. rewrite Est. unfold emit. cbn [trace].
    now rewrite <- !app_assoc. }
  rewrite Eevs. clear Eevs Est E Hrun.
  destruct T as [(e & He & _)|[(_ & He & _)|(C5 & Hr & T)]];
    try discriminate He.
  injection Hr as ->.
  destruct T as (c1 & c2 & c3 & c4 & c5 & c6 & c7 & c8 & L & ->).
  destruct L as (L1 & L2 & L3 & L4 & L5 & L6 & L7 & L8).
  destruct (S c6 c8 L6 L8)
    as (a1 & a2 & a3 & a4 & a5 & a6 & a7 & a8 & b1 & b2 & b3 & b4 & b5 & b7
        & d3 & -> & R3 & ->).
  known_lookups. config_cases C5.
  exists c1, c2, c3, c4, c5, c6, c7, c8.
  unfold registration_attempt in R3.
  destruct R3 as [(q1 & q2 & q3 & ->)|[(e & ->)|[(q1 & e & ->)
                                                |(q1 & q2 & e & ->)]]].
  - exists []. split; [reflexivity|]. split; [now left|reflexivity].
  - exists [ELog (LExn e)]. split; [reflexivity|].
    split; [right; now exists e|reflexivity].
  - exists [ELog (LExn e)]. split; [reflexivity|].
    split; [right; now exists e|reflexivity].
  - exists [ELog (LExn e)]. split; [reflexivity|].
    split; [right; now exists e|reflexivity].
Qed.

Lemma instantiate_reports_the_returned_addresses_witness :
  instantiate (env_failing_send "setFactory") sample_txOptions fresh_state =
  (Ret sample_registry,
   snd (instantiate (env_failing_send "setFactory") sample_txOptions
                    fresh_state))
  /\
  exists ace joinSplit joinSplitFluid erc20 baseFactory adjustableFactory
         zkAssetMintable zkAsset errors,
    sample_registry =
    [("ace", ace); ("joinSplit", joinSplit);
     ("joinSplitFluid", joinSplitFluid); ("erc20", erc20);
     ("baseFactory", baseFactory); ("adjustableFactory", adjustableFactory);
     ("zkAssetMintable", zkAssetMintable); ("zkAsset", zkAsset)]
    /\ (errors = [] \/ exists e, errors = [ELog (LExn e)])
    /\ printed
         (new_events fresh_state
            (snd (instantiate (env_failing_send "setFactory")
                              sample_txOptions fresh_state))) =
       [ELog (LStr lineBreak); ELog (LStr "deploying AZTEC contracts...")]
       ++ errors
       ++ address_report ace joinSplit joinSplitFluid erc20 baseFactory
            adjustableFactory zkAssetMintable zkAsset.
Proof.
  split; [vm_compute; reflexivity|].
  apply (instantiate_reports_the_returned_addresses
           (env_failing_send "setFactory") sample_txOptions fresh_state).
  vm_compute. reflexivity.
Defined.

(** ** The parts of a run *)

Lemma well_sourced_incl K K' d :
  incl K K' -> well_sourced K d -> well_sourced K' d.
Proof.
  revert K K'. induction d as [|ev d IH]; intros K K' HK; [trivial|].
  cbn [well_sourced]. intros [Hev Hd]. split.
  - intros a Ha. apply HK, Hev, Ha.
  - apply (IH (K ++ deployed_address ev)); [|exact Hd].
    apply incl_app; [apply incl_appl, HK|apply incl_appr, incl_refl].
Qed.

Lemma well_sourced_app K d1 d2 :
  well_sourced K d1 -> well_sourced (K ++ deployed d1) d2 ->
  well_sourced K (d1 ++ d2).
Proof.
  revert K. induction d1 as [|ev d1 IH]; intros K H1 H2.
  - cbn [deployed flat_map] in H2. now rewrite app_nil_r in H2.
  - cbn [app well_sourced] in *. destruct H1 as [Hev H1]. split; [exact Hev|].
    apply IH; [exact H1|]. unfold deployed in *. cbn [flat_map] in H2.
    now rewrite <- app_assoc.
Qed.

Lemma deployed_app d1 d2 : deployed (d1 ++ d2) = deployed d1 ++ deployed d2.
Proof. apply flat_map_app. Qed.

Lemma registry_known_incl K K' insts :
  incl K K' -> registry_known K insts -> registry_known K' insts.
Proof. intros HK H name c L. apply HK, (H name c L). Qed.

Lemma registry_known_assign K key v insts :
  In (address v) K -> registry_known K insts ->
  registry_known K (assign key v insts).
Proof.
  intros Hv H name c L.
  destruct (String.eqb_spec name key) as [->|Hne].
  - rewrite lookup_assign_same in L. now injection L as <-.
  - rewrite lookup_assign_other in L by now apply String.eqb_neq.
    exact (H name c L).
Qed.

#[local] Arguments address_args l : simpl nomatch.

Lemma address_args_plain x rest :
  is_address x = false -> address_args (x :: rest) = address_args rest.
Proof. destruct x; [reflexivity|reflexivity|discriminate|reflexivity..]. Qed.

Lemma part_ok_weaken env K d insts r p g c r' p' g' c' :
  part_ok env K d insts r p g c ->
  (r <= r')%nat -> (p <= p')%nat -> (g <= g')%nat -> (c <= c')%nat ->
  part_ok env K d insts r' p' g' c'.
Proof.
  intros (W & O & C1 & C2 & C3 & C4) Hr Hp Hg Hc.
  split; [exact W|split; [exact O|]].
  repeat split; lia.
Qed.

Lemma part_ok_app env K d1 i1 d2 i2 r1 p1 g1 c1 r2 p2 g2 c2 :
  part_ok env K d1 i1 r1 p1 g1 c1 ->
  part_ok env (K ++ deployed d1) d2 i2 r2 p2 g2 c2 ->
  part_ok env K (d1 ++ d2) i2 (r1 + r2) (p1 + p2) (g1 + g2) (c1 + c2).
Proof.
  intros (W1 & O1 & A1 & B1 & C1 & D1) (W2 & O2 & A2 & B2 & C2 & D2).
  split; [|split].
  - intros P. destruct (W1 P) as [S1 R1]. destruct (W2 P) as [S2 R2].
    split; [now apply well_sourced_app|].
    now rewrite deployed_app, app_assoc.
  - rewrite forallb_app, O1, O2. reflexivity.
  - unfold artifact_reads, deployments, registrations, configuration_calls
      in *.
    rewrite !filter_app, !length_app. repeat split; lia.
Qed.

Lemma part_ok_logs env K d insts :
  Forall (fun ev => is_log ev = true) d ->
  (plain_constants env -> registry_known K insts) ->
  part_ok env K d insts 0 0 0 0.
Proof.
  intros L R.
  assert (D : deployed d = []).
  { induction L as [|ev d Hev _ IH]; [reflexivity|].
    destruct ev; try discriminate Hev. exact IH. }
  split; [intros P; split; [|rewrite D, app_nil_r; exact (R P)]|split].
  - clear D R. revert K. induction L as [|ev d Hev _ IH]; intros K; [exact I|].
    destruct ev; try discriminate Hev. cbn [well_sourced addresses_used].
    split; [intros a []|]. cbn [deployed_address]. rewrite app_nil_r. apply IH.
  - clear D. induction L as [|ev d Hev _ IH]; [reflexivity|].
    destruct ev; try discriminate Hev. exact IH.
  - unfold artifact_reads, deployments, registrations, configuration_calls.
    rewrite !(filter_logs _ _ (fun _ => eq_refl) L). cbn. lia.
Qed.

(** An address of the registry, or of a deployment of the part at hand. *)
Ltac known_address :=
  rewrite ?in_app_iff; cbn [In]; solve [eauto 12].

(** A part given by its events and by the lookups that succeeded. *)
Ltac solve_part :=
  unfold part_ok;
  split;
  [ let P := fresh "P" in
    intros P;
    match goal with H : plain_constants _ -> _ |- _ => specialize (H P) end;
    destruct P as (P1 & P2 & P3 & P4); split;
    [ repeat first
        [ progress cbn [well_sourced addresses_used address_args
                        deployed_address]
        | rewrite address_args_plain by assumption ];
      repeat split; intros ? Hin; cbn [In] in Hin;
      repeat destruct Hin as [<-|Hin]; try contradiction; known_address
    | cbn [deployed flat_map deployed_address app];
      repeat (apply registry_known_assign; [known_address|]);
      eapply registry_known_incl; [|eassumption];
      apply incl_appl, incl_refl ]
  | split; [reflexivity|cbn; lia] ].

Lemma read_schemas_ok env st K :
  (plain_constants env -> registry_known K (instances st)) ->
  exists d sch,
    try_catch (read_schemas env) log_error st =
    (Ret tt, {| trace := trace st ++ d; global_i := global_i st;
                schemas := sch; instances := instances st |})
    /\ part_ok env K d (instances st) 8 0 0 0.
Proof.
  destruct st as [tr gi sch0 insts]. cbn [instances]. intros Hreg.
  unfold read_schemas. run_block.
  all: eexists; eexists; split; [final_state|solve_part].
Qed.

Lemma deploy_engine_ok env txOptions st K :
  (plain_constants env -> registry_known K (instances st)) ->
  exists d insts,
    try_catch (deploy_engine env txOptions) log_error st =
    (Ret tt, {| trace := trace st ++ d; global_i := global_i st;
                schemas := schemas st; instances := insts |})
    /\ part_ok env K d insts 0 6 0 0.
Proof.
  destruct st as [tr gi sch insts0]. cbn [instances schemas]. intros Hreg.
  unfold deploy_engine. run_block.
  all: eexists; eexists; split; [final_state|solve_part].
Qed.

Lemma set_factories_ok env txOptions st K :
  (plain_constants env -> registry_known K (instances st)) ->
  exists d,
    try_catch (set_factories env txOptions) log_error st = (Ret tt, emit d st)
    /\ part_ok env K d (instances st) 0 0 3 0.
Proof.
  destruct st as [tr gi sch insts]. unfold set_factories, emit.
  cbn [trace global_i schemas instances]. intros Hreg. run_block.
  all: eexists; split; [final_state|solve_part].
Qed.

Lemma deploy_zkAssets_ok env txOptions st K :
  (plain_constants env -> registry_known K (instances st)) ->
  exists d insts,
    try_catch (deploy_zkAssets env txOptions) log_error st =
    (Ret tt, {| trace := trace st ++ d; global_i := global_i st;
                schemas := schemas st; instances := insts |})
    /\ part_ok env K d insts 0 2 0 0.
Proof.
  destruct st as [tr gi sch insts0]. unfold deploy_zkAssets.
  cbn [trace global_i schemas instances]. intros Hreg. run_block.
  all: eexists; eexists; split; [final_state|solve_part].
Qed.

Lemma config_attempt_ok env txOptions insts d out K :
  (plain_constants env -> registry_known K insts) ->
  config_attempt env txOptions insts d out ->
  part_ok env K d insts 0 0 0 3.
Proof.
  intros Hreg C5. unfold config_attempt in C5.
  repeat match goal with
         | H : _ \/ _ |- _ => destruct H
         | H : exists _, _ |- _ => destruct H
         | H : _ /\ _ |- _ => destruct H
         end; subst; solve_part.
Qed.

(** The four guarded blocks of a run, and the rest. *)
Lemma instantiate_blocks env txOptions st :
  let s0 := {| trace := (trace st ++ [ELog (LStr lineBreak)])
                        ++ [ELog (LStr "deploying AZTEC contracts...")];
               global_i := global_i st; schemas := []; instances := [] |} in
  exists s1 s2 s3 s4,
    try_catch (read_schemas env) log_error s0 = (Ret tt, s1)
    /\ try_catch (deploy_engine env txOptions) log_error s1 = (Ret tt, s2)
    /\ try_catch (set_factories env txOptions) log_error s2 = (Ret tt, s3)
    /\ try_catch (deploy_zkAssets env txOptions) log_error s3 = (Ret tt, s4)
    /\ instantiate env txOptions st =
       (configure_engine env txOptions ;; report_addresses ;;
        fun s => (Ret (instances s), s)) s4.
Proof.
  cbv zeta. unfold instantiate.
  erewrite bind_Ret by reflexivity.
  erewrite bind_Ret by reflexivity.
  erewrite bind_Ret by reflexivity.
  cbn [trace global_i schemas instances record].
  cbn beta.
  match goal with |- context [bind (try_catch (read_schemas env) log_error) _ ?s] =>
    destruct (read_schemas_guarded env s eq_refl) as (d1 & sch & E1 & _)
  end.
  erewrite bind_Ret by exact E1.
  match goal with |- context [bind (try_catch (deploy_engine env txOptions) log_error) _ ?s] =>
    destruct (deploy_engine_guarded env txOptions s eq_refl)
      as (d2 & insts2 & E2 & _)
  end.
  erewrite bind_Ret by exact E2.
  match goal with |- context [bind (try_catch (set_factories env txOptions) log_error) _ ?s] =>
    destruct (set_factories_guarded env txOptions s) as (d3 & E3 & _)
  end.
  erewrite bind_Ret by exact E3.
  match goal with |- context [bind (try_catch (deploy_zkAssets env txOptions) log_error) _ ?s] =>
    destruct (deploy_zkAssets_guarded env txOptions s)
      as (d4 & insts4 & E4 & _)
  end.
  erewrite bind_Ret by exact E4.
  do 4 eexists.
  split; [exact E1|split; [exact E2|split; [exact E3|split; [exact E4|]]]].
  reflexivity.
Qed.

(** Every run of [instantiate], part by part. *)
Lemma instantiate_parts env txOptions st :
  exists insts,
    part_ok env [] (new_events st (snd (instantiate env txOptions st))) insts
            8 8 3 3.
Proof.
  destruct (instantiate_blocks env txOptions st)
    as (s1 & s2 & s3 & s4 & E1 & E2 & E3 & E4 & E).
  cbv zeta in E1.
  set (d0 := [ELog (LStr lineBreak);
              ELog (LStr "deploying AZTEC contracts...")]).
  assert (P0 : part_ok env [] d0 [] 0 0 0 0).
  { apply part_ok_logs; [repeat constructor|]. intros _ name c L.
    discriminate L. }
  match type of E1 with try_catch _ _ ?s = _ =>
    destruct (read_schemas_ok env s ([] ++ deployed d0)
                (fun P => proj2 (proj1 P0 P))) as (d1 & sch & E1' & P1)
  end.
  rewrite E1' in E1. injection E1 as <-. clear E1'.
  cbn [trace global_i schemas instances] in *.
  pose proof (part_ok_app _ _ _ _ _ _ _ _ _ _ _ _ _ _ P0 P1) as P01.
  clear P0 P1.
  match type of E2 with try_catch _ _ ?s = _ =>
    destruct (deploy_engine_ok env txOptions s ([] ++ deployed (d0 ++ d1))
                (fun P => proj2 (proj1 P01 P))) as (d2 & insts2 & E2' & P2)
  end.
  rewrite E2' in E2. injection E2 as <-. clear E2'.
  cbn [trace global_i schemas instances] in *.
  pose proof (part_ok_app _ _ _ _ _ _ _ _ _ _ _ _ _ _ P01 P2) as P02.
  clear P01 P2.
  match type of E3 with try_catch _ _ ?s = _ =>
    destruct (set_factories_ok env txOptions s
                ([] ++ deployed ((d0 ++ d1) ++ d2))
                (fun P => proj2 (proj1 P02 P))) as (d3 & E3' & P3)
  end.
  rewrite E3' in E3. injection E3 as <-. clear E3'.
  unfold emit in *. cbn [trace global_i schemas instances] in *.
  pose proof (part_ok_app _ _ _ _ _ _ _ _ _ _ _ _ _ _ P02 P3) as P03.
  clear P02 P3.
  match type of E4 with try_catch _ _ ?s = _ =>
    destruct (deploy_zkAssets_ok env txOptions s
                ([] ++ deployed (((d0 ++ d1) ++ d2) ++ d3))
                (fun P => proj2 (proj1 P03 P))) as (d4 & insts4 & E4' & P4)
  end.
  rewrite E4' in E4. injection E4 as <-. clear E4'.
  cbn [trace global_i schemas instances] in *.
  pose proof (part_ok_app _ _ _ _ _ _ _ _ _ _ _ _ _ _ P03 P4) as P04.
  clear P03 P4.
  match type of E with _ = _ ?s =>
    pose proof (instantiate_tail env txOptions s) as T
  end.
  cbv zeta in T. rewrite <- E in T. cbn [instances] in T.
  destruct T as (d5 & d6 & Est & Hlog & T).
  assert (C5 : exists out, config_attempt env txOptions insts4 d5 out).
  { destruct T as [(e & _ & C5 & _)|[(C5 & _)|(C5 & _)]]; eauto. }
  destruct C5 as (out & C5).
  pose proof (config_attempt_ok env txOptions insts4 d5 out
                ([] ++ deployed ((((d0 ++ d1) ++ d2) ++ d3) ++ d4))
                (fun P => proj2 (proj1 P04 P)) C5) as P5.
  pose proof (part_ok_app _ _ _ _ _ _ _ _ _ _ _ _ _ _ P04 P5) as P05.
  clear P04 P5.
  pose proof (part_ok_logs env
                ([] ++ deployed (((((d0 ++ d1) ++ d2) ++ d3) ++ d4) ++ d5))
                d6 insts4 Hlog (fun P => proj2 (proj1 P05 P))) as P6.
  pose proof (part_ok_app _ _ _ _ _ _ _ _ _ _ _ _ _ _ P05 P6) as P06.
  clear P05 P6.
  assert (Eevs : new_events st (snd (instantiate env txOptions st)) =
                 (((((d0 ++ d1) ++ d2) ++ d3) ++ d4) ++ d5) ++ d6).
  { apply new_events_app. rewrite Est. unfold emit, d0. cbn [trace].
    rewrite <- !app_assoc. reflexivity. }
  rewrite Eevs. exists insts4.
  apply (part_ok_weaken _ _ _ _ _ _ _ _ _ _ _ _ P06); cbn; lia.
Qed.

Lemma method_calls_of_instantiate d :
  forallb instantiate_operation d = true ->
  List.length (method_calls d) =
  (List.length (registrations d) + List.length (configuration_calls d))%nat.
Proof.
  unfold method_calls, registrations, configuration_calls.
  induction d as [|ev d IH]; [reflexivity|].
  cbn [forallb]. intros H. apply andb_prop in H. destruct H as [Hev Hd].
  specialize (IH Hd).
  destruct ev; cbn [filter is_method_call is_registration is_config_call];
    try exact IH.
  cbn [instantiate_operation existsb] in Hev.
  destruct (String.eqb_spec method "setFactory") as [->|_].
  { cbn. lia. }
  destruct (String.eqb_spec method "setCommonReferenceString") as [->|_].
  { cbn. lia. }
  destruct (String.eqb_spec method "setProof") as [->|_].
  { cbn. lia. }
  discriminate Hev.
Qed.

(** X14. Provided the constants taken from the libraries are not contract
    addresses, [instantiate] passes on only addresses it obtained itself:
    in every run, failing or not, the contract on which a method is called
    and every address given to a method or to a constructor is the address
    of an instance that a successful deployment returned earlier in the same
    run. *)
Theorem instantiate_uses_only_addresses_it_deployed (env : Env)
    (txOptions : TxOptions) (st : State) :
  plain_constants env ->
  well_sourced [] (new_events st (snd (instantiate env txOptions st))).
Proof.
  intros P. destruct (instantiate_parts env txOptions st) as (insts & W & _).
  exact (proj1 (W P)).
Qed.

Lemma instantiate_uses_only_addresses_it_deployed_witness :
  plain_constants cooperative_env
  /\ well_sourced []
       (new_events fresh_state
          (snd (instantiate cooperative_env sample_txOptions fresh_state))).
Proof.
  assert (P : plain_constants cooperative_env).
  { repeat split; reflexivity. }
  split; [exact P|].
  exact (instantiate_uses_only_addresses_it_deployed
           cooperative_env sample_txOptions fresh_state P).
Defined.

(** X15. In every run, failing or not, [instantiate] does nothing but print,
    read the eight artifact files, deploy contracts and call [setFactory],
    [setCommonReferenceString] and [setProof]; it reads at most eight
    artifacts, deploys at most eight contracts, and sends at most six
    transactions: at most three registrations and three configuration
    calls. *)
Theorem instantiate_operations_are_bounded (env : Env)
    (txOptions : TxOptions) (st : State) :
  let evs := new_events st (snd (instantiate env txOptions st)) in
  forallb instantiate_operation evs = true
  /\ (List.length (artifact_reads evs) <= 8
      /\ List.length (deployments evs) <= 8
      /\ List.length (registrations evs) <= 3
      /\ List.length (configuration_calls evs) <= 3
      /\ List.length (method_calls evs) <= 6)%nat.
Proof.
  cbv zeta.
  destruct (instantiate_parts env txOptions st)
    as (insts & _ & O & R & D & G & C).
  split; [exact O|]. rewrite (method_calls_of_instantiate _ O).
  repeat split; try assumption. lia.
Qed.

(** The list that precedes the last three elements of an explicit list. *)
Ltac split_last3 :=
  match goal with
  | |- ?L = ?B ++ _ =>
      let n := eval cbn in (List.length L - 3)%nat in
      let b := eval cbn [firstn] in (firstn n L) in
      unify B b; reflexivity
  end.

(** X16. When [instantiate] returns, its last three calls are the
    configuration of the engine, all successful and in this order:
    [setCommonReferenceString] with the CRS, [setProof] with the join-split
    proof id and the address of the registry's joinSplit, [setProof] with the
    mint proof id and the address of the registry's joinSplitFluid, each on
    the registry's engine.  No configuration call is made before the reads,
    the deployments and the registrations are over. *)
Theorem instantiate_configures_the_engine_last (env : Env)
    (txOptions : TxOptions) (st st' : State)
    (reg : list (string * Instance)) :
  instantiate env txOptions st = (Ret reg, st') ->
  exists ace joinSplit joinSplitFluid before r1 r2 r3,
    (lookup "ace" reg = Some ace
     /\ lookup "joinSplit" reg = Some joinSplit
     /\ lookup "joinSplitFluid" reg = Some joinSplitFluid)
    /\ configuration_calls before = []
    /\ external_calls (new_events st st') =
       before
       ++ [ESend ace "setCommonReferenceString"
                 [bn128_CRS env; ATx txOptions] (Ok r1);
           ESend ace "setProof"
                 [JOIN_SPLIT_PROOF env; AAddr (address joinSplit);
                  ATx txOptions] (Ok r2);
           ESend ace "setProof"
                 [MINT_PROOF env; AAddr (address joinSplitFluid);
                  ATx txOptions] (Ok r3)].
Proof.
  intros Hrun.
  destruct (instantiate_success _ _ _ _ _ Hrun)
    as (a1 & a2 & a3 & a4 & a5 & a6 & a7 & a8 & c1 & c2 & c3 & c4 & c5 & c6
        & c7 & c8 & d3 & r1 & r2 & r3 & d6 & -> & R3 & L6 & ->).
  exists c1, c2, c3.
  unfold external_calls.
  rewrite !filter_app, (filter_logs _ d6 (fun _ => eq_refl) L6), app_nil_r.
  cbn [filter is_log negb app].
  unfold registration_attempt in R3.
  destruct R3 as [(q1 & q2 & q3 & ->)|[(e & ->)|[(q1 & e & ->)
                                                |(q1 & q2 & e & ->)]]];
    cbn [filter is_log negb app];
    eexists; exists r1, r2, r3;
    (split; [repeat split; reflexivity|]);
    (split; [|split_last3]); reflexivity.
Qed.

Lemma instantiate_configures_the_engine_last_witness :
  instantiate cooperative_env sample_txOptions fresh_state =
  (Ret sample_registry, sample_deployment)
  /\
  exists ace joinSplit joinSplitFluid before r1 r2 r3,
    (lookup "ace" sample_registry = Some ace
     /\ lookup "joinSplit" sample_registry = Some joinSplit
     /\ lookup "joinSplitFluid" sample_registry = Some joinSplitFluid)
    /\ configuration_calls before = []
    /\ external_calls (new_events fresh_state sample_deployment) =
       before
       ++ [ESend ace "setCommonReferenceString"
                 [bn128_CRS cooperative_env; ATx sample_txOptions] (Ok r1);
           ESend ace "setProof"
                 [JOIN_SPLIT_PROOF cooperative_env;
                  AAddr (address joinSplit); ATx sample_txOptions] (Ok r2);
           ESend ace "setProof"
                 [MINT_PROOF cooperative_env; AAddr (address joinSplitFluid);
                  ATx sample_txOptions] (Ok r3)].
Proof.
  split; [vm_compute; reflexivity|].
  apply (instantiate_configures_the_engine_last
           cooperative_env sample_txOptions fresh_state sample_deployment).
  vm_compute. reflexivity.
Defined.
